(** * Kozani backend: the chat relay and the login endpoint of [server.js]

    A shallow embedding of the two request handlers of [server.js]
    ([POST /api/kozani-chat] and [POST /login]) and of the helpers they call
    ([query], [findUserByPhone], [createUser], [saveMessage],
    [getRecentMessages]), followed by the properties of the specification
    that concern them.

    [server.js] holds two successive versions of the server; the embedding
    follows the later one, with the store, the login and the conversation
    memory, which is the one the specification describes.

    The handlers are [async] functions that talk to three collaborators: the
    PostgreSQL pool, the Groq client and bcrypt.  They are embedded in a
    state-and-exception monad over a [World] that holds the two tables, the
    answers of the collaborators and the trace of the calls made. *)

From Stdlib Require Import List String Ascii ZArith Bool Arith Lia QArith.
From Stdlib Require Import Sorting.Sorted Sorting.Permutation.
From Stdlib Require Import Numbers.DecimalString.
Import ListNotations.

Close Scope Q_scope.
Local Open Scope string_scope.
Local Open Scope list_scope.

(* ================================================================== *)
(** ** JavaScript values *)
(* ================================================================== *)

(** The values that [express.json()] puts in [req.body], that the drivers
    hand back, and that the handlers build for [res.json].  Numbers are the
    integers below 10^21 in absolute value, which JavaScript prints in plain
    decimal notation; an object is the list of its own properties. *)
#[local] Set Warnings "-register-all".
Inductive JsVal : Type :=
| JUndefined
| JNull
| JBool (b : bool)
| JNum (z : Z)
| JStr (s : string)
| JArr (items : list JsVal)
| JObj (fields : list (string * JsVal)).

(** ToBoolean: what [!v], [if (v)] and [a || b] test. *)
Definition truthy (v : JsVal) : bool :=
  match v with
  | JUndefined | JNull => false
  | JBool b => b
  | JNum z => negb (z =? 0)%Z
  | JStr s => negb (s =? "")
  | JArr _ | JObj _ => true
  end.

(** [v === undefined || v === null], the test of [?.] and [??]. *)
Definition nullish (v : JsVal) : bool :=
  match v with
  | JUndefined | JNull => true
  | _ => false
  end.

(** [a || b] *)
Definition js_or (a b : JsVal) : JsVal := if truthy a then a else b.

(** [a ?? b] *)
Definition js_coalesce (a b : JsVal) : JsVal := if nullish a then b else a.

(** A destructuring default, [{ k = d }]: used only when the property is
    [undefined] ([null] is kept). *)
Definition js_default (v d : JsVal) : JsVal :=
  match v with
  | JUndefined => d
  | _ => v
  end.

Fixpoint lookup_field (k : string) (fields : list (string * JsVal)) : JsVal :=
  match fields with
  | [] => JUndefined
  | (k', v) :: rest => if k' =? k then v else lookup_field k rest
  end.

(** [v.k] on a value that is not nullish, for the property names the
    handlers read ([query], [snippets], [text], [choices], ...): none of them
    is a built-in property of an array, a string, a number or a boolean, so
    only an object can answer with something else than [undefined]. *)
Definition get_prop (v : JsVal) (k : string) : JsVal :=
  match v with
  | JObj fields => lookup_field k fields
  | _ => JUndefined
  end.

Definition string_of_nat (n : nat) : string :=
  NilZero.string_of_uint (Nat.to_uint n).

Definition string_of_Z (z : Z) : string :=
  NilZero.string_of_int (Z.to_int z).

(** [v[i]] on a value that is not nullish. *)
Definition get_index (v : JsVal) (i : nat) : JsVal :=
  match v with
  | JArr items => nth i items JUndefined
  | JStr s => match String.get i s with
              | Some c => JStr (String c EmptyString)
              | None => JUndefined
              end
  | JObj fields => lookup_field (string_of_nat i) fields
  | _ => JUndefined
  end.

(** ToString, as [Array.prototype.join] applies it to each element, for the
    values on which it returns; [to_string_throws] below tells on which
    values it throws instead.  A number is printed in decimal notation, as
    JavaScript prints the integers below 10^21. *)
Fixpoint js_to_string (v : JsVal) : string :=
  match v with
  | JUndefined => "undefined"
  | JNull => "null"
  | JBool true => "true"
  | JBool false => "false"
  | JNum z => string_of_Z z
  | JStr s => s
  | JArr items =>
      String.concat ","
        (map (fun x => match x with
                       | JUndefined | JNull => ""
                       | _ => js_to_string x
                       end) items)
  | JObj _ => "[object Object]"
  end.

(** Whether ToString throws on [v].  An object is converted by its
    [toString]; the inherited one answers "[object Object]", but an own
    property named [toString] hides it, and in a value that comes from JSON
    an own property is never a function: the conversion then falls back on
    [valueOf], which gives no primitive value either, and throws a
    TypeError.  An array is converted by joining its elements, so it throws
    when one of them does. *)
Fixpoint to_string_throws (v : JsVal) : bool :=
  match v with
  | JObj fields => existsb (fun kv => fst kv =? "toString") fields
  | JArr items =>
      existsb (fun x => match x with
                        | JUndefined | JNull => false
                        | _ => to_string_throws x
                        end) items
  | _ => false
  end.

(** The string an element contributes to [join]: empty for [undefined] and
    [null]. *)
Definition join_element (v : JsVal) : string :=
  if nullish v then "" else js_to_string v.

(** Whether [join] throws on the element [v]. *)
Definition join_element_throws (v : JsVal) : bool :=
  if nullish v then false else to_string_throws v.

(** The string that [items.join(sep)] returns, when the conversion of no
    element throws. *)
Definition js_join (sep : string) (items : list JsVal) : string :=
  String.concat sep (map join_element items).

(* ------------------------------------------------------------------ *)
(** *** [String.prototype.trim] *)
(* ------------------------------------------------------------------ *)

(** The white space and line terminators that [trim] removes, as the byte
    sequences of their UTF-8 encoding: TAB, LF, VT, FF, CR, SP, U+00A0,
    U+1680, U+2000..U+200A, U+2028, U+2029, U+202F, U+205F, U+3000,
    U+FEFF. *)
Definition white_space_codes : list (list nat) :=
  [ [9]; [10]; [11]; [12]; [13]; [32];
    [194; 160];
    [225; 154; 128];
    [226; 128; 128]; [226; 128; 129]; [226; 128; 130]; [226; 128; 131];
    [226; 128; 132]; [226; 128; 133]; [226; 128; 134]; [226; 128; 135];
    [226; 128; 136]; [226; 128; 137]; [226; 128; 138];
    [226; 128; 168]; [226; 128; 169];
    [226; 128; 175];
    [226; 129; 159];
    [227; 128; 128];
    [239; 187; 191] ].

Definition white_space : list (list ascii) :=
  map (map ascii_of_nat) white_space_codes.

Fixpoint strip_prefix (p s : list ascii) : option (list ascii) :=
  match p, s with
  | [], _ => Some s
  | _ :: _, [] => None
  | a :: p', b :: s' => if Ascii.eqb a b then strip_prefix p' s' else None
  end.

Fixpoint strip_any (ps : list (list ascii)) (s : list ascii)
  : option (list ascii) :=
  match ps with
  | [] => None
  | p :: ps' => match strip_prefix p s with
                | Some s' => Some s'
                | None => strip_any ps' s
                end
  end.

(** Remove leading occurrences of the patterns [ps]; [fuel] bounds the
    number of removals and the length of the text is always enough. *)
Fixpoint strip_leading (ps : list (list ascii)) (fuel : nat) (s : list ascii)
  : list ascii :=
  match fuel with
  | O => s
  | S fuel' => match strip_any ps s with
               | Some s' => strip_leading ps fuel' s'
               | None => s
               end
  end.

Definition trim_start_bytes (s : list ascii) : list ascii :=
  strip_leading white_space (List.length s) s.

Definition trim_end_bytes (s : list ascii) : list ascii :=
  rev (strip_leading (map (@rev ascii) white_space) (List.length s) (rev s)).

(** [s.trim()] *)
Definition js_trim (s : string) : string :=
  string_of_list_ascii
    (trim_end_bytes (trim_start_bytes (list_ascii_of_string s))).

(** Structural comparison of two values. *)
Fixpoint js_eqb (a b : JsVal) : bool :=
  match a, b with
  | JUndefined, JUndefined => true
  | JNull, JNull => true
  | JBool x, JBool y => Bool.eqb x y
  | JNum x, JNum y => (x =? y)%Z
  | JStr x, JStr y => (x =? y)
  | JArr xs, JArr ys =>
      (fix all2 (xs ys : list JsVal) : bool :=
         match xs, ys with
         | [], [] => true
         | x :: xs', y :: ys' => js_eqb x y && all2 xs' ys'
         | _, _ => false
         end) xs ys
  | JObj xs, JObj ys =>
      (fix all2 (xs ys : list (string * JsVal)) : bool :=
         match xs, ys with
         | [], [] => true
         | (k, x) :: xs', (k', y) :: ys' =>
             (k =? k') && js_eqb x y && all2 xs' ys'
         | _, _ => false
         end) xs ys
  | _, _ => false
  end.

(* ================================================================== *)
(** ** The collaborators and the world *)
(* ================================================================== *)

(** What a [try] block can catch. *)
Inductive JsError : Type :=
| TypeError (message : string)
| StoreError (detail : string)
| GroqError (detail : string)
| BcryptError (detail : string).

(** One prompt turn, [{ role, content }]. *)
Record Turn : Type := mkTurn { role : JsVal; content : JsVal }.

(** The argument of [groq.chat.completions.create]. *)
Record GroqRequest : Type := mkGroqRequest {
  model : string;
  messages : list Turn;
  temperature : Q;
  max_tokens : Z
}.

(** The statements the program sends through [pool.query], with their
    parameters. *)
Inductive SqlStmt : Type :=
| SelectUserByPhone (phone : JsVal)
| InsertUser (phone passwordHash name : JsVal)
| InsertMessage (user_id role content : JsVal)
| SelectRecentMessages (user_id : JsVal) (limit : nat)
| SelectNow.

(** A row of [users]. *)
Record UserRow : Type := mkUserRow {
  usr_id : Z;
  usr_phone : JsVal;
  usr_password_hash : JsVal;
  usr_name : JsVal;
  usr_created_at : Z
}.

(** Modelled from the spec: the [messages] table, whose schema is not part
    of [server.js].  A Message belongs to one User, has a role, a content
    and a creation timestamp that the store sets when the row is inserted
    (the INSERT of [saveMessage] gives no timestamp) and that orders the
    messages.  Parameters are stored as the program passes them. *)
Record MessageRow : Type := mkMessageRow {
  msg_user_id : JsVal;
  msg_role : JsVal;
  msg_content : JsVal;
  msg_created_at : Z
}.

(** The answer of a collaborator: a value, or a failure with its detail. *)
Inductive Ext (A : Type) : Type :=
| Answer (a : A)
| Fault (detail : string).
Arguments Answer {A} a.
Arguments Fault {A} detail.

(** The calls that leave the process, and the lines written by
    [console.error]. *)
Inductive Event : Type :=
| EvQuery (sql : SqlStmt)
| EvGroq (request : GroqRequest)
| EvHash (password : JsVal) (rounds : nat)
| EvCompare (password hash : JsVal)
| EvLog (label : string) (err : JsError).

(** The state a handler runs in.  [store_fault n] tells whether the [n]-th
    statement sent to the pool fails; [groq_answer], [hash_answer] and
    [compare_answer] are what the Groq client and bcrypt answer. *)
Record World : Type := mkWorld {
  users_table : list UserRow;
  messages_table : list MessageRow;
  clock : Z;
  next_user_id : Z;
  store_fault : nat -> option string;
  store_calls : nat;
  groq_answer : GroqRequest -> Ext JsVal;
  hash_answer : JsVal -> nat -> Ext JsVal;
  compare_answer : JsVal -> JsVal -> Ext bool;
  trace : list Event
}.

Definition emit (e : Event) (w : World) : World :=
  mkWorld (users_table w) (messages_table w) (clock w) (next_user_id w)
          (store_fault w) (store_calls w) (groq_answer w) (hash_answer w)
          (compare_answer w) (trace w ++ [e]).

Definition count_store_call (w : World) : World :=
  mkWorld (users_table w) (messages_table w) (clock w) (next_user_id w)
          (store_fault w) (S (store_calls w)) (groq_answer w) (hash_answer w)
          (compare_answer w) (trace w).

Definition add_message (m : MessageRow) (w : World) : World :=
  mkWorld (users_table w) (messages_table w ++ [m]) (clock w + 1)
          (next_user_id w) (store_fault w) (store_calls w) (groq_answer w)
          (hash_answer w) (compare_answer w) (trace w).

Definition add_user (u : UserRow) (w : World) : World :=
  mkWorld (users_table w ++ [u]) (messages_table w) (clock w + 1)
          (next_user_id w + 1) (store_fault w) (store_calls w) (groq_answer w)
          (hash_answer w) (compare_answer w) (trace w).

(* ------------------------------------------------------------------ *)
(** *** The store *)
(* ------------------------------------------------------------------ *)

(** SQL [column = $n]: never true of NULL. *)
Definition sql_eq (column param : JsVal) : bool :=
  negb (nullish column) && negb (nullish param) && js_eqb column param.

(** [ORDER BY created_at DESC] *)
Fixpoint insert_desc (m : MessageRow) (l : list MessageRow) : list MessageRow :=
  match l with
  | [] => [m]
  | x :: l' => if (msg_created_at x <? msg_created_at m)%Z
               then m :: l
               else x :: insert_desc m l'
  end.

Definition order_by_created_at_desc (l : list MessageRow) : list MessageRow :=
  fold_right insert_desc [] l.

(** [WHERE user_id = $1 ORDER BY created_at DESC LIMIT $2] *)
Definition recent_rows (user_id : JsVal) (limit : nat) (tbl : list MessageRow)
  : list MessageRow :=
  firstn limit
    (order_by_created_at_desc
       (filter (fun m => sql_eq (msg_user_id m) user_id) tbl)).

(** [SELECT role, content] *)
Definition message_columns (m : MessageRow) : JsVal :=
  JObj [("role", msg_role m); ("content", msg_content m)].

(** [SELECT id, phone, password_hash, name] *)
Definition user_columns (u : UserRow) : JsVal :=
  JObj [("id", JNum (usr_id u)); ("phone", usr_phone u);
        ("password_hash", usr_password_hash u); ("name", usr_name u)].

(** [RETURNING id, phone, name, created_at] *)
Definition user_returning (u : UserRow) : JsVal :=
  JObj [("id", JNum (usr_id u)); ("phone", usr_phone u);
        ("name", usr_name u); ("created_at", JNum (usr_created_at u))].

(** What the store does with a statement it accepts: the rows it returns
    and its new state. *)
Definition run_sql (sql : SqlStmt) (w : World) : list JsVal * World :=
  match sql with
  | SelectUserByPhone phone =>
      (map user_columns
           (filter (fun u => sql_eq (usr_phone u) phone) (users_table w)), w)
  | InsertUser phone passwordHash name =>
      let u := mkUserRow (next_user_id w) phone passwordHash name (clock w) in
      ([user_returning u], add_user u w)
  | InsertMessage user_id role content =>
      ([], add_message (mkMessageRow user_id role content (clock w)) w)
  | SelectRecentMessages user_id limit =>
      (map message_columns (recent_rows user_id limit (messages_table w)), w)
  | SelectNow => ([JObj [("now", JNum (clock w))]], w)
  end.

(* ================================================================== *)
(** ** The monad of the handlers *)
(* ================================================================== *)

Inductive Res (A : Type) : Type :=
| Ok (a : A)
| Throw (e : JsError).
Arguments Ok {A} a.
Arguments Throw {A} e.

Definition M (A : Type) : Type := World -> Res A * World.

Definition ret {A} (a : A) : M A := fun w => (Ok a, w).

Definition throw {A} (e : JsError) : M A := fun w => (Throw e, w).

Definition bind {A B} (m : M A) (k : A -> M B) : M B :=
  fun w => match m w with
           | (Ok a, w') => k a w'
           | (Throw e, w') => (Throw e, w')
           end.

(** [try { m } catch (err) { h err }] *)
Definition try_catch {A} (m : M A) (h : JsError -> M A) : M A :=
  fun w => match m w with
           | (Ok a, w') => (Ok a, w')
           | (Throw e, w') => h e w'
           end.

Definition lift {A} (r : Res A) : M A := fun w => (r, w).

Notation "x <- m ;; k" := (bind m (fun x => k))
  (at level 61, m at next level, right associativity).
Notation "m ;;; k" := (bind m (fun _ => k))
  (at level 61, right associativity).

(** [console.error(label, err)] *)
Definition console_error (label : string) (err : JsError) : M unit :=
  fun w => (Ok tt, emit (EvLog label err) w).

(** [pool.query(sql, params)] *)
Definition pool_query (sql : SqlStmt) : M (list JsVal) :=
  fun w =>
    let w1 := count_store_call (emit (EvQuery sql) w) in
    match store_fault w (store_calls w) with
    | Some detail => (Throw (StoreError detail), w1)
    | None => let (rows, w2) := run_sql sql w1 in (Ok rows, w2)
    end.

(** [groq.chat.completions.create(request)] *)
Definition groq_create (request : GroqRequest) : M JsVal :=
  fun w =>
    let w1 := emit (EvGroq request) w in
    match groq_answer w request with
    | Answer completion => (Ok completion, w1)
    | Fault detail => (Throw (GroqError detail), w1)
    end.

(** [bcrypt.hash(password, rounds)] *)
Definition bcrypt_hash (password : JsVal) (rounds : nat) : M JsVal :=
  fun w =>
    let w1 := emit (EvHash password rounds) w in
    match hash_answer w password rounds with
    | Answer h => (Ok h, w1)
    | Fault detail => (Throw (BcryptError detail), w1)
    end.

(** [bcrypt.compare(password, hash)] *)
Definition bcrypt_compare (password hash : JsVal) : M bool :=
  fun w =>
    let w1 := emit (EvCompare password hash) w in
    match compare_answer w password hash with
    | Answer ok => (Ok ok, w1)
    | Fault detail => (Throw (BcryptError detail), w1)
    end.

(** [v.k], which throws when [v] is [undefined] or [null]. *)
Definition member (v : JsVal) (k : string) : Res JsVal :=
  if nullish v
  then Throw (TypeError ("Cannot read properties of " ++ js_to_string v))
  else Ok (get_prop v k).

(* ================================================================== *)
(** ** The program *)
(* ================================================================== *)

(** [res.status(status).json(body)] *)
Record Response : Type := mkResponse { status : nat; body : JsVal }.

(** [async function query(sql, params)] *)
Definition query (sql : SqlStmt) : M (list JsVal) :=
  res <- pool_query sql ;;
  ret res.

(** [async function findUserByPhone(phone)] *)
Definition findUserByPhone (phone : JsVal) : M JsVal :=
  rows <- query (SelectUserByPhone phone) ;;
  ret (js_or (nth 0 rows JUndefined) JNull).

(** [async function createUser({ phone, password, name })] *)
Definition createUser (phone password name : JsVal) : M JsVal :=
  passwordHash <- bcrypt_hash password 10 ;;
  rows <- query (InsertUser phone passwordHash name) ;;
  ret (nth 0 rows JUndefined).

(** [async function saveMessage(user_id, role, content)] *)
Definition saveMessage (user_id role content : JsVal) : M unit :=
  try_catch
    (query (InsertMessage user_id role content) ;;; ret tt)
    (fun err => console_error "Error saving message:" err).

(** [async function getRecentMessages(user_id, limit = 10)] *)
Definition getRecentMessages (user_id : JsVal) (limit : option nat)
  : M (list JsVal) :=
  let limit := match limit with Some n => n | None => 10 end in
  rows <- query (SelectRecentMessages user_id limit) ;;
  ret (rev rows).

(* ------------------------------------------------------------------ *)
(** *** [POST /login] *)
(* ------------------------------------------------------------------ *)

Definition login_required : Response :=
  mkResponse 400 (JObj [("error", JStr "Phone and password are required.")]).

Definition login_invalid : Response :=
  mkResponse 401 (JObj [("error", JStr "Invalid phone or password.")]).

Definition login_server_error : Response :=
  mkResponse 500 (JObj [("error", JStr "Server error during login.")]).

Definition login_payload (user : JsVal) (id : JsVal) (is_new : bool) : JsVal :=
  JObj [("user_id", id); ("name", get_prop user "name");
        ("phone", get_prop user "phone"); ("is_new", JBool is_new)].

(** The [try] block of the handler.  [const { phone, password, name } =
    req.body] throws when [req.body] is [undefined] or [null]. *)
Definition login_try (req_body : JsVal) : M Response :=
  phone <- lift (member req_body "phone") ;;
  let password := get_prop req_body "password" in
  let name := get_prop req_body "name" in
  if negb (truthy phone) || negb (truthy password)
  then ret login_required
  else
    existingUser <- findUserByPhone phone ;;
    if truthy existingUser
    then
      ok <- bcrypt_compare password (get_prop existingUser "password_hash") ;;
      if negb ok
      then ret login_invalid
      else ret (mkResponse 200
                  (login_payload existingUser (get_prop existingUser "id") false))
    else
      user <- createUser phone password (js_or name JNull) ;;
      id <- lift (member user "id") ;;
      ret (mkResponse 201 (login_payload user id true)).

Definition login_handler (req_body : JsVal) : M Response :=
  try_catch (login_try req_body)
    (fun err =>
       console_error "Login error:" err ;;;
       ret login_server_error).

(* ------------------------------------------------------------------ *)
(** *** [POST /api/kozani-chat] *)
(* ------------------------------------------------------------------ *)

Definition LF : string := String (ascii_of_nat 10) EmptyString.

(** The template literal of [systemPrompt] before [${grounding}]. *)
Definition prompt_head : string := "
You are Kozani, an empathetic perinatal companion for expectant and new mothers,
especially in under-resourced settings.

Your goals:
- Listen with warmth and respect.
- Reflect their feelings back gently.
- Offer clear, simple, practical guidance.
- Encourage seeking professional help when needed.
- Never judge, shame, or blame.

Safety rules:
- DO NOT diagnose or prescribe medication.
- DO NOT give exact doses or treatment plans.
- DO NOT contradict local healthcare professionals.
- If there is any sign of danger (severe pain, heavy bleeding, trouble breathing, thoughts of self-harm),
  clearly advise the user to seek urgent medical help or visit a clinic/hospital as soon as possible.

Keep responses:
- Short (4–7 sentences).
- In plain, simple language.
- Emotionally validating.

Use this trusted information as background context when relevant (but do not quote it word-for-word):

".

(** The template literal after [${grounding}]: a line feed and the
    indentation of the closing backquote. *)
Definition prompt_tail : string := LF ++ "    ".

Definition systemPrompt (grounding : string) : string :=
  js_trim (prompt_head ++ grounding ++ prompt_tail).

(** The fixed instruction: the text of the template from its first
    character to the colon before [${grounding}], without the line feed
    that precedes it and the blank line that follows it in the source. *)
Definition fixed_instruction : string := "You are Kozani, an empathetic perinatal companion for expectant and new mothers,
especially in under-resourced settings.

Your goals:
- Listen with warmth and respect.
- Reflect their feelings back gently.
- Offer clear, simple, practical guidance.
- Encourage seeking professional help when needed.
- Never judge, shame, or blame.

Safety rules:
- DO NOT diagnose or prescribe medication.
- DO NOT give exact doses or treatment plans.
- DO NOT contradict local healthcare professionals.
- If there is any sign of danger (severe pain, heavy bleeding, trouble breathing, thoughts of self-harm),
  clearly advise the user to seek urgent medical help or visit a clinic/hospital as soon as possible.

Keep responses:
- Short (4–7 sentences).
- In plain, simple language.
- Emotionally validating.

Use this trusted information as background context when relevant (but do not quote it word-for-word):".

Definition empty_query_answer : string :=
  "I didn’t receive anything to respond to.".

Definition fallback_answer : string :=
  "I’m sorry, I’m struggling to respond right now.".

Definition backend_error_answer : string :=
  "I’m sorry, something went wrong while thinking. Please try again a bit later.".

Definition chat_model : string := "llama-3.1-8b-instant".

Definition empty_query_response : Response :=
  mkResponse 400
    (JObj [("answer", JStr empty_query_answer);
           ("safety", JObj [("ok", JBool false);
                            ("flags", JArr [JStr "empty_query"])]);
           ("meta", JObj [("model", JStr "none")])]).

Definition backend_error_response : Response :=
  mkResponse 500
    (JObj [("answer", JStr backend_error_answer);
           ("safety", JObj [("ok", JBool false);
                            ("flags", JArr [JStr "backend_error"])]);
           ("meta", JObj [("model", JStr "none")])]).

Definition chat_response (answer : JsVal) (grounded : bool)
    (language client : JsVal) : Response :=
  mkResponse 200
    (JObj [("answer", answer);
           ("safety", JObj [("ok", JBool true); ("flags", JArr [])]);
           ("meta", JObj [("model", JStr chat_model);
                          ("provider", JStr "groq");
                          ("grounded", JBool grounded);
                          ("language", language);
                          ("client", client)])]).

(** [snippets.map((s) => s.text)]: only an array has [map], and reading
    [text] from a [null] element throws. *)
Fixpoint map_text_items (items : list JsVal) : Res (list JsVal) :=
  match items with
  | [] => Ok []
  | s :: rest =>
      match member s "text" with
      | Throw e => Throw e
      | Ok t => match map_text_items rest with
                | Throw e => Throw e
                | Ok ts => Ok (t :: ts)
                end
      end
  end.

Definition map_text (snippets : JsVal) : Res (list JsVal) :=
  match snippets with
  | JArr items => map_text_items items
  | _ => Throw (TypeError "snippets.map is not a function")
  end.

(** [items.join(sep)]: the conversion of an element to a string can throw
    (a text that is an object with a property [toString], or an array that
    holds one). *)
Definition array_join (sep : string) (items : list JsVal) : Res string :=
  if existsb join_element_throws items
  then Throw (TypeError "Cannot convert object to primitive value")
  else Ok (js_join sep items).

(** [snippets.length > 0] *)
Definition length_positive (v : JsVal) : bool :=
  match v with
  | JArr items => (0 <? List.length items)%nat
  | JStr s => (0 <? String.length s)%nat
  | _ => false
  end.

(** [completion.choices?.[0]?.message?.content] *)
Definition first_content (completion : JsVal) : Res JsVal :=
  match member completion "choices" with
  | Throw e => Throw e
  | Ok choices =>
      if nullish choices then Ok JUndefined
      else
        let first := get_index choices 0 in
        if nullish first then Ok JUndefined
        else
          let message := get_prop first "message" in
          if nullish message then Ok JUndefined
          else Ok (get_prop message "content")
  end.

(** [groqMessages.push({ role: m.role, content: m.content })] *)
Definition push_memory (groqMessages : list Turn) (m : JsVal) : list Turn :=
  groqMessages ++ [mkTurn (get_prop m "role") (get_prop m "content")].

(** Step 4 of the handler: the array given to Groq. *)
Definition build_messages (systemPrompt : string) (memoryMessages : list JsVal)
    (query : JsVal) : list Turn :=
  let groqMessages := [mkTurn (JStr "system") (JStr systemPrompt)] in
  let groqMessages :=
    if (0 <? List.length memoryMessages)%nat
    then fold_left push_memory memoryMessages groqMessages
    else groqMessages in
  groqMessages ++ [mkTurn (JStr "user") query].

(** A property of the request, read from [req.body || {}]. *)
Definition field (req_body : JsVal) (k : string) : JsVal :=
  get_prop (js_or req_body (JObj [])) k.

(** [snippets = []] and [language = "en"] in the destructuring pattern. *)
Definition snippets_of (req_body : JsVal) : JsVal :=
  js_default (field req_body "snippets") (JArr []).

Definition language_of (req_body : JsVal) : JsVal :=
  js_default (field req_body "language") (JStr "en").

(** Steps 1 to 4 of the [try] block: the grounding text, the system prompt,
    the short-term memory and the array given to Groq. *)
Definition assemble_prompt (query snippets user_id : JsVal) : M (list Turn) :=
  texts <- lift (map_text snippets) ;;
  grounding <- lift (array_join (LF ++ LF) texts) ;;
  let systemPrompt := systemPrompt grounding in
  memoryMessages <-
    (if truthy user_id then getRecentMessages user_id (Some 8) else ret []) ;;
  ret (build_messages systemPrompt memoryMessages query).

Definition chat_request (groqMessages : list Turn) : GroqRequest :=
  mkGroqRequest chat_model groqMessages (4 # 10) 400.

(** Step 5: the call to Groq and [const answer = ... ?? ...]. *)
Definition generate_answer (groqMessages : list Turn) : M JsVal :=
  completion <- groq_create (chat_request groqMessages) ;;
  content <- lift (first_content completion) ;;
  ret (js_coalesce content (JStr fallback_answer)).

(** Step 6: the two [saveMessage] calls. *)
Definition persist_turns (user_id query answer : JsVal) : M unit :=
  if truthy user_id
  then saveMessage user_id (JStr "user") query ;;;
       saveMessage user_id (JStr "assistant") answer
  else ret tt.

(** The [try] block of the handler. *)
Definition chat_try (req_body : JsVal) : M Response :=
  let rawQuery := field req_body "query" in
  let snippets := snippets_of req_body in
  let language := language_of req_body in
  let client := field req_body "client" in
  let user_id := field req_body "user_id" in
  if negb (truthy rawQuery)
  then ret empty_query_response
  else
    let query := rawQuery in
    groqMessages <- assemble_prompt query snippets user_id ;;
    answer <- generate_answer groqMessages ;;
    persist_turns user_id query answer ;;;
    ret (chat_response answer (length_positive snippets) language client).

Definition chat_label : string := "Kozani /api/kozani-chat error:".

Definition chat_handler (req_body : JsVal) : M Response :=
  try_catch (chat_try req_body)
    (fun err =>
       console_error chat_label err ;;;
       ret backend_error_response).

(* ================================================================== *)
(** ** Facts about the store *)
(* ================================================================== *)

Lemma firstn_In {A} (n : nat) (l : list A) (x : A) :
  In x (firstn n l) -> In x l.
Proof.
  intros H. rewrite <- (firstn_skipn n l). apply in_or_app. left. exact H.
Qed.

Lemma skipn_In {A} (n : nat) (l : list A) (x : A) :
  In x (skipn n l) -> In x l.
Proof.
  intros H. rewrite <- (firstn_skipn n l). apply in_or_app. right. exact H.
Qed.

Section Ordering.

(** [a] is not newer than [b]. *)
Definition created_le (a b : MessageRow) : Prop :=
  (msg_created_at a <= msg_created_at b)%Z.

(** [a] is not older than [b]. *)
Definition created_ge (a b : MessageRow) : Prop :=
  (msg_created_at b <= msg_created_at a)%Z.

Lemma insert_desc_In (m x : MessageRow) (l : list MessageRow) :
  In x (insert_desc m l) <-> x = m \/ In x l.
Proof.
  induction l as [|y l IH]; simpl.
  - intuition.
  - destruct (msg_created_at y <? msg_created_at m)%Z; simpl.
    + intuition.
    + rewrite IH. intuition.
Qed.

Lemma insert_desc_length (m : MessageRow) (l : list MessageRow) :
  List.length (insert_desc m l) = S (List.length l).
Proof.
  induction l as [|y l IH]; simpl; [reflexivity|].
  destruct (msg_created_at y <? msg_created_at m)%Z; simpl; congruence.
Qed.

Lemma insert_desc_sorted (m : MessageRow) (l : list MessageRow) :
  StronglySorted created_ge l -> StronglySorted created_ge (insert_desc m l).
Proof.
  induction 1 as [|y l Hs IH Hall]; simpl.
  - constructor; constructor.
  - destruct (msg_created_at y <? msg_created_at m)%Z eqn:E.
    + apply Z.ltb_lt in E.
      constructor; [constructor; assumption|].
      constructor; [unfold created_ge; lia|].
      eapply Forall_impl; [|exact Hall].
      unfold created_ge; intros; lia.
    + apply Z.ltb_ge in E.
      constructor; [assumption|].
      apply Forall_forall. intros x Hx.
      apply insert_desc_In in Hx. destruct Hx as [->|Hx].
      * exact E.
      * rewrite Forall_forall in Hall. auto.
Qed.

Lemma order_desc_In (x : MessageRow) (l : list MessageRow) :
  In x (order_by_created_at_desc l) <-> In x l.
Proof.
  induction l as [|y l IH]; simpl; [tauto|].
  rewrite insert_desc_In, IH. intuition.
Qed.

Lemma order_desc_length (l : list MessageRow) :
  List.length (order_by_created_at_desc l) = List.length l.
Proof.
  induction l as [|y l IH]; simpl; [reflexivity|].
  rewrite insert_desc_length. congruence.
Qed.

Lemma order_desc_sorted (l : list MessageRow) :
  StronglySorted created_ge (order_by_created_at_desc l).
Proof.
  induction l; simpl; [constructor | apply insert_desc_sorted; assumption].
Qed.

(** In a list sorted newest first, the first [n] rows are sorted, and each
    of them is at least as recent as every row left out. *)
Lemma sorted_firstn (n : nat) (l : list MessageRow) :
  StronglySorted created_ge l -> StronglySorted created_ge (firstn n l).
Proof.
  intros H. revert n.
  induction H as [|y l Hs IH Hall]; intros [|n]; simpl; try constructor.
  - apply IH.
  - rewrite Forall_forall in *. intros x Hx. apply Hall.
    eapply firstn_In; eassumption.
Qed.

Lemma sorted_firstn_skipn (n : nat) (l : list MessageRow) :
  StronglySorted created_ge l ->
  forall x y, In x (firstn n l) -> In y (skipn n l) -> created_ge x y.
Proof.
  intros H. revert n.
  induction H as [|z l Hs IH Hall]; intros [|n] x y Hx Hy; simpl in *;
    try contradiction.
  destruct Hx as [<-|Hx].
  - rewrite Forall_forall in Hall. apply Hall.
    eapply skipn_In; eassumption.
  - eapply IH; eassumption.
Qed.

(** Reversing a newest-first list gives an oldest-first list. *)
Lemma sorted_rev (l : list MessageRow) :
  StronglySorted created_ge l -> StronglySorted created_le (rev l).
Proof.
  induction 1 as [|y l Hs IH Hall]; simpl; [constructor|].
  revert IH. generalize (rev_involutive l).
  assert (Hall' : Forall (fun x => created_le x y) (rev l)).
  { rewrite Forall_forall in *. intros x Hx. apply in_rev in Hx.
    apply Hall. assumption. }
  clear Hall Hs. intros _.
  induction (rev l) as [|x r IHr]; intros Hr.
  - constructor; constructor.
  - simpl. inversion Hr; subst. inversion Hall'; subst.
    constructor; [auto|].
    apply Forall_app. split; [assumption|].
    constructor; [assumption|constructor].
Qed.

End Ordering.

Section History.

Variables (user_id : JsVal) (limit : nat) (tbl : list MessageRow).

(** The messages of [user_id] in the table. *)
Definition messages_of : list MessageRow :=
  filter (fun m => sql_eq (msg_user_id m) user_id) tbl.

(** The rows behind the result of [getRecentMessages]. *)
Definition history : list MessageRow := rev (recent_rows user_id limit tbl).

Lemma recent_rows_newest_first :
  StronglySorted created_ge (recent_rows user_id limit tbl).
Proof. apply sorted_firstn, order_desc_sorted. Qed.

Lemma history_oldest_first : StronglySorted created_le history.
Proof. apply sorted_rev, recent_rows_newest_first. Qed.

Lemma history_length :
  List.length history = Nat.min limit (List.length messages_of).
Proof.
  unfold history, recent_rows.
  rewrite length_rev, length_firstn, order_desc_length. reflexivity.
Qed.

Lemma history_bounded : List.length history <= limit.
Proof. rewrite history_length. apply Nat.le_min_l. Qed.

Lemma history_In (m : MessageRow) :
  In m history -> In m tbl /\ sql_eq (msg_user_id m) user_id = true.
Proof.
  unfold history, recent_rows. intros H.
  apply in_rev, firstn_In, order_desc_In, filter_In in H. exact H.
Qed.

(** A message of the user that is not returned is not newer than any
    message that is. *)
Lemma history_most_recent (m m' : MessageRow) :
  In m history -> In m' messages_of -> ~ In m' history -> created_le m' m.
Proof.
  unfold history, recent_rows. fold messages_of. intros Hm Hm' Hn.
  apply in_rev in Hm.
  apply order_desc_In in Hm'.
  rewrite <- (firstn_skipn limit (order_by_created_at_desc messages_of)) in Hm'.
  apply in_app_or in Hm'. destruct Hm' as [Hm'|Hm'].
  - exfalso. apply Hn. apply in_rev in Hm'. exact Hm'.
  - exact (sorted_firstn_skipn limit _ (order_desc_sorted _) m m' Hm Hm').
Qed.

End History.

(* ================================================================== *)
(** ** What one run adds to the world *)
(* ================================================================== *)

Arguments systemPrompt : simpl never.
Arguments js_join : simpl never.
Arguments js_to_string : simpl never.

(** The events written during a run from [w] to [w']. *)
Definition new_events (w w' : World) : list Event :=
  skipn (List.length (trace w)) (trace w').

(** The rows appended to [messages] during a run from [w] to [w']. *)
Definition new_messages (w w' : World) : list MessageRow :=
  skipn (List.length (messages_table w)) (messages_table w').

(** The world once [sql] has been handed to the pool. *)
Definition sent (sql : SqlStmt) (w : World) : World :=
  count_store_call (emit (EvQuery sql) w).

Lemma skipn_app_exact {A} (l evs : list A) :
  skipn (List.length l) (l ++ evs) = evs.
Proof. induction l; simpl; auto. Qed.

Lemma new_events_app (w w' : World) (evs : list Event) :
  trace w' = trace w ++ evs -> new_events w w' = evs.
Proof. unfold new_events. intros ->. apply skipn_app_exact. Qed.

Lemma new_events_refl (w : World) : new_events w w = [].
Proof. apply new_events_app. symmetry. apply app_nil_r. Qed.

Lemma new_messages_app (w w' : World) (rows : list MessageRow) :
  messages_table w' = messages_table w ++ rows -> new_messages w w' = rows.
Proof. unfold new_messages. intros ->. apply skipn_app_exact. Qed.

Ltac run_monad :=
  unfold bind, ret, lift, throw, try_catch, console_error.

Section Operations.

Variable w : World.

Lemma query_answered (sql : SqlStmt) :
  store_fault w (store_calls w) = None ->
  query sql w = (Ok (fst (run_sql sql (sent sql w))),
                 snd (run_sql sql (sent sql w))).
Proof.
  intros H. unfold query, pool_query. run_monad. rewrite H.
  fold (sent sql w). destruct (run_sql sql (sent sql w)). reflexivity.
Qed.

Lemma query_failed (sql : SqlStmt) (detail : string) :
  store_fault w (store_calls w) = Some detail ->
  query sql w = (Throw (StoreError detail), sent sql w).
Proof.
  intros H. unfold query, pool_query. run_monad. rewrite H. reflexivity.
Qed.

(** [saveMessage] never throws: a failed INSERT leaves a line in the log
    and nothing in the table. *)
Lemma saveMessage_run (user_id role content : JsVal) :
  saveMessage user_id role content w =
  (Ok tt,
   let sql := InsertMessage user_id role content in
   match store_fault w (store_calls w) with
   | None => add_message (mkMessageRow user_id role content (clock w))
               (sent sql w)
   | Some detail =>
       emit (EvLog "Error saving message:" (StoreError detail)) (sent sql w)
   end).
Proof.
  unfold saveMessage. run_monad.
  destruct (store_fault w (store_calls w)) as [detail|] eqn:E.
  - rewrite (query_failed _ _ E). reflexivity.
  - rewrite (query_answered _ E). reflexivity.
Qed.

Lemma getRecentMessages_answered (user_id : JsVal) (limit : option nat) :
  store_fault w (store_calls w) = None ->
  let n := match limit with Some n => n | None => 10 end in
  getRecentMessages user_id limit w =
  (Ok (map message_columns (history user_id n (messages_table w))),
   sent (SelectRecentMessages user_id n) w).
Proof.
  intros H n. unfold getRecentMessages. run_monad. fold n.
  rewrite (query_answered _ H). simpl.
  unfold history. rewrite map_rev. reflexivity.
Qed.

Lemma getRecentMessages_failed (user_id : JsVal) (limit : option nat)
    (detail : string) :
  store_fault w (store_calls w) = Some detail ->
  let n := match limit with Some n => n | None => 10 end in
  getRecentMessages user_id limit w =
  (Throw (StoreError detail), sent (SelectRecentMessages user_id n) w).
Proof.
  intros H n. unfold getRecentMessages. run_monad. fold n.
  rewrite (query_failed _ _ H). reflexivity.
Qed.

End Operations.

(** The turn that a stored message becomes in the prompt. *)
Definition turn_of_message (m : MessageRow) : Turn :=
  mkTurn (msg_role m) (msg_content m).

Lemma fold_push_memory (rows : list MessageRow) (acc : list Turn) :
  fold_left push_memory (map message_columns rows) acc =
  acc ++ map turn_of_message rows.
Proof.
  revert acc. induction rows as [|m rows IH]; intros acc; simpl.
  - symmetry. apply app_nil_r.
  - rewrite IH. unfold push_memory. rewrite <- app_assoc. reflexivity.
Qed.

(** The loop of step 4 copies the memory in order, between the system turn
    and the new utterance. *)
Lemma build_messages_spec (prompt : string) (rows : list MessageRow)
    (query : JsVal) :
  build_messages prompt (map message_columns rows) query =
  mkTurn (JStr "system") (JStr prompt)
    :: map turn_of_message rows ++ [mkTurn (JStr "user") query].
Proof.
  unfold build_messages.
  destruct rows as [|m rows].
  - reflexivity.
  - replace (0 <? List.length (map message_columns (m :: rows)))%nat with true
      by reflexivity.
    rewrite fold_push_memory. reflexivity.
Qed.

(* ================================================================== *)
(** ** The steps of the chat handler *)
(* ================================================================== *)

(** The array of step 4 for the snippet texts [texts] and the stored
    messages [rows]. *)
Definition prompt_turns (texts : list JsVal) (rows : list MessageRow)
    (query : JsVal) : list Turn :=
  mkTurn (JStr "system") (JStr (systemPrompt (js_join (LF ++ LF) texts)))
    :: map turn_of_message rows ++ [mkTurn (JStr "user") query].

(** What one [saveMessage] writes in the trace and in the table, given the
    answer of the store to its INSERT. *)
Definition save_events (sql : SqlStmt) (fault : option string) : list Event :=
  EvQuery sql ::
  match fault with
  | None => []
  | Some detail => [EvLog "Error saving message:" (StoreError detail)]
  end.

Definition saved_rows (fault : option string) (row : MessageRow)
  : list MessageRow :=
  match fault with
  | None => [row]
  | Some _ => []
  end.

(** The texts of the snippets when step 1 succeeds, and the error of [map]
    or of [join] when it throws. *)
Definition joined_texts (snippets : JsVal) : Res (list JsVal) :=
  match map_text snippets with
  | Throw e => Throw e
  | Ok texts =>
      match array_join (LF ++ LF) texts with
      | Throw e => Throw e
      | Ok _ => Ok texts
      end
  end.

Lemma array_join_ok (sep : string) (items : list JsVal) (g : string) :
  array_join sep items = Ok g -> g = js_join sep items.
Proof.
  unfold array_join. destruct (existsb join_element_throws items);
    [discriminate|]. intros H. injection H as <-. reflexivity.
Qed.

Lemma joined_texts_ok (snippets : JsVal) (texts : list JsVal) :
  joined_texts snippets = Ok texts ->
  map_text snippets = Ok texts
  /\ array_join (LF ++ LF) texts = Ok (js_join (LF ++ LF) texts).
Proof.
  unfold joined_texts. destruct (map_text snippets) as [ts|e]; [|discriminate].
  destruct (array_join (LF ++ LF) ts) as [g|e] eqn:Hj; [|discriminate].
  intros H. injection H as <-. split; [reflexivity|].
  rewrite (array_join_ok _ _ _ Hj) in Hj. exact Hj.
Qed.

Lemma joined_texts_intro (snippets : JsVal) (texts : list JsVal) (g : string) :
  map_text snippets = Ok texts ->
  array_join (LF ++ LF) texts = Ok g ->
  joined_texts snippets = Ok texts.
Proof. unfold joined_texts. intros -> ->. reflexivity. Qed.

Section Steps.

Variable w : World.

Lemma assemble_prompt_run (query snippets user_id : JsVal) :
  assemble_prompt query snippets user_id w =
  match joined_texts snippets with
  | Throw e => (Throw e, w)
  | Ok texts =>
      if truthy user_id
      then match store_fault w (store_calls w) with
           | Some detail =>
               (Throw (StoreError detail),
                sent (SelectRecentMessages user_id 8) w)
           | None =>
               (Ok (prompt_turns texts
                      (history user_id 8 (messages_table w)) query),
                sent (SelectRecentMessages user_id 8) w)
           end
      else (Ok (prompt_turns texts [] query), w)
  end.
Proof.
  unfold assemble_prompt, joined_texts. run_monad.
  destruct (map_text snippets) as [texts|e]; [|reflexivity].
  destruct (array_join (LF ++ LF) texts) as [g|e] eqn:Hj; [|reflexivity].
  apply array_join_ok in Hj. subst g.
  destruct (truthy user_id).
  - destruct (store_fault w (store_calls w)) as [detail|] eqn:E.
    + rewrite (getRecentMessages_failed _ _ _ _ E). reflexivity.
    + rewrite (getRecentMessages_answered _ _ _ E).
      rewrite build_messages_spec. reflexivity.
  - reflexivity.
Qed.

Lemma generate_answer_run (turns : list Turn) :
  generate_answer turns w =
  match groq_answer w (chat_request turns) with
  | Fault detail =>
      (Throw (GroqError detail), emit (EvGroq (chat_request turns)) w)
  | Answer completion =>
      match first_content completion with
      | Throw e => (Throw e, emit (EvGroq (chat_request turns)) w)
      | Ok content =>
          (Ok (js_coalesce content (JStr fallback_answer)),
           emit (EvGroq (chat_request turns)) w)
      end
  end.
Proof.
  unfold generate_answer, groq_create. run_monad.
  destruct (groq_answer w (chat_request turns)); [|reflexivity].
  destruct (first_content a); reflexivity.
Qed.

Lemma saveMessage_trace (user_id role content : JsVal) :
  trace (snd (saveMessage user_id role content w)) =
  trace w ++ save_events (InsertMessage user_id role content)
               (store_fault w (store_calls w)).
Proof.
  rewrite saveMessage_run. unfold save_events. simpl.
  destruct (store_fault w (store_calls w)); simpl.
  - rewrite <- app_assoc. reflexivity.
  - reflexivity.
Qed.

Lemma saveMessage_table (user_id role content : JsVal) :
  messages_table (snd (saveMessage user_id role content w)) =
  messages_table w ++ saved_rows (store_fault w (store_calls w))
                        (mkMessageRow user_id role content (clock w)).
Proof.
  rewrite saveMessage_run. unfold saved_rows. simpl.
  destruct (store_fault w (store_calls w)); simpl.
  - symmetry. apply app_nil_r.
  - reflexivity.
Qed.

Lemma saveMessage_store (user_id role content : JsVal) :
  let w' := snd (saveMessage user_id role content w) in
  store_fault w' = store_fault w /\ store_calls w' = S (store_calls w) /\
  users_table w' = users_table w /\
  clock w' = match store_fault w (store_calls w) with
             | None => (clock w + 1)%Z
             | Some _ => clock w
             end.
Proof.
  rewrite saveMessage_run. simpl.
  destruct (store_fault w (store_calls w)); simpl; auto.
Qed.

Lemma persist_turns_ok (user_id query answer : JsVal) :
  fst (persist_turns user_id query answer w) = Ok tt.
Proof.
  unfold persist_turns. destruct (truthy user_id); [|reflexivity].
  run_monad. rewrite saveMessage_run. simpl.
  rewrite saveMessage_run. reflexivity.
Qed.

Lemma persist_turns_world (user_id query answer : JsVal) :
  snd (persist_turns user_id query answer w) =
  if truthy user_id
  then snd (saveMessage user_id (JStr "assistant") answer
              (snd (saveMessage user_id (JStr "user") query w)))
  else w.
Proof.
  unfold persist_turns. destruct (truthy user_id); [|reflexivity].
  run_monad. rewrite saveMessage_run. simpl. reflexivity.
Qed.

End Steps.

(** The handler as a function of its steps, once the query has passed the
    validation. *)
Lemma chat_handler_run (req_body : JsVal) (w : World) :
  truthy (field req_body "query") = true ->
  chat_handler req_body w =
  match assemble_prompt (field req_body "query") (snippets_of req_body)
          (field req_body "user_id") w with
  | (Throw e, w1) =>
      (Ok backend_error_response, emit (EvLog chat_label e) w1)
  | (Ok turns, w1) =>
      match generate_answer turns w1 with
      | (Throw e, w2) =>
          (Ok backend_error_response, emit (EvLog chat_label e) w2)
      | (Ok answer, w2) =>
          (Ok (chat_response answer (length_positive (snippets_of req_body))
                 (language_of req_body) (field req_body "client")),
           snd (persist_turns (field req_body "user_id")
                  (field req_body "query") answer w2))
      end
  end.
Proof.
  intros Hq. unfold chat_handler, chat_try. rewrite Hq. simpl negb. cbv iota.
  run_monad.
  destruct (assemble_prompt _ _ _ w) as [[turns|e] w1]; [|reflexivity].
  destruct (generate_answer turns w1) as [[answer|e] w2]; [|reflexivity].
  pose proof (persist_turns_ok w2 (field req_body "user_id")
                (field req_body "query") answer) as Hp.
  destruct (persist_turns _ _ answer w2) as [[[]|e] w3]; simpl in *.
  - reflexivity.
  - discriminate.
Qed.

Lemma chat_handler_empty (req_body : JsVal) (w : World) :
  truthy (field req_body "query") = false ->
  chat_handler req_body w = (Ok empty_query_response, w).
Proof.
  intros Hq. unfold chat_handler, chat_try. rewrite Hq. reflexivity.
Qed.

(* ================================================================== *)
(** ** Sample worlds and requests *)
(* ================================================================== *)

Definition sample_completion (text : JsVal) : JsVal :=
  JObj [("choices", JArr [JObj [("message", JObj [("content", text)])]])].

(** A store with three messages of user 7, inserted out of order, one of
    user 8, and collaborators that answer. *)
Definition sample_world : World :=
  mkWorld
    [mkUserRow 7 (JStr "0771") (JStr "$2a$10$h") (JStr "Rumbi") 1]
    [mkMessageRow (JNum 7) (JStr "assistant") (JStr "second") 20;
     mkMessageRow (JNum 7) (JStr "user") (JStr "first") 10;
     mkMessageRow (JNum 8) (JStr "user") (JStr "other") 25;
     mkMessageRow (JNum 7) (JStr "user") (JStr "third") 30]
    40 8
    (fun _ => None) 0
    (fun _ => Answer (sample_completion (JStr "You are not alone.")))
    (fun _ _ => Answer (JStr "$2a$10$n"))
    (fun password _ => Answer (js_eqb password (JStr "secret")))
    [].

Definition with_store_fault (fault : nat -> option string) (w : World) : World :=
  mkWorld (users_table w) (messages_table w) (clock w) (next_user_id w)
          fault (store_calls w) (groq_answer w) (hash_answer w)
          (compare_answer w) (trace w).

Definition with_groq_answer (answer : GroqRequest -> Ext JsVal) (w : World)
  : World :=
  mkWorld (users_table w) (messages_table w) (clock w) (next_user_id w)
          (store_fault w) (store_calls w) answer (hash_answer w)
          (compare_answer w) (trace w).

(* ================================================================== *)
(** ** History retrieval *)
(* ================================================================== *)

(** C6.  When the store answers the query, [getRecentMessages user_id limit]
    returns the [role] and [content] of the rows obtained by taking the
    first [limit] messages of the user in the store's newest-first order and
    reversing them: the rows are oldest first, there are
    [min limit (number of messages of the user)] of them, so at most
    [limit], each is a message of the user, and a message of the user that
    is left out is not newer than any returned one. *)
Theorem getRecentMessages_oldest_first
    (user_id : JsVal) (limit : option nat) (w : World) :
  store_fault w (store_calls w) = None ->
  let n := match limit with Some n => n | None => 10 end in
  let mine := messages_of user_id (messages_table w) in
  let newest_first := firstn n (order_by_created_at_desc mine) in
  let rows := rev newest_first in
  getRecentMessages user_id limit w =
    (Ok (map message_columns rows), sent (SelectRecentMessages user_id n) w)
  /\ StronglySorted created_ge newest_first
  /\ StronglySorted created_le rows
  /\ List.length rows = Nat.min n (List.length mine)
  /\ List.length rows <= n
  /\ (forall m, In m rows ->
        In m (messages_table w) /\ sql_eq (msg_user_id m) user_id = true)
  /\ (forall m m', In m rows -> In m' mine -> ~ In m' rows -> created_le m' m).
Proof.
  intros Hstore n mine newest_first rows.
  change rows with (history user_id n (messages_table w)).
  change newest_first with (recent_rows user_id n (messages_table w)).
  split; [exact (getRecentMessages_answered w user_id limit Hstore)|].
  split; [apply recent_rows_newest_first|].
  split; [apply history_oldest_first|].
  split; [apply history_length|].
  split; [apply history_bounded|].
  split; [apply history_In|].
  apply history_most_recent.
Qed.

Lemma getRecentMessages_oldest_first_witness :
  fst (getRecentMessages (JNum 7) (Some 2) sample_world) =
  Ok [JObj [("role", JStr "assistant"); ("content", JStr "second")];
      JObj [("role", JStr "user"); ("content", JStr "third")]].
Proof.
  rewrite (proj1 (getRecentMessages_oldest_first (JNum 7) (Some 2)
                    sample_world eq_refl)).
  reflexivity.
Defined.

(* ================================================================== *)
(** ** Validation of the query *)
(* ================================================================== *)

(** The query is the empty string, or is missing from the body ([undefined],
    or the JSON [null]). *)
Definition empty_or_missing (v : JsVal) : bool :=
  match v with
  | JUndefined | JNull => true
  | JStr s => s =? ""
  | _ => false
  end.

Lemma empty_or_missing_falsy (v : JsVal) :
  empty_or_missing v = true -> truthy v = false.
Proof.
  destruct v; simpl; try discriminate; auto.
  intros ->. reflexivity.
Qed.

(** C2.  A chat request whose query is empty or missing is answered with the
    fixed apology, [safety.ok = false], the flags [["empty_query"]] and
    status 400, and the world is left as it was: no statement reaches the
    store, no request reaches the generation service, nothing is logged. *)
Theorem empty_query_short_circuit (req_body : JsVal) (w : World) :
  empty_or_missing (field req_body "query") = true ->
  exists r w',
    chat_handler req_body w = (Ok r, w')
    /\ status r = 400
    /\ body r =
         JObj [("answer", JStr "I didn’t receive anything to respond to.");
               ("safety", JObj [("ok", JBool false);
                                ("flags", JArr [JStr "empty_query"])]);
               ("meta", JObj [("model", JStr "none")])]
    /\ w' = w
    /\ new_events w w' = [].
Proof.
  intros H. apply empty_or_missing_falsy in H.
  exists empty_query_response, w.
  split; [apply chat_handler_empty; exact H|].
  repeat split. apply new_events_refl.
Qed.

Lemma empty_query_short_circuit_witness :
  exists r w',
    chat_handler (JObj [("query", JStr ""); ("user_id", JNum 7)]) sample_world
      = (Ok r, w')
    /\ status r = 400 /\ w' = sample_world.
Proof.
  destruct (empty_query_short_circuit
              (JObj [("query", JStr ""); ("user_id", JNum 7)])
              sample_world eq_refl)
    as (r & w' & H & Hs & _ & Hw & _).
  exists r, w'. auto.
Defined.

(* ================================================================== *)
(** ** Failures *)
(* ================================================================== *)

(** The handler always answers: nothing escapes its [catch]. *)
Lemma chat_handler_answers (req_body : JsVal) (w : World) :
  exists r w', chat_handler req_body w = (Ok r, w').
Proof.
  destruct (truthy (field req_body "query")) eqn:Hq.
  - rewrite (chat_handler_run _ _ Hq).
    destruct (assemble_prompt _ _ _ w) as [[turns|e] w1]; [|eauto].
    destruct (generate_answer turns w1) as [[answer|e] w2]; eauto.
  - rewrite (chat_handler_empty _ _ Hq). eauto.
Qed.

(** A snippet whose text is an object with a property [toString]: [map]
    returns it and [join] cannot convert it. *)
Definition unprintable_snippet_request : JsVal :=
  JObj [("query", JStr "I feel tired");
        ("snippets", JArr [JObj [("text", JObj [("toString", JNum 1)])]]);
        ("user_id", JNum 7)].

(** C4.  Once the query has passed the validation, an error thrown while
    the prompt is assembled and the history retrieved (steps 1 to 4) or
    during generation (step 5) is caught by the handler: the response is the
    fixed apology with [safety.ok = false], the flags [["backend_error"]]
    and status 500, the same whatever the error, and the error goes to the
    log and nowhere else.  The errors of steps 1 to 4 are those of
    [snippets.map] (snippets that are not an array, a [null] element), of
    [join] (a text that cannot be converted to a string) and of the history
    query; those of step 5 are a failure of the generation service and a
    completion that is [null]. *)
Theorem errors_become_backend_error (req_body : JsVal) (w : World) :
  truthy (field req_body "query") = true ->
  let query := field req_body "query" in
  let snippets := snippets_of req_body in
  let user_id := field req_body "user_id" in
  let apology :=
    mkResponse 500
      (JObj [("answer",
              JStr "I’m sorry, something went wrong while thinking. Please try again a bit later.");
             ("safety", JObj [("ok", JBool false);
                              ("flags", JArr [JStr "backend_error"])]);
             ("meta", JObj [("model", JStr "none")])]) in
  (forall e w1,
      assemble_prompt query snippets user_id w = (Throw e, w1) ->
      chat_handler req_body w = (Ok apology, emit (EvLog chat_label e) w1)
      /\ new_events w1 (snd (chat_handler req_body w)) = [EvLog chat_label e])
  /\
  (forall turns w1 e w2,
      assemble_prompt query snippets user_id w = (Ok turns, w1) ->
      generate_answer turns w1 = (Throw e, w2) ->
      chat_handler req_body w = (Ok apology, emit (EvLog chat_label e) w2)
      /\ new_events w2 (snd (chat_handler req_body w)) = [EvLog chat_label e])
  /\
  (forall e,
      map_text snippets = Throw e ->
      assemble_prompt query snippets user_id w = (Throw e, w))
  /\
  (forall texts e,
      map_text snippets = Ok texts ->
      array_join (LF ++ LF) texts = Throw e ->
      assemble_prompt query snippets user_id w = (Throw e, w))
  /\
  (forall texts grounding detail,
      map_text snippets = Ok texts ->
      array_join (LF ++ LF) texts = Ok grounding ->
      truthy user_id = true ->
      store_fault w (store_calls w) = Some detail ->
      assemble_prompt query snippets user_id w =
      (Throw (StoreError detail), sent (SelectRecentMessages user_id 8) w))
  /\
  (forall turns w1 detail,
      groq_answer w1 (chat_request turns) = Fault detail ->
      generate_answer turns w1 =
      (Throw (GroqError detail), emit (EvGroq (chat_request turns)) w1))
  /\
  (forall turns w1 completion,
      groq_answer w1 (chat_request turns) = Answer completion ->
      nullish completion = true ->
      exists e,
        generate_answer turns w1 =
        (Throw e, emit (EvGroq (chat_request turns)) w1)).
Proof.
  intros Hq query snippets user_id apology.
  split.
  { intros e w1 Ha. rewrite (chat_handler_run _ _ Hq).
    fold query snippets user_id. rewrite Ha.
    split; [reflexivity|]. apply new_events_app. reflexivity. }
  split.
  { intros turns w1 e w2 Ha Hg. rewrite (chat_handler_run _ _ Hq).
    fold query snippets user_id. rewrite Ha, Hg.
    split; [reflexivity|]. apply new_events_app. reflexivity. }
  split.
  { intros e Hm. rewrite assemble_prompt_run. unfold joined_texts.
    rewrite Hm. reflexivity. }
  split.
  { intros texts e Hm Hj. rewrite assemble_prompt_run. unfold joined_texts.
    rewrite Hm, Hj. reflexivity. }
  split.
  { intros texts grounding detail Hm Hj Hu Hs.
    rewrite assemble_prompt_run, (joined_texts_intro _ _ _ Hm Hj), Hu, Hs.
    reflexivity. }
  split.
  { intros turns w1 detail Hg. rewrite generate_answer_run, Hg. reflexivity. }
  intros turns w1 completion Hg Hn. rewrite generate_answer_run, Hg.
  unfold first_content, member. rewrite Hn. eexists. reflexivity.
Qed.

(** A request whose grounding cannot be joined: the response is the 500
    apology, the error is in the log, and neither the store nor the
    generation service has been called. *)
Lemma errors_become_backend_error_witness :
  chat_handler unprintable_snippet_request sample_world
  = (Ok backend_error_response,
     emit (EvLog chat_label
             (TypeError "Cannot convert object to primitive value"))
       sample_world).
Proof.
  destruct (errors_become_backend_error unprintable_snippet_request
              sample_world eq_refl)
    as (Hcaught & _ & _ & Hjoin & _).
  apply Hcaught.
  apply (Hjoin [JObj [("toString", JNum 1)]]
           (TypeError "Cannot convert object to primitive value"));
    reflexivity.
Defined.

(* ================================================================== *)
(** ** Persistence *)
(* ================================================================== *)

(** What step 6 writes in the trace and in the table, from the world [w]
    in which it starts. *)
Definition persist_events (user_id query answer : JsVal) (w : World)
  : list Event :=
  if truthy user_id
  then save_events (InsertMessage user_id (JStr "user") query)
         (store_fault w (store_calls w))
       ++ save_events (InsertMessage user_id (JStr "assistant") answer)
            (store_fault w (S (store_calls w)))
  else [].

Definition persisted_rows (user_id query answer : JsVal) (w : World)
  : list MessageRow :=
  if truthy user_id
  then
    let fault1 := store_fault w (store_calls w) in
    saved_rows fault1 (mkMessageRow user_id (JStr "user") query (clock w))
    ++ saved_rows (store_fault w (S (store_calls w)))
         (mkMessageRow user_id (JStr "assistant") answer
            (match fault1 with
             | None => clock w + 1
             | Some _ => clock w
             end)%Z)
  else [].

Lemma persist_turns_trace (user_id query answer : JsVal) (w : World) :
  trace (snd (persist_turns user_id query answer w)) =
  trace w ++ persist_events user_id query answer w.
Proof.
  rewrite persist_turns_world. unfold persist_events.
  destruct (truthy user_id); [|symmetry; apply app_nil_r].
  rewrite saveMessage_trace.
  destruct (saveMessage_store w user_id (JStr "user") query) as (Hf & Hc & _).
  cbv zeta in Hf, Hc. rewrite Hf, Hc, saveMessage_trace, <- app_assoc.
  reflexivity.
Qed.

Lemma persist_turns_table (user_id query answer : JsVal) (w : World) :
  messages_table (snd (persist_turns user_id query answer w)) =
  messages_table w ++ persisted_rows user_id query answer w.
Proof.
  rewrite persist_turns_world. unfold persisted_rows.
  destruct (truthy user_id); [|symmetry; apply app_nil_r].
  rewrite saveMessage_table.
  destruct (saveMessage_store w user_id (JStr "user") query)
    as (Hf & Hc & _ & Hk).
  cbv zeta in Hf, Hc, Hk.
  rewrite Hf, Hc, Hk, saveMessage_table, <- app_assoc. reflexivity.
Qed.

(** C3.  For a request with a user id, once the reply [answer] has been
    computed (in the world [w2]) the handler issues exactly two INSERTs, the
    user's utterance with role "user" and then the reply with role
    "assistant"; each one that the store accepts adds its row to [messages],
    in that order, and each one that fails adds a line to the log and
    nothing else.  Whatever the store answers, the response is the same: status 200
    with the reply. *)
Theorem persistence_is_best_effort
    (req_body : JsVal) (w : World) (turns : list Turn) (w1 : World)
    (answer : JsVal) (w2 : World) :
  let query := field req_body "query" in
  let user_id := field req_body "user_id" in
  truthy query = true ->
  truthy user_id = true ->
  assemble_prompt query (snippets_of req_body) user_id w = (Ok turns, w1) ->
  generate_answer turns w1 = (Ok answer, w2) ->
  let fault1 := store_fault w2 (store_calls w2) in
  let fault2 := store_fault w2 (S (store_calls w2)) in
  let row1 := mkMessageRow user_id (JStr "user") query (clock w2) in
  let row2 := mkMessageRow user_id (JStr "assistant") answer
                (match fault1 with
                 | None => clock w2 + 1
                 | Some _ => clock w2
                 end)%Z in
  exists r w',
    chat_handler req_body w = (Ok r, w')
    /\ status r = 200
    /\ get_prop (body r) "answer" = answer
    /\ r = chat_response answer (length_positive (snippets_of req_body))
             (language_of req_body) (field req_body "client")
    /\ new_events w2 w' =
         save_events (InsertMessage user_id (JStr "user") query) fault1
         ++ save_events (InsertMessage user_id (JStr "assistant") answer) fault2
    /\ new_messages w2 w' = saved_rows fault1 row1 ++ saved_rows fault2 row2
    /\ (fault1 = None -> fault2 = None -> new_messages w2 w' = [row1; row2]).
Proof.
  intros query user_id Hq Hu Ha Hg fault1 fault2 row1 row2.
  exists (chat_response answer (length_positive (snippets_of req_body))
            (language_of req_body) (field req_body "client")),
         (snd (persist_turns user_id query answer w2)).
  split.
  { rewrite (chat_handler_run _ _ Hq). fold query user_id.
    rewrite Ha, Hg. reflexivity. }
  split; [reflexivity|]. split; [reflexivity|]. split; [reflexivity|].
  assert (He : new_events w2 (snd (persist_turns user_id query answer w2)) =
               persist_events user_id query answer w2)
    by apply new_events_app, persist_turns_trace.
  assert (Hm : new_messages w2 (snd (persist_turns user_id query answer w2)) =
               persisted_rows user_id query answer w2)
    by apply new_messages_app, persist_turns_table.
  unfold persist_events in He. unfold persisted_rows in Hm.
  rewrite Hu in He, Hm.
  split; [exact He|]. split; [exact Hm|].
  intros H1 H2. unfold fault1, fault2 in H1, H2.
  unfold row1, row2, fault1. rewrite Hm, H1, H2. reflexivity.
Qed.

Definition failing_appends : World :=
  with_store_fault
    (fun n => if (0 <? n)%nat then Some "connection terminated" else None)
    sample_world.

(** Both appends fail: the reply is delivered all the same and no row is
    added. *)
Definition tired_request : JsVal :=
  JObj [("query", JStr "I feel tired"); ("user_id", JNum 7)].

Definition tired_turns : list Turn :=
  prompt_turns [] (history (JNum 7) 8 (messages_table sample_world))
    (JStr "I feel tired").

Lemma persistence_is_best_effort_witness :
  exists r w',
    chat_handler tired_request failing_appends = (Ok r, w')
    /\ status r = 200
    /\ get_prop (body r) "answer" = JStr "You are not alone."
    /\ new_messages
         (emit (EvGroq (chat_request tired_turns))
            (sent (SelectRecentMessages (JNum 7) 8) failing_appends)) w' = [].
Proof.
  destruct (persistence_is_best_effort tired_request failing_appends tired_turns
              (sent (SelectRecentMessages (JNum 7) 8) failing_appends)
              (JStr "You are not alone.")
              (emit (EvGroq (chat_request tired_turns))
                 (sent (SelectRecentMessages (JNum 7) 8) failing_appends))
              eq_refl eq_refl)
    as (r & w' & H & Hs & Ha & _ & _ & Hm & _).
  - rewrite assemble_prompt_run. reflexivity.
  - rewrite generate_answer_run. reflexivity.
  - exists r, w'. auto.
Defined.

(* ================================================================== *)
(** ** The calls made by one chat request *)
(* ================================================================== *)

Definition assemble_events (snippets user_id : JsVal) : list Event :=
  match joined_texts snippets with
  | Throw _ => []
  | Ok _ => if truthy user_id
            then [EvQuery (SelectRecentMessages user_id 8)]
            else []
  end.

Lemma assemble_prompt_trace (query snippets user_id : JsVal) (w : World) :
  trace (snd (assemble_prompt query snippets user_id w)) =
  trace w ++ assemble_events snippets user_id.
Proof.
  rewrite assemble_prompt_run. unfold assemble_events.
  destruct (joined_texts snippets); simpl; [|symmetry; apply app_nil_r].
  destruct (truthy user_id); simpl; [|symmetry; apply app_nil_r].
  destruct (store_fault w (store_calls w)); reflexivity.
Qed.

Lemma generate_answer_trace (turns : list Turn) (w : World) :
  trace (snd (generate_answer turns w)) =
  trace w ++ [EvGroq (chat_request turns)].
Proof.
  rewrite generate_answer_run.
  destruct (groq_answer w (chat_request turns)); [|reflexivity].
  destruct (first_content a); reflexivity.
Qed.

(** The events of one request that has passed the validation. *)
Lemma chat_handler_events (req_body : JsVal) (w : World) :
  truthy (field req_body "query") = true ->
  let query := field req_body "query" in
  let snippets := snippets_of req_body in
  let user_id := field req_body "user_id" in
  new_events w (snd (chat_handler req_body w)) =
  assemble_events snippets user_id ++
  match assemble_prompt query snippets user_id w with
  | (Throw e, _) => [EvLog chat_label e]
  | (Ok turns, w1) =>
      EvGroq (chat_request turns) ::
      match generate_answer turns w1 with
      | (Throw e, _) => [EvLog chat_label e]
      | (Ok answer, w2) => persist_events user_id query answer w2
      end
  end.
Proof.
  intros Hq query snippets user_id. apply new_events_app.
  rewrite (chat_handler_run _ _ Hq). fold query snippets user_id.
  pose proof (assemble_prompt_trace query snippets user_id w) as Ha.
  destruct (assemble_prompt query snippets user_id w) as [[turns|e] w1];
    simpl in Ha.
  - pose proof (generate_answer_trace turns w1) as Hg.
    destruct (generate_answer turns w1) as [[answer|e] w2]; simpl in Hg |- *.
    + rewrite persist_turns_trace, Hg, Ha, <- !app_assoc. reflexivity.
    + rewrite Hg, Ha, <- !app_assoc. reflexivity.
  - simpl. rewrite Ha, <- app_assoc. reflexivity.
Qed.

Lemma save_events_no_groq (sql : SqlStmt) (fault : option string)
    (r : GroqRequest) :
  ~ In (EvGroq r) (save_events sql fault).
Proof.
  unfold save_events. destruct fault; simpl; intuition discriminate.
Qed.

Lemma persist_events_no_groq (user_id query answer : JsVal) (w : World)
    (r : GroqRequest) :
  ~ In (EvGroq r) (persist_events user_id query answer w).
Proof.
  unfold persist_events. destruct (truthy user_id); [|auto].
  intros H. apply in_app_or in H.
  destruct H as [H|H]; exact (save_events_no_groq _ _ _ H).
Qed.

Lemma assemble_events_no_groq (snippets user_id : JsVal) (r : GroqRequest) :
  ~ In (EvGroq r) (assemble_events snippets user_id).
Proof.
  unfold assemble_events.
  destruct (joined_texts snippets); [|auto].
  destruct (truthy user_id); simpl; intuition discriminate.
Qed.

(** A request reaches the generation service only after the query has
    passed the validation and the prompt has been assembled, and it carries
    the assembled turns. *)
Lemma chat_handler_groq_call (req_body : JsVal) (w : World) (r : GroqRequest) :
  In (EvGroq r) (new_events w (snd (chat_handler req_body w))) ->
  truthy (field req_body "query") = true
  /\ exists turns w1,
       assemble_prompt (field req_body "query") (snippets_of req_body)
         (field req_body "user_id") w = (Ok turns, w1)
       /\ r = chat_request turns.
Proof.
  intros H.
  destruct (truthy (field req_body "query")) eqn:Hq.
  - split; [reflexivity|].
    rewrite (chat_handler_events _ _ Hq) in H.
    apply in_app_or in H. destruct H as [H|H].
    { exfalso. exact (assemble_events_no_groq _ _ _ H). }
    destruct (assemble_prompt _ _ _ w) as [[turns|e] w1].
    + exists turns, w1. split; [reflexivity|].
      destruct H as [H|H]; [congruence|].
      exfalso.
      destruct (generate_answer turns w1) as [[answer|e] w2].
      * exact (persist_events_no_groq _ _ _ _ _ H).
      * simpl in H. intuition discriminate.
    + simpl in H. intuition discriminate.
  - rewrite (chat_handler_empty _ _ Hq) in H. simpl in H.
    rewrite new_events_refl in H. contradiction.
Qed.

(** The rows that one request adds to [messages]: those of step 6, when the
    handler gets that far. *)
Lemma chat_handler_new_messages (req_body : JsVal) (w : World) :
  let query := field req_body "query" in
  let user_id := field req_body "user_id" in
  new_messages w (snd (chat_handler req_body w)) =
  if truthy query
  then match assemble_prompt query (snippets_of req_body) user_id w with
       | (Throw _, _) => []
       | (Ok turns, w1) =>
           match generate_answer turns w1 with
           | (Throw _, _) => []
           | (Ok answer, w2) => persisted_rows user_id query answer w2
           end
       end
  else [].
Proof.
  intros query user_id. apply new_messages_app.
  destruct (truthy query) eqn:Hq.
  - rewrite (chat_handler_run _ _ Hq). fold query user_id.
    assert (Ha : messages_table
                   (snd (assemble_prompt query (snippets_of req_body) user_id w))
                 = messages_table w).
    { rewrite assemble_prompt_run.
      destruct (joined_texts (snippets_of req_body)); [|reflexivity].
      destruct (truthy user_id); [|reflexivity].
      destruct (store_fault w (store_calls w)); reflexivity. }
    destruct (assemble_prompt query (snippets_of req_body) user_id w)
      as [[turns|e] w1]; simpl in Ha.
    + assert (Hg : messages_table (snd (generate_answer turns w1))
                   = messages_table w1).
      { rewrite generate_answer_run.
        destruct (groq_answer w1 (chat_request turns)); [|reflexivity].
        destruct (first_content a); reflexivity. }
      destruct (generate_answer turns w1) as [[answer|e] w2]; simpl in Hg |- *.
      * rewrite persist_turns_table, Hg, Ha. reflexivity.
      * rewrite Hg, Ha, app_nil_r. reflexivity.
    + simpl. rewrite Ha, app_nil_r. reflexivity.
  - rewrite (chat_handler_empty _ _ Hq). simpl. rewrite app_nil_r. reflexivity.
Qed.

(** Every message that the handler stores is stored under a user id that
    its test [if (user_id)] accepts. *)
Lemma stored_messages_have_user (req_body : JsVal) (w : World) (m : MessageRow) :
  In m (new_messages w (snd (chat_handler req_body w))) ->
  msg_user_id m = field req_body "user_id"
  /\ truthy (msg_user_id m) = true.
Proof.
  rewrite chat_handler_new_messages.
  destruct (truthy (field req_body "query")); [|contradiction].
  destruct (assemble_prompt _ _ _ w) as [[turns|e] w1]; [|contradiction].
  destruct (generate_answer turns w1) as [[answer|e] w2]; [|contradiction].
  unfold persisted_rows.
  destruct (truthy (field req_body "user_id")) eqn:Hu; [|contradiction].
  intros H. apply in_app_or in H.
  destruct H as [H|H];
    (destruct (store_fault w2 _); simpl in H; [contradiction|]);
    destruct H as [<-|[]]; simpl; auto.
Qed.

(* ================================================================== *)
(** ** The prompt *)
(* ================================================================== *)

(* ================================================================== *)
(** ** The reply *)
(* ================================================================== *)

(** The optional chain on a completion of the documented shape reads the
    content of its first choice. *)
Lemma first_content_of_first_choice
    (text : JsVal) (others : list JsVal) :
  first_content
    (JObj [("choices",
            JArr (JObj [("message", JObj [("content", text)])] :: others))])
  = Ok text.
Proof. reflexivity. Qed.

Lemma first_content_without_choices :
  first_content (JObj []) = Ok JUndefined
  /\ first_content (JObj [("choices", JArr [])]) = Ok JUndefined
  /\ first_content (JObj [("choices", JArr [JObj []])]) = Ok JUndefined
  /\ first_content (sample_completion JNull) = Ok JNull.
Proof. repeat split. Qed.

(** The response to a request whose reply has been generated. *)
Lemma chat_handler_reply
    (req_body : JsVal) (w : World) (turns : list Turn) (w1 : World)
    (completion content : JsVal) :
  truthy (field req_body "query") = true ->
  assemble_prompt (field req_body "query") (snippets_of req_body)
    (field req_body "user_id") w = (Ok turns, w1) ->
  groq_answer w1 (chat_request turns) = Answer completion ->
  first_content completion = Ok content ->
  fst (chat_handler req_body w) =
  Ok (chat_response (js_coalesce content (JStr fallback_answer))
        (length_positive (snippets_of req_body))
        (language_of req_body) (field req_body "client")).
Proof.
  intros Hq Ha Hg Hc.
  rewrite (chat_handler_run _ _ Hq), Ha, generate_answer_run, Hg, Hc.
  reflexivity.
Qed.

Definition empty_reply_world : World :=
  with_groq_answer (fun _ => Answer (sample_completion (JStr ""))) sample_world.

(** C7, as stated, fails: when the first completion's text is the empty
    string, the answer is that empty string and not the fallback apology. *)
Lemma empty_reply_is_not_replaced :
  exists r w',
    chat_handler tired_request empty_reply_world = (Ok r, w')
    /\ first_content (sample_completion (JStr "")) = Ok (JStr "")
    /\ status r = 200
    /\ get_prop (body r) "answer" = JStr ""
    /\ get_prop (body r) "answer"
       <> JStr "I’m sorry, I’m struggling to respond right now.".
Proof.
  destruct (chat_handler_answers tired_request empty_reply_world)
    as (r & w' & H).
  exists r, w'. split; [exact H|].
  assert (Hr : fst (chat_handler tired_request empty_reply_world) = Ok r)
    by (rewrite H; reflexivity).
  rewrite (chat_handler_reply tired_request empty_reply_world tired_turns
             (sent (SelectRecentMessages (JNum 7) 8) empty_reply_world)
             (sample_completion (JStr "")) (JStr "") eq_refl) in Hr.
  - injection Hr as <-. repeat split. discriminate.
  - rewrite assemble_prompt_run. reflexivity.
  - reflexivity.
  - reflexivity.
Qed.

(** The optional chain throws only on a completion that is [undefined] or
    [null]. *)
Lemma first_content_returns (completion : JsVal) :
  nullish completion = false -> exists v, first_content completion = Ok v.
Proof.
  intros H. unfold first_content, member. rewrite H.
  destruct (nullish (get_prop completion "choices")); [eauto|].
  destruct (nullish (get_index (get_prop completion "choices") 0)); [eauto|].
  destruct (nullish (get_prop (get_index (get_prop completion "choices") 0)
                       "message")); eauto.
Qed.

(** C7, amended.  For a request that reaches the generation service and
    gets a completion from it: when the completion itself is [null] or
    [undefined] the response is the 500 apology; otherwise the response has
    status 200 and its answer field is the fallback apology if the content
    of the first completion is absent ([undefined] or [null], which is also
    what the optional chain gives when [choices], its first element or
    [message] is absent), and is that content otherwise, an empty string
    included. *)
Theorem answer_is_first_content_or_fallback
    (req_body : JsVal) (w : World) (turns : list Turn) (w1 : World)
    (completion : JsVal) :
  truthy (field req_body "query") = true ->
  assemble_prompt (field req_body "query") (snippets_of req_body)
    (field req_body "user_id") w = (Ok turns, w1) ->
  groq_answer w1 (chat_request turns) = Answer completion ->
  exists r w',
    chat_handler req_body w = (Ok r, w')
    /\ (nullish completion = true ->
        status r = 500 /\ r = backend_error_response)
    /\ (nullish completion = false ->
        exists content,
          first_content completion = Ok content
          /\ status r = 200
          /\ (nullish content = true ->
              get_prop (body r) "answer"
              = JStr "I’m sorry, I’m struggling to respond right now.")
          /\ (nullish content = false ->
              get_prop (body r) "answer" = content)).
Proof.
  intros Hq Ha Hg.
  destruct (chat_handler_answers req_body w) as (r & w' & H).
  exists r, w'. split; [exact H|].
  rewrite (chat_handler_run _ _ Hq), Ha, generate_answer_run, Hg in H.
  split.
  - intros Hn. unfold first_content, member in H. rewrite Hn in H.
    injection H as <- _. split; reflexivity.
  - intros Hn. destruct (first_content_returns _ Hn) as (content & Hc).
    rewrite Hc in H. injection H as <- _.
    exists content. split; [exact Hc|]. split; [reflexivity|].
    simpl. unfold js_coalesce. split; intros ->; reflexivity.
Qed.

Definition missing_content_world : World :=
  with_groq_answer (fun _ => Answer (JObj [("choices", JArr [])])) sample_world.

Lemma answer_is_first_content_or_fallback_witness :
  exists r w',
    chat_handler tired_request missing_content_world = (Ok r, w')
    /\ get_prop (body r) "answer"
       = JStr "I’m sorry, I’m struggling to respond right now.".
Proof.
  destruct (answer_is_first_content_or_fallback tired_request
              missing_content_world tired_turns
              (sent (SelectRecentMessages (JNum 7) 8) missing_content_world)
              (JObj [("choices", JArr [])]) eq_refl)
    as (r & w' & H & _ & Hn).
  - rewrite assemble_prompt_run. reflexivity.
  - reflexivity.
  - exists r, w'. split; [exact H|].
    destruct (Hn eq_refl) as (content & Hc & _ & Hfall & _).
    apply Hfall. injection Hc as <-. reflexivity.
Defined.

(* ================================================================== *)
(** ** Snippets that are not an array *)
(* ================================================================== *)

Definition is_array (v : JsVal) : bool :=
  match v with
  | JArr _ => true
  | _ => false
  end.

Lemma map_text_not_array (v : JsVal) :
  is_array v = false ->
  map_text v = Throw (TypeError "snippets.map is not a function").
Proof. destruct v; simpl; intros; try reflexivity; discriminate. Qed.

Lemma snippets_of_present (req_body : JsVal) :
  field req_body "snippets" <> JUndefined ->
  snippets_of req_body = field req_body "snippets".
Proof.
  unfold snippets_of. destruct (field req_body "snippets"); simpl; congruence.
Qed.

Definition bad_snippets_no_query : JsVal :=
  JObj [("snippets", JStr "a passage, not a list")].

(** C10, as stated, fails: a request whose snippets are a string and whose
    query is missing is stopped by the validation of the query, and gets the
    400 response, not the 500 one. *)
Lemma non_array_snippets_without_query_is_400 :
  field bad_snippets_no_query "snippets" <> JUndefined
  /\ is_array (field bad_snippets_no_query "snippets") = false
  /\ chat_handler bad_snippets_no_query sample_world
     = (Ok empty_query_response, sample_world)
  /\ status empty_query_response = 400
  /\ empty_query_response <> backend_error_response.
Proof.
  split; [discriminate|]. split; [reflexivity|].
  split; [apply chat_handler_empty; reflexivity|].
  split; [reflexivity|]. discriminate.
Qed.

(** C10, amended.  For a chat request that passes the validation of the
    query and whose snippets field is present but is not an array, prompt
    assembly throws and the response is the 500 apology with the flag
    "backend_error"; the only event of the request is the line in the log:
    no request is sent to the generation service, no statement to the
    store, and the tables are left as they were. *)
Theorem non_array_snippets_is_backend_error (req_body : JsVal) (w : World) :
  truthy (field req_body "query") = true ->
  field req_body "snippets" <> JUndefined ->
  is_array (field req_body "snippets") = false ->
  let err := TypeError "snippets.map is not a function" in
  assemble_prompt (field req_body "query") (snippets_of req_body)
    (field req_body "user_id") w = (Throw err, w)
  /\ exists r w',
       chat_handler req_body w = (Ok r, w')
       /\ status r = 500
       /\ r = backend_error_response
       /\ get_prop (get_prop (body r) "safety") "flags"
          = JArr [JStr "backend_error"]
       /\ new_events w w' = [EvLog chat_label err]
       /\ messages_table w' = messages_table w
       /\ users_table w' = users_table w
       /\ store_calls w' = store_calls w.
Proof.
  intros Hq Hp Hn err.
  assert (Ha : assemble_prompt (field req_body "query") (snippets_of req_body)
                 (field req_body "user_id") w = (Throw err, w)).
  { rewrite assemble_prompt_run, (snippets_of_present _ Hp).
    unfold joined_texts. rewrite (map_text_not_array _ Hn). reflexivity. }
  split; [exact Ha|].
  exists backend_error_response, (emit (EvLog chat_label err) w).
  split; [rewrite (chat_handler_run _ _ Hq), Ha; reflexivity|].
  repeat split. apply new_events_app. reflexivity.
Qed.

Definition bad_snippets_request : JsVal :=
  JObj [("query", JStr "I feel tired"); ("snippets", JStr "a passage");
        ("user_id", JNum 7)].

Lemma non_array_snippets_is_backend_error_witness :
  exists r w',
    chat_handler bad_snippets_request sample_world = (Ok r, w')
    /\ status r = 500
    /\ new_events sample_world w'
       = [EvLog chat_label (TypeError "snippets.map is not a function")].
Proof.
  destruct (non_array_snippets_is_backend_error bad_snippets_request
              sample_world eq_refl)
    as (_ & r & w' & H & Hs & _ & _ & He & _).
  - discriminate.
  - reflexivity.
  - exists r, w'. auto.
Defined.

(* ================================================================== *)
(** ** The successful response *)
(* ================================================================== *)

Lemma map_text_array (snippets : JsVal) (texts : list JsVal) :
  map_text snippets = Ok texts ->
  exists items, snippets = JArr items /\ map_text_items items = Ok texts.
Proof.
  destruct snippets; simpl; try discriminate. intros H. eauto.
Qed.

Lemma map_text_items_length (items texts : list JsVal) :
  map_text_items items = Ok texts -> List.length texts = List.length items.
Proof.
  revert texts. induction items as [|s items IH]; simpl; intros texts H.
  - injection H as <-. reflexivity.
  - destruct (member s "text"); [|discriminate].
    destruct (map_text_items items) as [ts|]; [|discriminate].
    injection H as <-. simpl. f_equal. apply IH. reflexivity.
Qed.

(** A response with status 200 comes from the last line of the [try]
    block, after a call to the generation service. *)
Lemma chat_handler_success
    (req_body : JsVal) (w : World) (r : Response) (w' : World) :
  chat_handler req_body w = (Ok r, w') ->
  status r = 200 ->
  truthy (field req_body "query") = true
  /\ exists turns w1 answer w2,
       assemble_prompt (field req_body "query") (snippets_of req_body)
         (field req_body "user_id") w = (Ok turns, w1)
       /\ generate_answer turns w1 = (Ok answer, w2)
       /\ r = chat_response answer (length_positive (snippets_of req_body))
                (language_of req_body) (field req_body "client").
Proof.
  intros H Hs.
  destruct (truthy (field req_body "query")) eqn:Hq.
  - split; [reflexivity|].
    rewrite (chat_handler_run _ _ Hq) in H.
    destruct (assemble_prompt _ _ _ w) as [[turns|e] w1] eqn:Ha.
    + destruct (generate_answer turns w1) as [[answer|e] w2] eqn:Hg.
      * injection H as <- _. exists turns, w1, answer, w2. auto.
      * injection H as <- _. discriminate.
    + injection H as <- _. discriminate.
  - rewrite (chat_handler_empty _ _ Hq) in H. injection H as <- _.
    discriminate.
Qed.

Definition blank_snippet_request : JsVal :=
  JObj [("query", JStr "I feel tired");
        ("snippets", JArr [JObj [("text", JStr "")]])].

(** C8, as stated, fails: with one snippet whose text is empty the
    grounding block is empty and [grounded] is [true]. *)
Lemma grounded_with_empty_grounding_block :
  exists r w',
    chat_handler blank_snippet_request sample_world = (Ok r, w')
    /\ status r = 200
    /\ map_text (snippets_of blank_snippet_request) = Ok [JStr ""]
    /\ js_join (LF ++ LF) [JStr ""] = ""
    /\ get_prop (get_prop (body r) "meta") "grounded" = JBool true.
Proof.
  destruct (chat_handler_answers blank_snippet_request sample_world)
    as (r & w' & H).
  exists r, w'. split; [exact H|].
  assert (Hr : fst (chat_handler blank_snippet_request sample_world) = Ok r)
    by (rewrite H; reflexivity).
  rewrite (chat_handler_reply blank_snippet_request sample_world
             (prompt_turns [JStr ""] [] (JStr "I feel tired")) sample_world
             (sample_completion (JStr "You are not alone."))
             (JStr "You are not alone.") eq_refl) in Hr.
  - injection Hr as <-. repeat split.
  - rewrite assemble_prompt_run. reflexivity.
  - reflexivity.
  - reflexivity.
Qed.

(** C8, amended.  In every response with status 200, [safety] is
    [{ ok: true, flags: [] }]; the snippets are an array and [grounded] is
    [true] exactly when that array is not empty (so it is [true] whenever the
    grounding block is not empty); [model] is the model named in the request
    that was sent to the generation service, "llama-3.1-8b-instant", and
    [provider] is "groq"; [language] is the language of the request, or
    "en" when the request has none, and [client] is its client. *)
Theorem successful_response_shape
    (req_body : JsVal) (w : World) (r : Response) (w' : World) :
  chat_handler req_body w = (Ok r, w') ->
  status r = 200 ->
  exists answer items texts request,
    snippets_of req_body = JArr items
    /\ map_text (JArr items) = Ok texts
    /\ In (EvGroq request) (new_events w w')
    /\ model request = "llama-3.1-8b-instant"
    /\ body r =
         JObj [("answer", answer);
               ("safety", JObj [("ok", JBool true); ("flags", JArr [])]);
               ("meta", JObj [("model", JStr (model request));
                              ("provider", JStr "groq");
                              ("grounded", JBool (0 <? List.length items)%nat);
                              ("language",
                               js_default (field req_body "language")
                                 (JStr "en"));
                              ("client", field req_body "client")])]
    /\ ((0 <? List.length items)%nat = true <-> items <> [])
    /\ (js_join (LF ++ LF) texts <> "" -> items <> []).
Proof.
  intros H Hs.
  destruct (chat_handler_success _ _ _ _ H Hs)
    as (Hq & turns & w1 & answer & w2 & Ha & Hg & ->).
  assert (He : new_events w w' =
               new_events w (snd (chat_handler req_body w)))
    by (rewrite H; reflexivity).
  rewrite (chat_handler_events _ _ Hq), Ha, Hg in He.
  pose proof Ha as Ha'. rewrite assemble_prompt_run in Ha'.
  destruct (joined_texts (snippets_of req_body)) as [texts|e] eqn:Hjt;
    [|discriminate].
  destruct (joined_texts_ok _ _ Hjt) as (Hm & _).
  destruct (map_text_array _ _ Hm) as (items & Hi & Hl).
  exists answer, items, texts, (chat_request turns).
  split; [exact Hi|].
  split; [rewrite <- Hi; exact Hm|].
  split; [rewrite He; apply in_or_app; right; left; reflexivity|].
  split; [reflexivity|].
  split; [rewrite Hi; reflexivity|].
  split.
  - destruct items; unfold Nat.ltb; simpl; split; intros;
      try discriminate; congruence.
  - intros Hj ->. simpl in Hl. injection Hl as <-. apply Hj. reflexivity.
Qed.

Lemma successful_response_shape_witness :
  exists r w' answer,
    chat_handler blank_snippet_request sample_world = (Ok r, w')
    /\ get_prop (body r) "answer" = answer
    /\ get_prop (get_prop (body r) "meta") "model"
       = JStr "llama-3.1-8b-instant"
    /\ get_prop (get_prop (body r) "meta") "language" = JStr "en".
Proof.
  destruct (chat_handler_answers blank_snippet_request sample_world)
    as (r & w' & H).
  assert (Hs : status r = 200).
  { assert (Hr : fst (chat_handler blank_snippet_request sample_world) = Ok r)
      by (rewrite H; reflexivity).
    rewrite (chat_handler_reply blank_snippet_request sample_world
               (prompt_turns [JStr ""] [] (JStr "I feel tired")) sample_world
               (sample_completion (JStr "You are not alone."))
               (JStr "You are not alone.") eq_refl) in Hr.
    - injection Hr as <-. reflexivity.
    - rewrite assemble_prompt_run. reflexivity.
    - reflexivity.
    - reflexivity. }
  destruct (successful_response_shape _ _ _ _ H Hs)
    as (answer & items & texts & request & _ & _ & _ & Hm & Hb & _).
  exists r, w', answer. split; [exact H|].
  rewrite Hb, Hm. repeat split.
Defined.

(* ================================================================== *)
(** ** What the validation of the query tests *)
(* ================================================================== *)

(** A non-empty string that [trim] empties. *)
Definition whitespace_only (s : string) : bool :=
  negb (s =? "") && (js_trim s =? "").

Lemma whitespace_only_truthy (s : string) :
  whitespace_only s = true -> truthy (JStr s) = true.
Proof.
  unfold whitespace_only. intros H. apply andb_prop in H. exact (proj1 H).
Qed.

Lemma prompt_turns_last (texts : list JsVal) (rows : list MessageRow)
    (query : JsVal) (d : Turn) :
  last (prompt_turns texts rows query) d = mkTurn (JStr "user") query.
Proof.
  unfold prompt_turns. rewrite app_comm_cons. apply last_last.
Qed.

Lemma assemble_prompt_last (query snippets user_id : JsVal) (w : World)
    (turns : list Turn) (w1 : World) (d : Turn) :
  assemble_prompt query snippets user_id w = (Ok turns, w1) ->
  last turns d = mkTurn (JStr "user") query.
Proof.
  rewrite assemble_prompt_run.
  destruct (joined_texts snippets); [|discriminate].
  destruct (truthy user_id).
  - destruct (store_fault w (store_calls w)); [discriminate|].
    intros H. injection H as <- _. apply prompt_turns_last.
  - intros H. injection H as <- _. apply prompt_turns_last.
Qed.

(** The validation rejects exactly the falsy queries. *)
Lemma rejected_iff_falsy (req_body : JsVal) (w : World) :
  fst (chat_handler req_body w) = Ok empty_query_response
  <-> truthy (field req_body "query") = false.
Proof.
  split.
  - intros H. destruct (truthy (field req_body "query")) eqn:Hq; [|reflexivity].
    rewrite (chat_handler_run _ _ Hq) in H.
    destruct (assemble_prompt _ _ _ w) as [[turns|e] w1]; [|discriminate].
    destruct (generate_answer turns w1) as [[answer|e] w2]; discriminate.
  - intros Hq. rewrite (chat_handler_empty _ _ Hq). reflexivity.
Qed.

Definition blank_query_request : JsVal := JObj [("query", JStr " ")].

(** C9, as stated, fails: a request whose query is one space and that has
    no user id gets its reply, and nothing is persisted: the only call of
    the request is the one to the generation service. *)
Lemma blank_query_without_user_is_not_persisted :
  whitespace_only " " = true
  /\ exists r w',
       chat_handler blank_query_request sample_world = (Ok r, w')
       /\ status r = 200
       /\ new_events sample_world w'
          = [EvGroq (chat_request (prompt_turns [] [] (JStr " ")))]
       /\ messages_table w' = messages_table sample_world.
Proof.
  split; [reflexivity|].
  exists (chat_response (JStr "You are not alone.") false (JStr "en") JUndefined),
         (emit (EvGroq (chat_request (prompt_turns [] [] (JStr " "))))
            sample_world).
  split.
  - rewrite chat_handler_run by reflexivity.
    rewrite assemble_prompt_run.
    change (joined_texts (snippets_of blank_query_request))
      with (@Ok (list JsVal) []).
    change (truthy (field blank_query_request "user_id")) with false.
    cbv iota. rewrite generate_answer_run. reflexivity.
  - repeat split.
Qed.

(** C9, amended.  The validation tests the falsiness of the query and
    nothing else.  A request whose query is a non-empty string of white
    space passes it (the response is not the 400 one); every request it
    sends to the generation service ends with the string itself as the turn
    of role "user", and one is sent whenever prompt assembly succeeds; when
    the request has a user id and the reply is generated, the first INSERT
    carries the string itself, and the row with that content is added when
    the store accepts it; without a user id nothing is stored.  A falsy
    query of any type, such as 0, is rejected as empty. *)
Theorem validation_tests_falsiness_only
    (req_body : JsVal) (w : World) (s : string) :
  field req_body "query" = JStr s ->
  whitespace_only s = true ->
  let snippets := snippets_of req_body in
  let user_id := field req_body "user_id" in
  let w' := snd (chat_handler req_body w) in
  (exists r w1,
      chat_handler req_body w = (Ok r, w1)
      /\ status r <> 400 /\ r <> empty_query_response)
  /\ (forall request, In (EvGroq request) (new_events w w') ->
        last (messages request) (mkTurn JUndefined JUndefined)
        = mkTurn (JStr "user") (JStr s))
  /\ (forall turns w1,
        assemble_prompt (JStr s) snippets user_id w = (Ok turns, w1) ->
        In (EvGroq (chat_request turns)) (new_events w w'))
  /\ (forall turns w1 answer w2,
        truthy user_id = true ->
        assemble_prompt (JStr s) snippets user_id w = (Ok turns, w1) ->
        generate_answer turns w1 = (Ok answer, w2) ->
        In (EvQuery (InsertMessage user_id (JStr "user") (JStr s)))
           (new_events w2 w')
        /\ (store_fault w2 (store_calls w2) = None ->
            In (mkMessageRow user_id (JStr "user") (JStr s) (clock w2))
               (new_messages w2 w')))
  /\ (truthy user_id = false -> new_messages w w' = [])
  /\ (forall other w0,
        truthy (field other "query") = false ->
        chat_handler other w0 = (Ok empty_query_response, w0))
  /\ (forall other w0,
        field other "query" = JNum 0 ->
        chat_handler other w0 = (Ok empty_query_response, w0)).
Proof.
  intros Hs Hw snippets user_id w'.
  pose proof (whitespace_only_truthy _ Hw) as Ht.
  assert (Hq : truthy (field req_body "query") = true) by (rewrite Hs; exact Ht).
  split.
  { destruct (chat_handler_answers req_body w) as (r & w1 & H).
    exists r, w1. split; [exact H|].
    rewrite (chat_handler_run _ _ Hq) in H.
    destruct (assemble_prompt _ _ _ w) as [[turns|e] wa].
    - destruct (generate_answer turns wa) as [[answer|e] wb];
        injection H as <- _; (split; [simpl; lia | discriminate]).
    - injection H as <- _. split; [simpl; lia | discriminate]. }
  split.
  { intros request Hin. apply chat_handler_groq_call in Hin.
    destruct Hin as (_ & turns & w1 & Ha & ->).
    rewrite Hs in Ha. simpl. eapply assemble_prompt_last. exact Ha. }
  split.
  { intros turns w1 Ha. unfold w'.
    rewrite (chat_handler_events _ _ Hq), Hs. fold snippets user_id.
    rewrite Ha. apply in_or_app. right. left. reflexivity. }
  split.
  { intros turns w1 answer w2 Hu Ha Hg.
    unfold w'. rewrite (chat_handler_run _ _ Hq), Hs.
    fold snippets user_id. rewrite Ha, Hg. simpl snd.
    rewrite (new_events_app _ _ _ (persist_turns_trace user_id (JStr s) answer w2)).
    rewrite (new_messages_app _ _ _
               (persist_turns_table user_id (JStr s) answer w2)).
    unfold persist_events, persisted_rows. rewrite Hu. split.
    - left. reflexivity.
    - intros Hf. rewrite Hf. left. reflexivity. }
  split.
  { intros Hu. unfold w'. rewrite chat_handler_new_messages, Hq.
    destruct (assemble_prompt _ _ _ w) as [[turns|e] w1]; [|reflexivity].
    destruct (generate_answer turns w1) as [[answer|e] w2]; [|reflexivity].
    unfold persisted_rows. fold user_id. rewrite Hu. reflexivity. }
  split.
  { intros other w0. apply chat_handler_empty. }
  intros other w0 H0. apply chat_handler_empty. rewrite H0. reflexivity.
Qed.

Definition blank_query_with_user : JsVal :=
  JObj [("query", JStr " "); ("user_id", JNum 7)].

Lemma validation_tests_falsiness_only_witness :
  In (mkMessageRow (JNum 7) (JStr "user") (JStr " ") 40)
     (messages_table (snd (chat_handler blank_query_with_user sample_world)))
  /\ chat_handler (JObj [("query", JNum 0)]) sample_world
     = (Ok empty_query_response, sample_world).
Proof.
  destruct (validation_tests_falsiness_only blank_query_with_user sample_world
              " " eq_refl eq_refl)
    as (_ & _ & _ & Hp & _ & _ & H0).
  split.
  - destruct (Hp (prompt_turns [] (history (JNum 7) 8
                                     (messages_table sample_world)) (JStr " "))
                (sent (SelectRecentMessages (JNum 7) 8) sample_world)
                (JStr "You are not alone.")
                (emit (EvGroq (chat_request
                                 (prompt_turns [] (history (JNum 7) 8
                                    (messages_table sample_world)) (JStr " "))))
                   (sent (SelectRecentMessages (JNum 7) 8) sample_world))
                eq_refl)
      as (_ & Hrow).
    + rewrite assemble_prompt_run. reflexivity.
    + rewrite generate_answer_run. reflexivity.
    + apply (skipn_In _ _ _ (Hrow eq_refl)).
  - apply H0. reflexivity.
Defined.

(* ================================================================== *)
(** ** Login *)
(* ================================================================== *)

(** The users that [findUserByPhone] selects. *)
Definition users_with_phone (phone : JsVal) (w : World) : list UserRow :=
  filter (fun u => sql_eq (usr_phone u) phone) (users_table w).

Lemma createUser_answered (phone password name hash : JsVal) (w : World) :
  hash_answer w password 10 = Answer hash ->
  store_fault w (store_calls w) = None ->
  let u := mkUserRow (next_user_id w) phone hash name (clock w) in
  createUser phone password name w =
  (Ok (user_returning u),
   add_user u (sent (InsertUser phone hash name) (emit (EvHash password 10) w))).
Proof.
  intros Hh Hs u. unfold createUser, bcrypt_hash. run_monad. rewrite Hh.
  rewrite query_answered by exact Hs. reflexivity.
Qed.

Section LoginWithBody.

Variables (req_body : JsVal) (w : World).
Hypothesis has_body : nullish req_body = false.

Let phone := get_prop req_body "phone".
Let password := get_prop req_body "password".
Let name := get_prop req_body "name".

Lemma login_try_fields :
  login_try req_body w =
  (if negb (truthy phone) || negb (truthy password)
   then ret login_required
   else
     existingUser <- findUserByPhone phone ;;
     if truthy existingUser
     then
       ok <- bcrypt_compare password (get_prop existingUser "password_hash") ;;
       if negb ok
       then ret login_invalid
       else ret (mkResponse 200
                   (login_payload existingUser (get_prop existingUser "id")
                      false))
     else
       user <- createUser phone password (js_or name JNull) ;;
       id <- lift (member user "id") ;;
       ret (mkResponse 201 (login_payload user id true))) w.
Proof.
  unfold login_try, member. rewrite has_body. reflexivity.
Qed.

(** Missing phone or password: 400, and the world is untouched. *)
Lemma login_missing_field :
  truthy phone = false \/ truthy password = false ->
  login_handler req_body w = (Ok login_required, w).
Proof.
  intros H. unfold login_handler, try_catch. rewrite login_try_fields.
  replace (negb (truthy phone) || negb (truthy password)) with true.
  - reflexivity.
  - destruct H as [-> | ->]; simpl; auto using orb_true_r.
Qed.

Lemma findUserByPhone_answered :
  store_fault w (store_calls w) = None ->
  findUserByPhone phone w =
  (Ok match users_with_phone phone w with
      | u :: _ => user_columns u
      | [] => JNull
      end,
   sent (SelectUserByPhone phone) w).
Proof.
  intros H. unfold findUserByPhone. run_monad.
  rewrite (query_answered _ _ H). simpl.
  fold (users_with_phone phone w).
  destruct (users_with_phone phone w); reflexivity.
Qed.

(** Unknown phone: the user is created, 201 and [is_new = true]. *)
Lemma login_new_user (hash : JsVal) :
  truthy phone = true -> truthy password = true ->
  store_fault w (store_calls w) = None ->
  users_with_phone phone w = [] ->
  hash_answer w password 10 = Answer hash ->
  store_fault w (S (store_calls w)) = None ->
  let u := mkUserRow (next_user_id w) phone hash (js_or name JNull) (clock w) in
  exists w',
    login_handler req_body w =
      (Ok (mkResponse 201
             (JObj [("user_id", JNum (usr_id u)); ("name", usr_name u);
                    ("phone", phone); ("is_new", JBool true)])), w')
    /\ users_table w' = users_table w ++ [u].
Proof.
  intros Hp Hw Hs Hn Hh Hi u. eexists.
  unfold login_handler, try_catch. rewrite login_try_fields, Hp, Hw.
  cbn [orb negb]. unfold bind at 1.
  rewrite (findUserByPhone_answered Hs), Hn. cbn [truthy user_columns].
  unfold bind at 1.
  rewrite (createUser_answered phone password (js_or name JNull) hash
             (sent (SelectUserByPhone phone) w) Hh Hi).
  split; reflexivity.
Qed.

(** Known phone: the password is compared with the stored hash of the
    first row; 200 and [is_new = false] when it verifies, 401 when it does
    not; in both cases no user is created or modified. *)
Lemma login_existing_user (u : UserRow) (others : list UserRow) (ok : bool) :
  truthy phone = true -> truthy password = true ->
  store_fault w (store_calls w) = None ->
  users_with_phone phone w = u :: others ->
  compare_answer w password (usr_password_hash u) = Answer ok ->
  exists w',
    login_handler req_body w =
      (Ok (if ok
           then mkResponse 200
                  (JObj [("user_id", JNum (usr_id u)); ("name", usr_name u);
                         ("phone", usr_phone u); ("is_new", JBool false)])
           else login_invalid), w')
    /\ users_table w' = users_table w.
Proof.
  intros Hp Hw Hs Hn Hc. eexists.
  unfold login_handler, try_catch. rewrite login_try_fields, Hp, Hw.
  cbn [orb negb]. unfold bind at 1.
  rewrite (findUserByPhone_answered Hs), Hn. cbn [truthy user_columns].
  unfold bcrypt_compare. run_monad. simpl. rewrite Hc.
  destruct ok; split; reflexivity.
Qed.

End LoginWithBody.

(** C5.  The claim asks for status 400 whenever phone or password is
    missing, and the chat handler, which reads [req.body || {}], answers 400
    to a request without a body.  The login handler destructures [req.body]
    itself: for a request without a body the destructuring throws, the
    [catch] answers 500, and the store is not touched. *)
Theorem login_without_body_is_server_error (w : World) :
  (exists r w',
     login_handler JUndefined w = (Ok r, w')
     /\ status r = 500
     /\ body r = JObj [("error", JStr "Server error during login.")]
     /\ new_events w w'
        = [EvLog "Login error:"
             (TypeError "Cannot read properties of undefined")]
     /\ users_table w' = users_table w
     /\ store_calls w' = store_calls w)
  /\ chat_handler JUndefined w = (Ok empty_query_response, w)
  /\ status empty_query_response = 400.
Proof.
  split; [|split; reflexivity].
  exists login_server_error,
         (emit (EvLog "Login error:"
                  (TypeError "Cannot read properties of undefined")) w).
  repeat split. apply new_events_app. reflexivity.
Qed.

(* ================================================================== *)
(** ** Login, case by case *)
(* ================================================================== *)

Definition login_label : string := "Login error:".

(** The row that [createUser] inserts. *)
Definition new_user_row (req_body hash : JsVal) (w : World) : UserRow :=
  mkUserRow (next_user_id w) (get_prop req_body "phone") hash
    (js_or (get_prop req_body "name") JNull) (clock w).

(** The payload of a successful login. *)
Definition user_payload (u : UserRow) (is_new : bool) : JsVal :=
  JObj [("user_id", JNum (usr_id u)); ("name", usr_name u);
        ("phone", usr_phone u); ("is_new", JBool is_new)].

Lemma findUserByPhone_run (phone : JsVal) (w : World) :
  findUserByPhone phone w =
  match store_fault w (store_calls w) with
  | Some detail => (Throw (StoreError detail), sent (SelectUserByPhone phone) w)
  | None =>
      (Ok match users_with_phone phone w with
          | u :: _ => user_columns u
          | [] => JNull
          end,
       sent (SelectUserByPhone phone) w)
  end.
Proof.
  unfold findUserByPhone. run_monad.
  destruct (store_fault w (store_calls w)) as [detail|] eqn:Hs.
  - rewrite (query_failed _ _ _ Hs). reflexivity.
  - rewrite (query_answered _ _ Hs). simpl.
    fold (users_with_phone phone w).
    destruct (users_with_phone phone w); reflexivity.
Qed.

(** The whole handler for a request that has a body, as a decision tree over
    the request, the [users] table and the answers of the store and of
    bcrypt. *)
Lemma login_handler_run (req_body : JsVal) (w : World) :
  nullish req_body = false ->
  let phone := get_prop req_body "phone" in
  let password := get_prop req_body "password" in
  let w1 := sent (SelectUserByPhone phone) w in
  login_handler req_body w =
  if negb (truthy phone) || negb (truthy password)
  then (Ok login_required, w)
  else
    match store_fault w (store_calls w) with
    | Some detail =>
        (Ok login_server_error, emit (EvLog login_label (StoreError detail)) w1)
    | None =>
        match users_with_phone phone w with
        | u :: _ =>
            let w2 := emit (EvCompare password (usr_password_hash u)) w1 in
            match compare_answer w password (usr_password_hash u) with
            | Fault detail =>
                (Ok login_server_error,
                 emit (EvLog login_label (BcryptError detail)) w2)
            | Answer ok =>
                (Ok (if ok then mkResponse 200 (user_payload u false)
                     else login_invalid), w2)
            end
        | [] =>
            let w2 := emit (EvHash password 10) w1 in
            match hash_answer w password 10 with
            | Fault detail =>
                (Ok login_server_error,
                 emit (EvLog login_label (BcryptError detail)) w2)
            | Answer hash =>
                let u := new_user_row req_body hash w in
                let sql := InsertUser phone hash (usr_name u) in
                match store_fault w (S (store_calls w)) with
                | Some detail =>
                    (Ok login_server_error,
                     emit (EvLog login_label (StoreError detail)) (sent sql w2))
                | None =>
                    (Ok (mkResponse 201 (user_payload u true)),
                     add_user u (sent sql w2))
                end
            end
        end
    end.
Proof.
  intros Hb phone password w1.
  unfold login_handler, try_catch.
  rewrite (login_try_fields req_body w Hb). fold phone password.
  destruct (negb (truthy phone) || negb (truthy password)); [reflexivity|].
  unfold bind at 1. rewrite findUserByPhone_run. fold w1.
  destruct (store_fault w (store_calls w)) as [detail|] eqn:Hs;
    [reflexivity|].
  destruct (users_with_phone phone w) as [|u others].
  - cbn [truthy]. unfold bind at 1.
    unfold createUser, bcrypt_hash. run_monad.
    change (hash_answer w1 password 10) with (hash_answer w password 10).
    destruct (hash_answer w password 10) as [hash|detail]; [|reflexivity].
    destruct (store_fault w (S (store_calls w))) as [detail|] eqn:Hi.
    + rewrite query_failed with (detail := detail) by exact Hi. reflexivity.
    + rewrite query_answered by exact Hi. reflexivity.
  - cbn [truthy user_columns]. unfold bcrypt_compare. run_monad. simpl.
    destruct (compare_answer w password (usr_password_hash u)) as [ok|detail];
      [|reflexivity].
    destruct ok; reflexivity.
Qed.

Lemma login_handler_no_body (req_body : JsVal) (w : World) :
  nullish req_body = true ->
  login_handler req_body w =
  (Ok login_server_error,
   emit (EvLog login_label
           (TypeError ("Cannot read properties of " ++ js_to_string req_body)))
     w).
Proof.
  intros Hb. unfold login_handler, login_try, member. run_monad.
  rewrite Hb. reflexivity.
Qed.

Lemma js_eqb_refl : forall v : JsVal, js_eqb v v = true.
Proof.
  fix IH 1. intros [ | | b | z | s | items | fields]; simpl.
  - reflexivity.
  - reflexivity.
  - destruct b; reflexivity.
  - apply Z.eqb_refl.
  - apply String.eqb_refl.
  - induction items as [|x xs IHxs]; [reflexivity|].
    rewrite (IH x), IHxs. reflexivity.
  - induction fields as [|[k x] xs IHxs]; [reflexivity|].
    rewrite String.eqb_refl, (IH x), IHxs. reflexivity.
Qed.

Lemma truthy_not_nullish (v : JsVal) : truthy v = true -> nullish v = false.
Proof. destruct v; simpl; intros; try reflexivity; discriminate. Qed.

Lemma sql_eq_refl (v : JsVal) : truthy v = true -> sql_eq v v = true.
Proof.
  intros H. unfold sql_eq.
  rewrite (truthy_not_nullish _ H), js_eqb_refl. reflexivity.
Qed.

(** The names of the properties of an object. *)
Definition own_keys (v : JsVal) : list string :=
  match v with
  | JObj fields => map fst fields
  | _ => []
  end.

Definition missing_credentials (req_body : JsVal) : Prop :=
  truthy (get_prop req_body "phone") = false
  \/ truthy (get_prop req_body "password") = false.

Lemma missing_credentials_test (req_body : JsVal) :
  negb (truthy (get_prop req_body "phone"))
  || negb (truthy (get_prop req_body "password")) = true
  <-> missing_credentials req_body.
Proof.
  unfold missing_credentials.
  destruct (truthy (get_prop req_body "phone")),
           (truthy (get_prop req_body "password")); simpl; intuition congruence.
Qed.

(** X1.  For a login request that has a body, the response is the 400
    "Phone and password are required." exactly when the phone or the
    password is missing or falsy, and then the world is left as it was: the
    store and bcrypt are not called and nothing is logged. *)
Theorem login_rejects_missing_credentials (req_body : JsVal) (w : World) :
  nullish req_body = false ->
  (missing_credentials req_body ->
   login_handler req_body w =
   (Ok (mkResponse 400
          (JObj [("error", JStr "Phone and password are required.")])), w))
  /\ (forall r w', login_handler req_body w = (Ok r, w') ->
        status r = 400 -> missing_credentials req_body).
Proof.
  intros Hb. pose proof (login_handler_run req_body w Hb) as Hrun.
  cbv zeta in Hrun. split.
  - intros Hm. apply missing_credentials_test in Hm.
    rewrite Hrun, Hm. reflexivity.
  - intros r w' H Hs. apply missing_credentials_test.
    destruct (negb (truthy (get_prop req_body "phone"))
              || negb (truthy (get_prop req_body "password")));
      [reflexivity|].
    exfalso. rewrite Hrun in H.
    destruct (store_fault w (store_calls w));
      [injection H as <- _; discriminate|].
    destruct (users_with_phone _ w) as [|u others].
    + destruct (hash_answer w _ 10);
        [|injection H as <- _; discriminate].
      destruct (store_fault w (S (store_calls w)));
        injection H as <- _; discriminate.
    + destruct (compare_answer w _ _) as [[|]|];
        injection H as <- _; discriminate.
Qed.

Definition login_without_password : JsVal :=
  JObj [("phone", JStr "0771"); ("password", JStr "")].

Lemma login_rejects_missing_credentials_witness :
  login_handler login_without_password sample_world
  = (Ok login_required, sample_world).
Proof.
  apply (proj1 (login_rejects_missing_credentials login_without_password
                  sample_world eq_refl)).
  right. reflexivity.
Defined.

(** X2.  A login with a phone that no user has, when the store and bcrypt
    answer: bcrypt is asked for a hash of the password with 10 rounds, one
    row is appended to [users] with the next id, the phone, that hash (not
    the password) and the name, or [null] when the request has no name; the
    response is 201 with [is_new = true] and the new id.  The calls are the
    SELECT, the hash and the INSERT, in that order. *)
Theorem login_registers_unknown_phone
    (req_body : JsVal) (w : World) (hash : JsVal) :
  let phone := get_prop req_body "phone" in
  let password := get_prop req_body "password" in
  nullish req_body = false ->
  truthy phone = true -> truthy password = true ->
  store_fault w (store_calls w) = None ->
  store_fault w (S (store_calls w)) = None ->
  users_with_phone phone w = [] ->
  hash_answer w password 10 = Answer hash ->
  let u := mkUserRow (next_user_id w) phone hash
             (js_or (get_prop req_body "name") JNull) (clock w) in
  exists w',
    login_handler req_body w =
      (Ok (mkResponse 201
             (JObj [("user_id", JNum (next_user_id w));
                    ("name", js_or (get_prop req_body "name") JNull);
                    ("phone", phone); ("is_new", JBool true)])), w')
    /\ users_table w' = users_table w ++ [u]
    /\ next_user_id w' = (next_user_id w + 1)%Z
    /\ messages_table w' = messages_table w
    /\ new_events w w' =
         [EvQuery (SelectUserByPhone phone); EvHash password 10;
          EvQuery (InsertUser phone hash (usr_name u))].
Proof.
  intros phone password Hb Hp Hw Hs Hi Hn Hh u.
  pose proof (login_handler_run req_body w Hb) as Hrun. cbv zeta in Hrun.
  fold phone password in Hrun.
  rewrite Hp, Hw, Hs, Hn, Hh, Hi in Hrun. simpl in Hrun.
  eexists. split; [exact Hrun|].
  repeat split. apply new_events_app. simpl. rewrite <- !app_assoc.
  reflexivity.
Qed.

Definition register_request : JsVal :=
  JObj [("phone", JStr "0782"); ("password", JStr "secret")].

Lemma login_registers_unknown_phone_witness :
  exists w',
    login_handler register_request sample_world =
      (Ok (mkResponse 201
             (JObj [("user_id", JNum 8); ("name", JNull);
                    ("phone", JStr "0782"); ("is_new", JBool true)])), w')
    /\ users_table w' =
       users_table sample_world
       ++ [mkUserRow 8 (JStr "0782") (JStr "$2a$10$n") JNull 40].
Proof.
  destruct (login_registers_unknown_phone register_request sample_world
              (JStr "$2a$10$n") eq_refl eq_refl eq_refl eq_refl eq_refl
              eq_refl eq_refl)
    as (w' & H & Hu & _).
  exists w'. split; [exact H | exact Hu].
Defined.

(** X3.  A login with a phone that a user has, when the store and bcrypt
    answer: the password is compared with the stored hash of the first such
    user; the response is 200 with that user's id, name and phone and
    [is_new = false] when it verifies and 401 when it does not.  In both
    cases the tables are left as they were, and the only calls are the
    SELECT and the comparison: no hash is computed and nothing is
    inserted. *)
Theorem login_verifies_existing_user
    (req_body : JsVal) (w : World) (u : UserRow) (others : list UserRow)
    (ok : bool) :
  let phone := get_prop req_body "phone" in
  let password := get_prop req_body "password" in
  nullish req_body = false ->
  truthy phone = true -> truthy password = true ->
  store_fault w (store_calls w) = None ->
  users_with_phone phone w = u :: others ->
  compare_answer w password (usr_password_hash u) = Answer ok ->
  exists w',
    login_handler req_body w =
      (Ok (if ok
           then mkResponse 200
                  (JObj [("user_id", JNum (usr_id u)); ("name", usr_name u);
                         ("phone", usr_phone u); ("is_new", JBool false)])
           else mkResponse 401
                  (JObj [("error", JStr "Invalid phone or password.")])), w')
    /\ users_table w' = users_table w
    /\ messages_table w' = messages_table w
    /\ new_events w w' =
         [EvQuery (SelectUserByPhone phone);
          EvCompare password (usr_password_hash u)].
Proof.
  intros phone password Hb Hp Hw Hs Hn Hc.
  pose proof (login_handler_run req_body w Hb) as Hrun. cbv zeta in Hrun.
  fold phone password in Hrun.
  rewrite Hp, Hw, Hs, Hn, Hc in Hrun. simpl in Hrun.
  eexists. split; [exact Hrun|].
  repeat split. apply new_events_app. simpl. rewrite <- !app_assoc.
  reflexivity.
Qed.

Definition wrong_password_request : JsVal :=
  JObj [("phone", JStr "0771"); ("password", JStr "guess")].

Lemma login_verifies_existing_user_witness :
  exists w',
    login_handler wrong_password_request sample_world = (Ok login_invalid, w')
    /\ users_table w' = users_table sample_world.
Proof.
  destruct (login_verifies_existing_user wrong_password_request sample_world
              (mkUserRow 7 (JStr "0771") (JStr "$2a$10$h") (JStr "Rumbi") 1)
              [] false eq_refl eq_refl eq_refl eq_refl eq_refl eq_refl)
    as (w' & H & Hu & _).
  exists w'. split; [exact H | exact Hu].
Defined.

(** Split the goal along the decision tree of the login handler. *)
Ltac login_cases req_body w :=
  let Hb := fresh "Hb" in
  destruct (nullish req_body) eqn:Hb;
  [ rewrite (login_handler_no_body req_body w Hb)
  | rewrite (login_handler_run req_body w Hb); cbv zeta;
    destruct (negb (truthy (get_prop req_body "phone"))
              || negb (truthy (get_prop req_body "password")));
    [ | destruct (store_fault w (store_calls w));
        [ | destruct (users_with_phone (get_prop req_body "phone") w)
              as [|?u ?others];
            [ destruct (hash_answer w (get_prop req_body "password") 10);
              [ destruct (store_fault w (S (store_calls w))) | ]
            | destruct (compare_answer w (get_prop req_body "password")
                          (usr_password_hash u)) as [[|]|] ] ] ] ].

(** X4.  The login handler always answers, with status 200, 201, 400, 401
    or 500.  Its response is one of the three fixed error objects, or is
    made of the [id], [name] and [phone] columns of one row of [users] and
    of [is_new], and of nothing else: the payload is built from those three
    columns only, so neither the password of the request nor the
    [password_hash] column, which the SELECT reads, is copied into a
    response. *)
Theorem login_payload_is_public_columns (req_body : JsVal) (w : World) :
  exists r w',
    login_handler req_body w = (Ok r, w')
    /\ In (status r) [200; 201; 400; 401; 500]
    /\ (In (body r)
           [JObj [("error", JStr "Phone and password are required.")];
            JObj [("error", JStr "Invalid phone or password.")];
            JObj [("error", JStr "Server error during login.")]]
        \/ exists u is_new,
             In u (users_table w')
             /\ body r =
                JObj [("user_id", JNum (usr_id u)); ("name", usr_name u);
                      ("phone", usr_phone u); ("is_new", JBool is_new)]).
Proof.
  destruct (nullish req_body) eqn:Hb.
  { rewrite (login_handler_no_body req_body w Hb). eexists. eexists.
    split; [reflexivity|]. simpl. intuition. }
  rewrite (login_handler_run req_body w Hb). cbv zeta.
  destruct (negb (truthy (get_prop req_body "phone"))
            || negb (truthy (get_prop req_body "password"))).
  { eexists. eexists. split; [reflexivity|]. simpl. intuition. }
  destruct (store_fault w (store_calls w)).
  { eexists. eexists. split; [reflexivity|]. simpl. intuition. }
  destruct (users_with_phone (get_prop req_body "phone") w)
    as [|u others] eqn:Hf.
  - destruct (hash_answer w (get_prop req_body "password") 10) as [hash|d].
    2:{ eexists. eexists. split; [reflexivity|]. simpl. intuition. }
    destruct (store_fault w (S (store_calls w))).
    { eexists. eexists. split; [reflexivity|]. simpl. intuition. }
    eexists. eexists. split; [reflexivity|].
    split; [simpl; intuition|]. right.
    exists (new_user_row req_body hash w), true. split; [|reflexivity].
    simpl. apply in_or_app. right. left. reflexivity.
  - assert (Hin : In u (users_table w)).
    { assert (H : In u (users_with_phone (get_prop req_body "phone") w))
        by (rewrite Hf; left; reflexivity).
      unfold users_with_phone in H. apply filter_In in H. exact (proj1 H). }
    destruct (compare_answer w (get_prop req_body "password")
                (usr_password_hash u)) as [[|]|d].
    + eexists. eexists. split; [reflexivity|].
      split; [simpl; intuition|]. right.
      exists u, false. split; [exact Hin | reflexivity].
    + eexists. eexists. split; [reflexivity|]. simpl. intuition.
    + eexists. eexists. split; [reflexivity|]. simpl. intuition.
Qed.

(** X5.  The login handler never writes to [messages], and it changes [users]
    only when it answers 201, by appending one row whose phone is the phone
    of the request and whose id is in the response; with any other status
    (also when the hash or the INSERT failed) the table is as it was. *)
Theorem login_creates_user_only_with_201 (req_body : JsVal) (w : World) :
  exists r w',
    login_handler req_body w = (Ok r, w')
    /\ messages_table w' = messages_table w
    /\ (status r <> 201 -> users_table w' = users_table w)
    /\ (status r = 201 ->
        exists u, users_table w' = users_table w ++ [u]
                  /\ usr_phone u = get_prop req_body "phone"
                  /\ usr_id u = next_user_id w
                  /\ body r = user_payload u true).
Proof.
  login_cases req_body w; eexists; eexists; (split; [reflexivity|]);
    (split; [reflexivity|]); simpl;
    (split; [intros H; try reflexivity; exfalso; apply H; reflexivity
            |intros H; try discriminate]).
  eexists. repeat split.
Qed.

(** X6.  Registration followed by a login with the same phone.  When a
    first login creates the user, a second login with that phone (and any
    truthy password) finds the user: the password is compared with the hash
    stored by the first login, the response is 200 with the id given at
    registration and [is_new = false] when bcrypt accepts it and 401 when
    it does not, and no second user is created. *)
Theorem register_then_login
    (first second : JsVal) (w : World) (hash : JsVal) (ok : bool) :
  let phone := get_prop first "phone" in
  let u := mkUserRow (next_user_id w) phone hash
             (js_or (get_prop first "name") JNull) (clock w) in
  nullish first = false -> nullish second = false ->
  truthy phone = true -> truthy (get_prop first "password") = true ->
  get_prop second "phone" = phone ->
  truthy (get_prop second "password") = true ->
  store_fault w (store_calls w) = None ->
  store_fault w (S (store_calls w)) = None ->
  store_fault w (S (S (store_calls w))) = None ->
  users_with_phone phone w = [] ->
  hash_answer w (get_prop first "password") 10 = Answer hash ->
  compare_answer w (get_prop second "password") hash = Answer ok ->
  exists r1 w1 w2,
    login_handler first w = (Ok r1, w1)
    /\ status r1 = 201
    /\ users_table w1 = users_table w ++ [u]
    /\ login_handler second w1 =
         (Ok (if ok
              then mkResponse 200
                     (JObj [("user_id", JNum (next_user_id w));
                            ("name", usr_name u); ("phone", phone);
                            ("is_new", JBool false)])
              else login_invalid), w2)
    /\ users_table w2 = users_table w1
    /\ In (EvCompare (get_prop second "password") hash) (new_events w1 w2).
Proof.
  intros phone u Hb1 Hb2 Hp Hw1 Hp2 Hw2 Hs0 Hs1 Hs2 Hn Hh Hc.
  pose proof (login_handler_run first w Hb1) as Hrun1. cbv zeta in Hrun1.
  fold phone in Hrun1. rewrite Hp, Hw1, Hs0, Hn, Hh, Hs1 in Hrun1.
  simpl in Hrun1. fold u in Hrun1.
  set (w1 := add_user u
               (sent (InsertUser phone hash (js_or (get_prop first "name") JNull))
                  (emit (EvHash (get_prop first "password") 10)
                     (sent (SelectUserByPhone phone) w)))) in *.
  assert (Hfound : users_with_phone phone w1 = [u]).
  { unfold users_with_phone in *. simpl. rewrite filter_app, Hn. simpl.
    rewrite (sql_eq_refl _ Hp). reflexivity. }
  pose proof (login_handler_run second w1 Hb2) as Hrun2. cbv zeta in Hrun2.
  rewrite Hp2, Hp, Hw2, Hfound in Hrun2.
  change (store_fault w1 (store_calls w1))
    with (store_fault w (S (S (store_calls w)))) in Hrun2.
  rewrite Hs2 in Hrun2.
  change (compare_answer w1 (get_prop second "password") (usr_password_hash u))
    with (compare_answer w (get_prop second "password") hash) in Hrun2.
  rewrite Hc in Hrun2. simpl in Hrun2.
  eexists. exists w1. eexists.
  split; [exact Hrun1|]. split; [reflexivity|]. split; [reflexivity|].
  split; [exact Hrun2|]. split; [reflexivity|].
  erewrite new_events_app.
  2:{ simpl. rewrite <- app_assoc. reflexivity. }
  right. left. reflexivity.
Qed.

Definition login_again_request : JsVal :=
  JObj [("phone", JStr "0782"); ("password", JStr "secret");
        ("name", JStr "ignored")].

Lemma register_then_login_witness :
  exists w1 w2,
    snd (login_handler register_request sample_world) = w1
    /\ login_handler login_again_request w1 =
         (Ok (mkResponse 200
                (JObj [("user_id", JNum 8); ("name", JNull);
                       ("phone", JStr "0782"); ("is_new", JBool false)])), w2)
    /\ List.length (users_table w2) = 2.
Proof.
  destruct (register_then_login register_request login_again_request
              sample_world (JStr "$2a$10$n") true
              eq_refl eq_refl eq_refl eq_refl eq_refl eq_refl eq_refl eq_refl
              eq_refl eq_refl eq_refl eq_refl)
    as (r1 & w1 & w2 & H1 & _ & Hu1 & H2 & Hu2 & _).
  exists w1, w2. split; [rewrite H1; reflexivity|].
  split; [exact H2|]. rewrite Hu2, Hu1. reflexivity.
Defined.

(* ================================================================== *)
(** ** [GET /db-ping] *)
(* ================================================================== *)

Definition db_ping_handler : M Response :=
  try_catch
    (rows <- query SelectNow ;;
     now <- lift (member (nth 0 rows JUndefined) "now") ;;
     ret (mkResponse 200 (JObj [("ok", JBool true); ("time", now)])))
    (fun err =>
       console_error "DB error:" err ;;;
       ret (mkResponse 500 (JObj [("ok", JBool false)]))).

(** X7.  [/db-ping] sends one statement to the store and reports whether it
    was answered: status 200 with [ok: true] and the time of the store when
    it was, status 500 with the body [{ ok: false }] and the error in the
    log when it was not.  The tables are not changed. *)
Theorem db_ping_reports_the_store (w : World) :
  exists r w',
    db_ping_handler w = (Ok r, w')
    /\ (store_fault w (store_calls w) = None ->
        r = mkResponse 200 (JObj [("ok", JBool true); ("time", JNum (clock w))])
        /\ new_events w w' = [EvQuery SelectNow])
    /\ (forall detail,
          store_fault w (store_calls w) = Some detail ->
          r = mkResponse 500 (JObj [("ok", JBool false)])
          /\ new_events w w' =
               [EvQuery SelectNow; EvLog "DB error:" (StoreError detail)])
    /\ (status r = 200 <-> store_fault w (store_calls w) = None)
    /\ users_table w' = users_table w
    /\ messages_table w' = messages_table w
    /\ store_calls w' = S (store_calls w).
Proof.
  unfold db_ping_handler. run_monad.
  destruct (store_fault w (store_calls w)) as [detail|] eqn:Hs.
  - rewrite (query_failed _ _ _ Hs). eexists. eexists.
    split; [reflexivity|]. split; [discriminate|].
    split.
    { intros d Hd. injection Hd as <-. split; [reflexivity|].
      apply new_events_app. simpl. rewrite <- app_assoc. reflexivity. }
    split; [split; discriminate|]. repeat split.
  - rewrite (query_answered _ _ Hs). eexists. eexists.
    split; [reflexivity|].
    split.
    { intros _. split; [reflexivity|]. apply new_events_app. reflexivity. }
    split; [discriminate|]. repeat split.
Qed.

(* ================================================================== *)
(** ** What the chat handler leaves alone *)
(* ================================================================== *)

(** The parts of the world that no step of the chat handler changes. *)
Definition same_services (w w' : World) : Prop :=
  users_table w' = users_table w
  /\ next_user_id w' = next_user_id w
  /\ store_fault w' = store_fault w
  /\ groq_answer w' = groq_answer w
  /\ hash_answer w' = hash_answer w
  /\ compare_answer w' = compare_answer w.

Lemma same_services_refl (w : World) : same_services w w.
Proof. repeat split. Qed.

Lemma same_services_trans (w1 w2 w3 : World) :
  same_services w1 w2 -> same_services w2 w3 -> same_services w1 w3.
Proof.
  unfold same_services. intros (A1 & A2 & A3 & A4 & A5 & A6)
    (B1 & B2 & B3 & B4 & B5 & B6).
  repeat split; congruence.
Qed.

Definition is_query (e : Event) : bool :=
  match e with EvQuery _ => true | _ => false end.

Definition is_groq (e : Event) : bool :=
  match e with EvGroq _ => true | _ => false end.

Definition is_bcrypt (e : Event) : bool :=
  match e with EvHash _ _ | EvCompare _ _ => true | _ => false end.

Lemma assemble_prompt_frame (query snippets user_id : JsVal) (w : World) :
  let w1 := snd (assemble_prompt query snippets user_id w) in
  same_services w w1
  /\ messages_table w1 = messages_table w
  /\ clock w1 = clock w
  /\ store_calls w1 =
     store_calls w + List.length (assemble_events snippets user_id).
Proof.
  rewrite assemble_prompt_run. unfold assemble_events.
  destruct (joined_texts snippets); simpl; [|repeat split; lia].
  destruct (truthy user_id); simpl; [|repeat split; lia].
  destruct (store_fault w (store_calls w)); simpl; repeat split; lia.
Qed.

Lemma generate_answer_frame (turns : list Turn) (w : World) :
  let w1 := snd (generate_answer turns w) in
  same_services w w1
  /\ messages_table w1 = messages_table w
  /\ clock w1 = clock w
  /\ store_calls w1 = store_calls w.
Proof.
  rewrite generate_answer_run.
  destruct (groq_answer w (chat_request turns)); [|repeat split].
  destruct (first_content a); repeat split.
Qed.

Lemma saveMessage_frame (user_id role content : JsVal) (w : World) :
  let w1 := snd (saveMessage user_id role content w) in
  same_services w w1 /\ store_calls w1 = S (store_calls w).
Proof.
  rewrite saveMessage_run. simpl.
  destruct (store_fault w (store_calls w)); repeat split.
Qed.

Lemma persist_turns_frame (user_id query answer : JsVal) (w : World) :
  let w1 := snd (persist_turns user_id query answer w) in
  same_services w w1
  /\ store_calls w1 = store_calls w + (if truthy user_id then 2 else 0).
Proof.
  rewrite persist_turns_world.
  destruct (truthy user_id); [|split; [apply same_services_refl|]; simpl; lia].
  destruct (saveMessage_frame user_id (JStr "user") query w) as (F1 & C1).
  destruct (saveMessage_frame user_id (JStr "assistant") answer
              (snd (saveMessage user_id (JStr "user") query w))) as (F2 & C2).
  cbv zeta in *. split; [exact (same_services_trans _ _ _ F1 F2)|].
  rewrite C2, C1. lia.
Qed.

Lemma emit_frame (e : Event) (w : World) :
  same_services w (emit e w)
  /\ messages_table (emit e w) = messages_table w
  /\ store_calls (emit e w) = store_calls w.
Proof. repeat split. Qed.

(** X8.  One chat request makes at most one call to the generation service
    and sends at most three statements to the store (the SELECT of the
    history and the two INSERTs), each once: nothing is retried.  It never
    calls bcrypt and never changes [users]. *)
Theorem chat_calls_are_bounded (req_body : JsVal) (w : World) :
  let w' := snd (chat_handler req_body w) in
  let events := new_events w w' in
  List.length (filter is_groq events) <= 1
  /\ List.length (filter is_query events) <= 3
  /\ filter is_bcrypt events = []
  /\ store_calls w' = store_calls w + List.length (filter is_query events)
  /\ users_table w' = users_table w.
Proof.
  cbv zeta.
  destruct (truthy (field req_body "query")) eqn:Hq.
  2:{ rewrite (chat_handler_empty _ _ Hq). simpl. rewrite new_events_refl.
      simpl. repeat split; lia. }
  rewrite (chat_handler_events _ _ Hq), (chat_handler_run _ _ Hq).
  cbv zeta. rewrite assemble_prompt_run. unfold assemble_events.
  destruct (joined_texts (snippets_of req_body)) as [texts|e];
    [|simpl; repeat split; lia].
  destruct (truthy (field req_body "user_id")) eqn:Hu.
  - destruct (store_fault w (store_calls w)) as [d|];
      [simpl; repeat split; lia|].
    rewrite generate_answer_run. simpl groq_answer.
    destruct (groq_answer w _) as [completion|d];
      [|simpl; repeat split; lia].
    destruct (first_content completion) as [content|e];
      [|simpl; repeat split; lia].
    unfold persist_events. rewrite persist_turns_world, Hu.
    rewrite !saveMessage_run. simpl.
    destruct (store_fault w (S (store_calls w))); simpl;
      destruct (store_fault w (S (S (store_calls w))));
      simpl; repeat split; lia.
  - rewrite generate_answer_run.
    destruct (groq_answer w _) as [completion|d];
      [|simpl; repeat split; lia].
    destruct (first_content completion) as [content|e];
      [|simpl; repeat split; lia].
    unfold persist_events. rewrite persist_turns_world, Hu.
    simpl. repeat split; lia.
Qed.

(** X9.  A chat request without a user id (absent, [null], 0 or empty) never
    reaches the store: no statement is sent, the tables are as they were,
    and the prompt of its call to the generation service has two turns, the
    system instruction and the new utterance. *)
Theorem chat_without_user_is_stateless (req_body : JsVal) (w : World) :
  truthy (field req_body "user_id") = false ->
  let w' := snd (chat_handler req_body w) in
  filter is_query (new_events w w') = []
  /\ store_calls w' = store_calls w
  /\ messages_table w' = messages_table w
  /\ (forall request, In (EvGroq request) (new_events w w') ->
        exists texts,
          map_text (snippets_of req_body) = Ok texts
          /\ messages request =
             [mkTurn (JStr "system")
                (JStr (systemPrompt (js_join (LF ++ LF) texts)));
              mkTurn (JStr "user") (field req_body "query")]).
Proof.
  intros Hu. cbv zeta.
  destruct (truthy (field req_body "query")) eqn:Hq.
  2:{ rewrite (chat_handler_empty _ _ Hq). simpl. rewrite new_events_refl.
      repeat split. contradiction. }
  rewrite (chat_handler_events _ _ Hq), (chat_handler_run _ _ Hq).
  cbv zeta. rewrite assemble_prompt_run. unfold assemble_events. rewrite Hu.
  destruct (joined_texts (snippets_of req_body)) as [texts|e] eqn:Hjt.
  - rewrite (proj1 (joined_texts_ok _ _ Hjt)). rewrite generate_answer_run.
    assert (Hturns : forall request,
               EvGroq (chat_request
                         (prompt_turns texts [] (field req_body "query")))
               = EvGroq request ->
               exists texts0,
                 Ok texts = Ok texts0
                 /\ messages request =
                    [mkTurn (JStr "system")
                       (JStr (systemPrompt (js_join (LF ++ LF) texts0)));
                     mkTurn (JStr "user") (field req_body "query")]).
    { intros request H. injection H as <-. exists texts. split; reflexivity. }
    destruct (groq_answer w _) as [completion|d].
    + destruct (first_content completion) as [content|e].
      * unfold persist_events. rewrite persist_turns_world, Hu. simpl.
        repeat split. intros request [H|[]]. exact (Hturns _ H).
      * simpl. repeat split.
        intros request [H|[H|[]]]; [exact (Hturns _ H)|discriminate].
    + simpl. repeat split.
      intros request [H|[H|[]]]; [exact (Hturns _ H)|discriminate].
  - simpl. repeat split. intros request [H|[]]. discriminate.
Qed.

Lemma chat_without_user_is_stateless_witness :
  store_calls (snd (chat_handler blank_query_request sample_world)) = 0
  /\ messages_table (snd (chat_handler blank_query_request sample_world))
     = messages_table sample_world.
Proof.
  destruct (chat_without_user_is_stateless blank_query_request sample_world
              eq_refl) as (_ & Hc & Hm & _).
  split; [exact Hc | exact Hm].
Defined.

(** The table [messages] after one chat request. *)
Lemma chat_handler_table (req_body : JsVal) (w : World) :
  messages_table (snd (chat_handler req_body w)) =
  messages_table w ++ new_messages w (snd (chat_handler req_body w)).
Proof.
  rewrite chat_handler_new_messages. cbv zeta.
  destruct (truthy (field req_body "query")) eqn:Hq.
  - rewrite (chat_handler_run _ _ Hq).
    destruct (assemble_prompt_frame (field req_body "query")
                (snippets_of req_body) (field req_body "user_id") w)
      as (_ & Ha & _).
    destruct (assemble_prompt _ _ _ w) as [[turns|e] w1]; simpl in Ha.
    + destruct (generate_answer_frame turns w1) as (_ & Hg & _).
      destruct (generate_answer turns w1) as [[answer|e] w2]; simpl in Hg |- *.
      * rewrite persist_turns_table, Hg, Ha. reflexivity.
      * rewrite Hg, Ha, app_nil_r. reflexivity.
    + simpl. rewrite Ha, app_nil_r. reflexivity.
  - rewrite (chat_handler_empty _ _ Hq). simpl. rewrite app_nil_r. reflexivity.
Qed.

Definition is_insert (e : Event) : bool :=
  match e with
  | EvQuery (InsertMessage _ _ _) => true
  | _ => false
  end.

(** X10.  The chat handler writes to [messages] only in a request that it
    answers with status 200: when the response is the 400 or the 500 one,
    no INSERT has been sent and the table is as it was, so a failed request
    leaves no half of an exchange behind. *)
Theorem failed_chat_persists_nothing (req_body : JsVal) (w : World) :
  exists r w',
    chat_handler req_body w = (Ok r, w')
    /\ (status r = 200 \/ status r = 400 \/ status r = 500)
    /\ (status r <> 200 ->
        messages_table w' = messages_table w
        /\ filter is_insert (new_events w w') = []).
Proof.
  destruct (chat_handler_answers req_body w) as (r & w' & H).
  exists r, w'. split; [exact H|].
  assert (Ht : messages_table w' = messages_table w ++ new_messages w w').
  { pose proof (chat_handler_table req_body w) as Ht. rewrite H in Ht.
    exact Ht. }
  assert (He : new_events w w' = new_events w (snd (chat_handler req_body w)))
    by (rewrite H; reflexivity).
  assert (Hm : new_messages w w' =
               new_messages w (snd (chat_handler req_body w)))
    by (rewrite H; reflexivity).
  rewrite chat_handler_new_messages in Hm. cbv zeta in Hm.
  destruct (truthy (field req_body "query")) eqn:Hq.
  - rewrite (chat_handler_events _ _ Hq) in He. cbv zeta in He.
    rewrite (chat_handler_run _ _ Hq) in H.
    assert (Ha : filter is_insert
                   (assemble_events (snippets_of req_body)
                      (field req_body "user_id")) = []).
    { unfold assemble_events.
      destruct (joined_texts (snippets_of req_body)); [|reflexivity].
      destruct (truthy (field req_body "user_id")); reflexivity. }
    destruct (assemble_prompt _ _ _ w) as [[turns|e] w1].
    + destruct (generate_answer turns w1) as [[answer|e] w2];
        injection H as <- _.
      * split; [left; reflexivity|]. intros Hn. exfalso. apply Hn. reflexivity.
      * split; [right; right; reflexivity|]. intros _.
        rewrite Ht, Hm, He, app_nil_r, filter_app, Ha. split; reflexivity.
    + injection H as <- _. split; [right; right; reflexivity|]. intros _.
      rewrite Ht, Hm, He, app_nil_r, filter_app, Ha. split; reflexivity.
  - rewrite (chat_handler_empty _ _ Hq) in H. injection H as <- <-.
    split; [right; left; reflexivity|]. intros _.
    rewrite new_events_refl. split; reflexivity.
Qed.

(* ================================================================== *)
(** ** Completions and snippets of any shape *)
(* ================================================================== *)

(** The optional chain throws only on a completion that is [undefined] or
    [null]. *)
Lemma first_content_answers (completion : JsVal) :
  nullish completion = false -> exists v, first_content completion = Ok v.
Proof.
  intros H. unfold first_content, member. rewrite H.
  destruct (nullish (get_prop completion "choices")); [eauto|].
  destruct (nullish (get_index (get_prop completion "choices") 0)); [eauto|].
  destruct (nullish (get_prop (get_index (get_prop completion "choices") 0)
                       "message")); eauto.
Qed.

(** X11.  When the generation service answers, the shape of the completion
    cannot make the request fail: for every completion that is not [null]
    the response has status 200, and its answer is the fallback apology or
    a content that the optional chain found in the completion.  Only a
    completion that is itself [null] or [undefined] gives the 500
    response. *)
Theorem completion_shape_never_fails
    (req_body : JsVal) (w : World) (turns : list Turn) (w1 : World)
    (completion : JsVal) :
  truthy (field req_body "query") = true ->
  assemble_prompt (field req_body "query") (snippets_of req_body)
    (field req_body "user_id") w = (Ok turns, w1) ->
  groq_answer w1 (chat_request turns) = Answer completion ->
  exists r w',
    chat_handler req_body w = (Ok r, w')
    /\ (nullish completion = false ->
        status r = 200
        /\ (get_prop (body r) "answer" = JStr fallback_answer
            \/ (first_content completion = Ok (get_prop (body r) "answer")
                /\ nullish (get_prop (body r) "answer") = false)))
    /\ (nullish completion = true -> r = backend_error_response).
Proof.
  intros Hq Ha Hg.
  destruct (chat_handler_answers req_body w) as (r & w' & H).
  exists r, w'. split; [exact H|].
  rewrite (chat_handler_run _ _ Hq), Ha, generate_answer_run, Hg in H.
  split.
  - intros Hn. destruct (first_content_answers _ Hn) as (v & Hv).
    rewrite Hv in H. injection H as <- _. split; [reflexivity|].
    simpl. unfold js_coalesce. destruct (nullish v) eqn:Hnv.
    + left. reflexivity.
    + right. split; [exact Hv | exact Hnv].
  - intros Hn. unfold first_content, member in H. rewrite Hn in H.
    injection H as <- _. reflexivity.
Qed.

Definition odd_completion_world : World :=
  with_groq_answer (fun _ => Answer (JArr [JNum 1; JStr "choices"]))
    sample_world.

Lemma completion_shape_never_fails_witness :
  exists r w',
    chat_handler tired_request odd_completion_world = (Ok r, w')
    /\ status r = 200.
Proof.
  destruct (completion_shape_never_fails tired_request odd_completion_world
              tired_turns
              (sent (SelectRecentMessages (JNum 7) 8) odd_completion_world)
              (JArr [JNum 1; JStr "choices"]) eq_refl)
    as (r & w' & H & Hok & _).
  - rewrite assemble_prompt_run. reflexivity.
  - reflexivity.
  - exists r, w'. split; [exact H|]. apply Hok. reflexivity.
Defined.

(** [snippets.map((s) => s.text)] on an array: the texts in order when no
    element is [null], an error at the first [null] element otherwise. *)
Lemma map_text_items_ok (items : list JsVal) :
  forallb (fun s => negb (nullish s)) items = true ->
  map_text_items items = Ok (map (fun s => get_prop s "text") items).
Proof.
  induction items as [|s items IH]; simpl; [reflexivity|].
  intros H. apply andb_prop in H. destruct H as (Hs & Hr).
  unfold member. apply negb_true_iff in Hs. rewrite Hs, (IH Hr). reflexivity.
Qed.

Lemma map_text_items_null (items : list JsVal) :
  forallb (fun s => negb (nullish s)) items = false ->
  exists s, In s items /\ nullish s = true
            /\ map_text_items items =
               Throw (TypeError ("Cannot read properties of " ++ js_to_string s)).
Proof.
  induction items as [|s items IH]; simpl; [discriminate|].
  intros H. unfold member. destruct (nullish s) eqn:Hs.
  - exists s. auto.
  - simpl in H. destruct (IH H) as (s' & Hin & Hn & Ht).
    exists s'. rewrite Ht. auto.
Qed.

(** X12.  A request that passes the validation of the query and whose
    snippets are an array with a [null] element: reading [text] from that
    element throws, and the response is the 500 apology.  The only event is
    the line in the log: the store and the generation service are not
    called and the tables are as they were. *)
Theorem null_snippet_is_backend_error
    (req_body : JsVal) (w : World) (items : list JsVal) :
  truthy (field req_body "query") = true ->
  snippets_of req_body = JArr items ->
  forallb (fun s => negb (nullish s)) items = false ->
  exists s w',
    In s items /\ nullish s = true
    /\ chat_handler req_body w = (Ok backend_error_response, w')
    /\ new_events w w' =
         [EvLog chat_label
            (TypeError ("Cannot read properties of " ++ js_to_string s))]
    /\ messages_table w' = messages_table w
    /\ store_calls w' = store_calls w.
Proof.
  intros Hq Hs Hn.
  destruct (map_text_items_null items Hn) as (s & Hin & Hnull & Ht).
  exists s. eexists. split; [exact Hin|]. split; [exact Hnull|].
  split.
  - rewrite (chat_handler_run _ _ Hq), assemble_prompt_run, Hs.
    unfold joined_texts, map_text. rewrite Ht. reflexivity.
  - repeat split. apply new_events_app. reflexivity.
Qed.

Definition null_snippet_request : JsVal :=
  JObj [("query", JStr "I feel tired");
        ("snippets", JArr [JObj [("text", JStr "Rest when you can.")]; JNull])].

Lemma null_snippet_is_backend_error_witness :
  exists w',
    chat_handler null_snippet_request sample_world
    = (Ok backend_error_response, w')
    /\ new_events sample_world w' =
         [EvLog chat_label (TypeError "Cannot read properties of null")].
Proof.
  destruct (null_snippet_is_backend_error null_snippet_request sample_world
              [JObj [("text", JStr "Rest when you can.")]; JNull]
              eq_refl eq_refl eq_refl)
    as (s & w' & Hin & Hn & H & He & _).
  exists w'. split; [exact H|].
  destruct Hin as [<-|[<-|[]]]; [discriminate Hn | exact He].
Defined.

Lemma js_join_strings (sep : string) (texts : list string) :
  js_join sep (map JStr texts) = String.concat sep texts.
Proof.
  unfold js_join. rewrite map_map. f_equal.
  induction texts as [|t texts IH]; simpl; [reflexivity|].
  rewrite IH. reflexivity.
Qed.

Lemma array_join_strings (sep : string) (texts : list string) :
  array_join sep (map JStr texts) = Ok (String.concat sep texts).
Proof.
  unfold array_join.
  replace (existsb join_element_throws (map JStr texts)) with false.
  - rewrite js_join_strings. reflexivity.
  - induction texts as [|t texts IH]; simpl; [reflexivity | exact IH].
Qed.

(** The snippet [s] is an object whose text is the string [t]. *)
Definition has_text (s : JsVal) (t : string) : Prop :=
  nullish s = false /\ get_prop s "text" = JStr t.

Lemma map_text_items_texts (items : list JsVal) (texts : list string) :
  Forall2 has_text items texts ->
  map_text_items items = Ok (map JStr texts).
Proof.
  induction 1 as [|s t items texts (Hn & Ht) _ IH]; simpl; [reflexivity|].
  unfold member. rewrite Hn, Ht, IH. reflexivity.
Qed.

(** X13.  When every snippet has a string as its text, the grounding block
    that ends the system instruction is made of those texts, in the order
    of the request, separated by one blank line (two line feeds), and
    nothing else; an empty list gives an empty block. *)
Theorem grounding_joins_texts_in_order
    (req_body : JsVal) (w : World) (items : list JsVal) (texts : list string)
    (request : GroqRequest) :
  snippets_of req_body = JArr items ->
  Forall2 has_text items texts ->
  In (EvGroq request) (new_events w (snd (chat_handler req_body w))) ->
  hd_error (messages request) =
  Some (mkTurn (JStr "system")
          (JStr (systemPrompt (String.concat (LF ++ LF) texts)))).
Proof.
  intros Hs Ht Hin.
  apply chat_handler_groq_call in Hin.
  destruct Hin as (_ & turns & w1 & Ha & ->).
  rewrite assemble_prompt_run, Hs in Ha. unfold joined_texts, map_text in Ha.
  rewrite (map_text_items_texts _ _ Ht), array_join_strings in Ha.
  cbv beta iota in Ha.
  destruct (truthy (field req_body "user_id")).
  - destruct (store_fault w (store_calls w)); [discriminate|].
    injection Ha as <- _. unfold prompt_turns. simpl.
    rewrite js_join_strings. reflexivity.
  - injection Ha as <- _. unfold prompt_turns. simpl.
    rewrite js_join_strings. reflexivity.
Qed.

Definition two_snippets_request : JsVal :=
  JObj [("query", JStr "I feel tired");
        ("snippets", JArr [JObj [("text", JStr "Rest when you can.")];
                           JObj [("text", JStr "Drink water.");
                                 ("source", JStr "clinic leaflet")]])].

Lemma grounding_joins_texts_in_order_witness :
  exists request,
    In (EvGroq request)
       (new_events sample_world
          (snd (chat_handler two_snippets_request sample_world)))
    /\ hd_error (messages request) =
       Some (mkTurn (JStr "system")
               (JStr (systemPrompt
                        ("Rest when you can." ++ LF ++ LF ++ "Drink water.")))).
Proof.
  assert (Hin : In (EvGroq (chat_request
                      (prompt_turns [JStr "Rest when you can.";
                                     JStr "Drink water."] []
                         (JStr "I feel tired"))))
                   (new_events sample_world
                      (snd (chat_handler two_snippets_request sample_world)))).
  { rewrite chat_handler_events by reflexivity.
    rewrite assemble_prompt_run. simpl. auto. }
  eexists. split; [exact Hin|].
  apply (grounding_joins_texts_in_order two_snippets_request sample_world
           [JObj [("text", JStr "Rest when you can.")];
            JObj [("text", JStr "Drink water.");
                  ("source", JStr "clinic leaflet")]]
           ["Rest when you can."; "Drink water."] _ eq_refl).
  - repeat constructor.
  - exact Hin.
Defined.

(* ================================================================== *)
(** ** The system instruction and [trim] *)
(* ================================================================== *)

Section Stripping.

Variable ps : list (list ascii).

Lemma strip_prefix_app (p s s' : list ascii) :
  strip_prefix p s = Some s' -> s = p ++ s'.
Proof.
  revert s. induction p as [|a p IH]; intros [|b s]; simpl; intros H;
    try discriminate.
  - injection H as <-. reflexivity.
  - injection H as <-. reflexivity.
  - destruct (Ascii.eqb a b) eqn:E; [|discriminate].
    apply Ascii.eqb_eq in E. subst b. f_equal. apply IH. exact H.
Qed.

Lemma strip_any_app (s s' : list ascii) :
  strip_any ps s = Some s' -> exists p, In p ps /\ s = p ++ s'.
Proof.
  induction ps as [|p qs IH]; simpl; [discriminate|].
  destruct (strip_prefix p s) as [r|] eqn:E.
  - intros H. injection H as <-. exists p. split; [left; reflexivity|].
    apply strip_prefix_app. exact E.
  - intros H. destruct (IH H) as (q & Hq & Hs). exists q. auto.
Qed.

Lemma strip_leading_stop (fuel : nat) (s : list ascii) :
  strip_any ps s = None -> strip_leading ps fuel s = s.
Proof. destruct fuel; simpl; [reflexivity|]. intros ->. reflexivity. Qed.

(** A byte that occurs in no pattern is never removed, and neither is what
    follows it. *)
Variable c : ascii.
Hypothesis c_protected : forall p, In p ps -> ~ In c p.

Lemma app_split_protected (p s' a b : list ascii) :
  ~ In c p -> p ++ s' = a ++ c :: b ->
  exists a', a = p ++ a' /\ s' = a' ++ c :: b.
Proof.
  revert a. induction p as [|x p IH]; intros a Hc H; simpl in *.
  - exists a. auto.
  - destruct a as [|y a]; simpl in H.
    + injection H as -> _. exfalso. apply Hc. left. reflexivity.
    + injection H as -> H.
      destruct (IH a (fun Hin => Hc (or_intror Hin)) H) as (a' & -> & ->).
      exists a'. auto.
Qed.

Lemma strip_leading_protected (fuel : nat) (a b : list ascii) :
  exists a', strip_leading ps fuel (a ++ c :: b) = a' ++ c :: b.
Proof.
  revert a. induction fuel as [|fuel IH]; intros a; simpl; [eauto|].
  destruct (strip_any ps (a ++ c :: b)) as [s'|] eqn:E; [|eauto].
  destruct (strip_any_app _ _ E) as (p & Hp & Hs).
  destruct (app_split_protected p s' a b (c_protected p Hp) (eq_sym Hs))
    as (a' & _ & ->).
  apply IH.
Qed.

End Stripping.

Lemma list_ascii_of_string_app (s t : string) :
  list_ascii_of_string (s ++ t) =
  (list_ascii_of_string s ++ list_ascii_of_string t)%list.
Proof. induction s as [|a s IH]; simpl; [reflexivity|]. rewrite IH. reflexivity. Qed.

Lemma string_of_list_ascii_app (l m : list ascii) :
  string_of_list_ascii (l ++ m) =
  (string_of_list_ascii l ++ string_of_list_ascii m)%string.
Proof. induction l as [|a l IH]; simpl; [reflexivity|]. rewrite IH. reflexivity. Qed.

(** The bytes that occur in no white-space sequence: no [trim] removes
    them. *)
Definition is_text_byte (c : ascii) : bool :=
  forallb (fun p => negb (existsb (Ascii.eqb c) p)) white_space.

Lemma is_text_byte_protected (c : ascii) :
  is_text_byte c = true ->
  forall p, In p (map (@rev ascii) white_space) -> ~ In c p.
Proof.
  intros H p Hp Hc. apply in_map_iff in Hp. destruct Hp as (q & <- & Hq).
  unfold is_text_byte in H. rewrite forallb_forall in H.
  specialize (H q Hq). apply negb_true_iff in H.
  apply in_rev in Hc.
  assert (He : existsb (Ascii.eqb c) q = true).
  { apply existsb_exists. exists c. split; [exact Hc | apply Ascii.eqb_refl]. }
  congruence.
Qed.

(** [trimEnd] keeps everything up to the last text byte. *)
Lemma trim_end_keeps (x t : list ascii) (c : ascii) :
  is_text_byte c = true ->
  exists t', trim_end_bytes (x ++ c :: t) = (x ++ c :: t')%list.
Proof.
  intros Hc. unfold trim_end_bytes.
  assert (Hr : rev (x ++ c :: t) = (rev t ++ c :: rev x)%list).
  { rewrite rev_app_distr. simpl. rewrite <- app_assoc. reflexivity. }
  rewrite Hr.
  destruct (strip_leading_protected (map (@rev ascii) white_space) c
              (is_text_byte_protected c Hc)
              (List.length (x ++ c :: t)) (rev t) (rev x)) as (a' & ->).
  exists (rev a'). rewrite rev_app_distr. simpl.
  rewrite rev_involutive, <- app_assoc. reflexivity.
Qed.

Definition LFc : ascii := ascii_of_nat 10.
Definition SPc : ascii := ascii_of_nat 32.

Lemma strip_leading_step (ps : list (list ascii)) (fuel : nat)
    (s s' : list ascii) :
  strip_any ps s = Some s' ->
  strip_leading ps (S fuel) s = strip_leading ps fuel s'.
Proof. simpl. intros ->. reflexivity. Qed.

Lemma strip_any_text_byte (ps : list (list ascii)) (c : ascii)
    (y : list ascii) :
  forallb (fun p => match p with [] => false | _ => true end) ps = true ->
  (forall p, In p ps -> ~ In c p) ->
  strip_any ps (c :: y) = None.
Proof.
  induction ps as [|p ps IH]; simpl; [reflexivity|].
  intros Hne Hc. apply andb_prop in Hne. destruct Hne as (Hp & Hps).
  destruct p as [|a p]; [discriminate|]. simpl.
  destruct (Ascii.eqb a c) eqn:E.
  - apply Ascii.eqb_eq in E. subst a. exfalso.
    apply (Hc (c :: p)); left; reflexivity.
  - apply IH; [exact Hps|]. intros q Hq. apply Hc. right. exact Hq.
Qed.

Lemma text_byte_stops_trim_end (c : ascii) (y : list ascii) :
  is_text_byte c = true ->
  strip_any (map (@rev ascii) white_space) (c :: y) = None.
Proof.
  intros Hc. apply strip_any_text_byte.
  - reflexivity.
  - apply is_text_byte_protected. exact Hc.
Qed.

Lemma text_byte_stops_trim_start (c : ascii) (y : list ascii) :
  is_text_byte c = true -> strip_any white_space (c :: y) = None.
Proof.
  intros Hc. apply strip_any_text_byte.
  - reflexivity.
  - intros p Hp Hin. unfold is_text_byte in Hc. rewrite forallb_forall in Hc.
    specialize (Hc p Hp). apply negb_true_iff in Hc.
    assert (He : existsb (Ascii.eqb c) p = true).
    { apply existsb_exists. exists c. split; [exact Hin | apply Ascii.eqb_refl]. }
    congruence.
Qed.

Lemma blank_is_trimmed_start (y : list ascii) :
  strip_any white_space (LFc :: y) = Some y.
Proof. reflexivity. Qed.

Lemma blanks_are_trimmed_end (y : list ascii) :
  strip_any (map (@rev ascii) white_space) (LFc :: y) = Some y
  /\ strip_any (map (@rev ascii) white_space) (SPc :: y) = Some y.
Proof. split; reflexivity. Qed.

(** The bytes of the template: a line feed, the instruction from its first
    byte "Y" to its last byte ":", and two line feeds. *)
Lemma prompt_head_bytes :
  exists m : list ascii,
    list_ascii_of_string prompt_head =
      LFc :: "Y"%char :: m ++ [":"%char; LFc; LFc]
    /\ list_ascii_of_string (systemPrompt "") = "Y"%char :: m ++ [":"%char].
Proof.
  exists (removelast (tl (list_ascii_of_string (systemPrompt "")))).
  split; vm_compute; reflexivity.
Qed.

Lemma prompt_tail_bytes :
  list_ascii_of_string prompt_tail = [LFc; SPc; SPc; SPc; SPc].
Proof. reflexivity. Qed.

(** The bytes of the template once the grounding is in place, after
    [trimStart]. *)
Lemma template_trim_start (m gb : list ascii) :
  trim_start_bytes
    (LFc :: "Y"%char :: m ++ [":"%char; LFc; LFc] ++ gb
       ++ [LFc; SPc; SPc; SPc; SPc])
  = "Y"%char :: m ++ [":"%char; LFc; LFc] ++ gb ++ [LFc; SPc; SPc; SPc; SPc].
Proof.
  unfold trim_start_bytes. cbn [List.length].
  rewrite (strip_leading_step _ _ _ _ (blank_is_trimmed_start _)).
  apply strip_leading_stop. apply text_byte_stops_trim_start. reflexivity.
Qed.

Lemma template_bytes (m : list ascii) (g : string) :
  list_ascii_of_string prompt_head =
    LFc :: "Y"%char :: m ++ [":"%char; LFc; LFc] ->
  list_ascii_of_string (prompt_head ++ g ++ prompt_tail) =
  LFc :: "Y"%char :: m ++ [":"%char; LFc; LFc] ++ list_ascii_of_string g
    ++ [LFc; SPc; SPc; SPc; SPc].
Proof.
  intros Hh. rewrite !list_ascii_of_string_app, Hh, prompt_tail_bytes.
  simpl. rewrite <- !app_assoc. reflexivity.
Qed.

(** X14.  Whatever the grounding is, the system prompt begins with the
    whole fixed instruction (the persona, the goals, the safety rules and
    the style, from "You are Kozani" to "word-for-word):"), which is the
    template text without the white space around it: [trim] can remove
    white space at the end of the grounding, never any of the
    instruction. *)
Theorem system_prompt_keeps_instruction :
  prompt_head = (LF ++ systemPrompt "" ++ LF ++ LF)%string
  /\ forall grounding : string,
       exists rest : string,
         systemPrompt grounding = (systemPrompt "" ++ rest)%string.
Proof.
  split; [vm_compute; reflexivity|].
  intros g. destruct prompt_head_bytes as (m & Hh & Hi).
  remember (systemPrompt "") as instruction eqn:Hdef. clear Hdef.
  unfold systemPrompt, js_trim.
  rewrite (template_bytes m g Hh), template_trim_start.
  destruct (trim_end_keeps ("Y"%char :: m)
              ([LFc; LFc] ++ list_ascii_of_string g
                 ++ [LFc; SPc; SPc; SPc; SPc])
              ":"%char eq_refl) as (t' & Ht).
  simpl in Ht |- *. rewrite Ht.
  exists (string_of_list_ascii t').
  rewrite <- (string_of_list_ascii_of_string instruction), Hi.
  change ("Y"%char :: m ++ ":"%char :: t')
    with (("Y"%char :: m) ++ ":"%char :: t').
  replace (("Y"%char :: m) ++ ":"%char :: t')
    with (("Y"%char :: m ++ [":"%char]) ++ t')
    by (simpl; rewrite <- app_assoc; reflexivity).
  apply string_of_list_ascii_app.
Qed.

(** The grounding ends with a byte that [trim] does not remove. *)
Definition ends_with_text (g : string) : bool :=
  match rev (list_ascii_of_string g) with
  | c :: _ => is_text_byte c
  | [] => false
  end.

Lemma strip_template_tail (fuel : nat) (c : ascii) (y : list ascii) :
  5 <= fuel ->
  is_text_byte c = true ->
  strip_leading (map (@rev ascii) white_space) fuel
    (SPc :: SPc :: SPc :: SPc :: LFc :: c :: y) = c :: y.
Proof.
  intros Hf Hc.
  do 5 (destruct fuel as [|fuel]; [lia|]).
  rewrite !(strip_leading_step _ _ _ _ (proj2 (blanks_are_trimmed_end _))).
  rewrite (strip_leading_step _ _ _ _ (proj1 (blanks_are_trimmed_end _))).
  apply strip_leading_stop, text_byte_stops_trim_end. exact Hc.
Qed.

(** X15.  A grounding that ends with a byte of text (any printable ASCII
    character is one) is in the system prompt as it is: the prompt is the
    fixed instruction, one blank line and the grounding, and the line feed
    and the indentation that follow it in the template are removed. *)
Theorem grounding_ends_the_prompt (grounding : string) :
  ends_with_text grounding = true ->
  systemPrompt grounding = (systemPrompt "" ++ LF ++ LF ++ grounding)%string.
Proof.
  intros He. destruct prompt_head_bytes as (m & Hh & Hi).
  remember (systemPrompt "") as instruction eqn:Hdef. clear Hdef.
  unfold systemPrompt, js_trim.
  rewrite (template_bytes m grounding Hh), template_trim_start.
  unfold ends_with_text in He.
  destruct (rev (list_ascii_of_string grounding)) as [|c r] eqn:Hr;
    [discriminate|].
  assert (Hg : list_ascii_of_string grounding = (rev r ++ [c])%list).
  { rewrite <- (rev_involutive (list_ascii_of_string grounding)), Hr.
    reflexivity. }
  remember ("Y"%char :: m ++ [":"%char; LFc; LFc] ++ rev r)%list as x
    eqn:Hxdef.
  assert (Hx : ("Y"%char :: m ++ [":"%char; LFc; LFc]
                  ++ list_ascii_of_string grounding
                  ++ [LFc; SPc; SPc; SPc; SPc])%list
               = (x ++ c :: [LFc; SPc; SPc; SPc; SPc])%list).
  { rewrite Hg, Hxdef. simpl. rewrite <- !app_assoc. reflexivity. }
  rewrite Hx. unfold trim_end_bytes.
  assert (Hrev : rev (x ++ c :: [LFc; SPc; SPc; SPc; SPc])
                 = (SPc :: SPc :: SPc :: SPc :: LFc :: c :: rev x)%list).
  { rewrite rev_app_distr. reflexivity. }
  rewrite Hrev, strip_template_tail;
    [|rewrite length_app; simpl; lia | exact He].
  change (rev (c :: rev x)) with (rev (rev x) ++ [c])%list.
  rewrite rev_involutive.
  rewrite <- (string_of_list_ascii_of_string instruction), Hi.
  rewrite <- (string_of_list_ascii_of_string grounding), Hg.
  rewrite Hxdef.
  replace (("Y"%char :: m ++ [":"%char; LFc; LFc] ++ rev r) ++ [c])%list
    with (("Y"%char :: m ++ [":"%char])
            ++ (LFc :: LFc :: rev r ++ [c]))%list
    by (simpl; rewrite <- !app_assoc; reflexivity).
  rewrite string_of_list_ascii_app. reflexivity.
Qed.

Lemma grounding_ends_the_prompt_witness :
  systemPrompt "Rest when you can."
  = (systemPrompt "" ++ LF ++ LF ++ "Rest when you can.")%string
  /\ forallb (fun n => is_text_byte (ascii_of_nat n)) (seq 33 94) = true.
Proof.
  split.
  - apply (grounding_ends_the_prompt "Rest when you can."). reflexivity.
  - reflexivity.
Defined.

(* ================================================================== *)
(** ** Writing a message and reading it back *)
(* ================================================================== *)

(** Every stored message was stamped before the present time of the
    store. *)
Definition stamped_before (t : Z) (tbl : list MessageRow) : Prop :=
  Forall (fun m => (msg_created_at m < t)%Z) tbl.

Lemma order_desc_newest (row : MessageRow) (l : list MessageRow) :
  stamped_before (msg_created_at row) l ->
  order_by_created_at_desc (l ++ [row]) = row :: order_by_created_at_desc l.
Proof.
  unfold order_by_created_at_desc. rewrite fold_right_app. simpl.
  induction 1 as [|x l Hx Hl IH]; simpl; [reflexivity|].
  rewrite IH. simpl.
  replace (msg_created_at row <? msg_created_at x)%Z with false
    by (symmetry; apply Z.ltb_ge; lia).
  reflexivity.
Qed.

Lemma stamped_before_filter (t : Z) (f : MessageRow -> bool)
    (tbl : list MessageRow) :
  stamped_before t tbl -> stamped_before t (filter f tbl).
Proof.
  unfold stamped_before. rewrite !Forall_forall. intros H m Hm.
  apply filter_In in Hm. apply H. exact (proj1 Hm).
Qed.

(** The newest message of the user is the last of the history, after the
    history of one message less. *)
Lemma history_newest (user_id : JsVal) (k : nat) (tbl : list MessageRow)
    (row : MessageRow) :
  sql_eq (msg_user_id row) user_id = true ->
  stamped_before (msg_created_at row) tbl ->
  history user_id (S k) (tbl ++ [row]) = history user_id k tbl ++ [row].
Proof.
  intros Hu Hs. unfold history, recent_rows.
  rewrite filter_app. simpl. rewrite Hu.
  rewrite order_desc_newest by (apply stamped_before_filter; exact Hs).
  reflexivity.
Qed.

Lemma history_two_newest (user_id : JsVal) (k : nat) (tbl : list MessageRow)
    (row1 row2 : MessageRow) :
  sql_eq (msg_user_id row1) user_id = true ->
  sql_eq (msg_user_id row2) user_id = true ->
  stamped_before (msg_created_at row1) tbl ->
  (msg_created_at row1 < msg_created_at row2)%Z ->
  history user_id (S (S k)) (tbl ++ [row1; row2]) =
  history user_id k tbl ++ [row1; row2].
Proof.
  intros Hu1 Hu2 Hs Hlt.
  change (tbl ++ [row1; row2]) with (tbl ++ [row1] ++ [row2]).
  rewrite app_assoc, history_newest; [|exact Hu2|].
  - rewrite history_newest by assumption. rewrite <- app_assoc. reflexivity.
  - unfold stamped_before in *. apply Forall_app. split.
    + eapply Forall_impl; [|exact Hs]. simpl. intros; lia.
    + constructor; [exact Hlt | constructor].
Qed.

(** X16.  Round trip through the store.  After [saveMessage] has stored a
    message for a user, [getRecentMessages] for that user with a limit of
    [k + 1] returns what a limit of [k] returned before, followed by the
    role and the content of the new message: the message just written is
    the last one read. *)
Theorem saved_message_is_read_last
    (user_id role content : JsVal) (k : nat) (w : World) :
  truthy user_id = true ->
  store_fault w (store_calls w) = None ->
  store_fault w (S (store_calls w)) = None ->
  stamped_before (clock w) (messages_table w) ->
  let w1 := snd (saveMessage user_id role content w) in
  fst (getRecentMessages user_id (Some (S k)) w1) =
  Ok (map message_columns (history user_id k (messages_table w))
      ++ [JObj [("role", role); ("content", content)]]).
Proof.
  intros Hu Hs0 Hs1 Hst w1.
  assert (Hw1 : w1 = add_message (mkMessageRow user_id role content (clock w))
                       (sent (InsertMessage user_id role content) w)).
  { unfold w1. rewrite saveMessage_run, Hs0. reflexivity. }
  rewrite getRecentMessages_answered by (rewrite Hw1; exact Hs1).
  rewrite Hw1. simpl fst. simpl messages_table.
  rewrite history_newest; [| apply sql_eq_refl; exact Hu | exact Hst].
  rewrite map_app. reflexivity.
Qed.

Lemma saved_message_is_read_last_witness :
  fst (getRecentMessages (JNum 7) (Some 2)
         (snd (saveMessage (JNum 7) (JStr "user") (JStr "fourth")
                 sample_world)))
  = Ok [JObj [("role", JStr "user"); ("content", JStr "third")];
        JObj [("role", JStr "user"); ("content", JStr "fourth")]].
Proof.
  rewrite (saved_message_is_read_last (JNum 7) (JStr "user") (JStr "fourth")
             1 sample_world eq_refl eq_refl eq_refl).
  - reflexivity.
  - repeat constructor.
Defined.

(** X17.  The memory across two requests.  When a chat request of a user
    has been answered and its two messages stored, the prompt of the next
    request of that user ends with that exchange: after the system
    instruction come the six most recent older messages, then the previous
    utterance with role "user", the previous reply with role "assistant",
    and the new utterance.  (When the texts of the new snippets cannot be
    joined, the request gets the 500 apology instead.) *)
Theorem chat_remembers_previous_exchange
    (first second : JsVal) (w : World) (turns : list Turn) (w1 : World)
    (answer : JsVal) (w2 : World) (texts : list JsVal) :
  let user_id := field first "user_id" in
  truthy (field first "query") = true ->
  truthy user_id = true ->
  assemble_prompt (field first "query") (snippets_of first) user_id w
    = (Ok turns, w1) ->
  generate_answer turns w1 = (Ok answer, w2) ->
  store_fault w2 (store_calls w2) = None ->
  store_fault w2 (S (store_calls w2)) = None ->
  store_fault w2 (S (S (store_calls w2))) = None ->
  stamped_before (clock w) (messages_table w) ->
  field second "user_id" = user_id ->
  truthy (field second "query") = true ->
  map_text (snippets_of second) = Ok texts ->
  let w' := snd (chat_handler first w) in
  match array_join (LF ++ LF) texts with
  | Ok _ =>
      exists request,
        In (EvGroq request) (new_events w' (snd (chat_handler second w')))
        /\ messages request =
           mkTurn (JStr "system")
             (JStr (systemPrompt (js_join (LF ++ LF) texts)))
           :: map turn_of_message (history user_id 6 (messages_table w))
           ++ [mkTurn (JStr "user") (field first "query");
               mkTurn (JStr "assistant") answer;
               mkTurn (JStr "user") (field second "query")]
  | Throw e =>
      chat_handler second w'
      = (Ok backend_error_response, emit (EvLog chat_label e) w')
  end.
Proof.
  intros user_id Hq1 Hu Ha Hg Hs0 Hs1 Hs2 Hst Hu2 Hq2 Ht w'.
  destruct (array_join (LF ++ LF) texts) as [g|e] eqn:Hj.
  2:{ rewrite (chat_handler_run _ _ Hq2), assemble_prompt_run.
      unfold joined_texts. rewrite Ht, Hj. reflexivity. }
  pose proof (joined_texts_intro _ _ _ Ht Hj) as Hjt.
  assert (Hw' : w' = snd (persist_turns user_id (field first "query") answer w2)).
  { unfold w'. rewrite (chat_handler_run _ _ Hq1). fold user_id.
    rewrite Ha, Hg. reflexivity. }
  destruct (assemble_prompt_frame (field first "query") (snippets_of first)
              user_id w) as (_ & Hm1 & Hc1 & _).
  rewrite Ha in Hm1, Hc1. simpl in Hm1, Hc1.
  destruct (generate_answer_frame turns w1) as (_ & Hm2 & Hc2 & _).
  rewrite Hg in Hm2, Hc2. simpl in Hm2, Hc2.
  destruct (persist_turns_frame user_id (field first "query") answer w2)
    as ((_ & _ & Hf & _) & Hn).
  cbv zeta in Hf, Hn. rewrite Hu in Hn. rewrite <- Hw' in Hf, Hn.
  pose proof (persist_turns_table user_id (field first "query") answer w2)
    as Htbl.
  rewrite <- Hw' in Htbl. unfold persisted_rows in Htbl.
  rewrite Hu, Hs0, Hs1 in Htbl. simpl in Htbl.
  rewrite Hm2, Hm1, Hc2, Hc1 in Htbl.
  assert (Hsel : store_fault w' (store_calls w') = None).
  { rewrite Hf, Hn. replace (store_calls w2 + 2) with (S (S (store_calls w2)))
      by lia. exact Hs2. }
  exists (chat_request
            (prompt_turns texts (history user_id 8 (messages_table w'))
               (field second "query"))).
  split.
  - rewrite (chat_handler_events _ _ Hq2). cbv zeta.
    rewrite assemble_prompt_run, Hjt, Hu2, Hu, Hsel.
    apply in_or_app. right. left. reflexivity.
  - rewrite Htbl.
    rewrite (history_two_newest user_id 6);
      [| apply sql_eq_refl; exact Hu | apply sql_eq_refl; exact Hu
       | exact Hst | simpl; lia].
    unfold prompt_turns. simpl. rewrite map_app, <- app_assoc. reflexivity.
Qed.

Lemma chat_remembers_previous_exchange_witness :
  exists request,
    In (EvGroq request)
       (new_events (snd (chat_handler tired_request sample_world))
          (snd (chat_handler blank_query_with_user
                  (snd (chat_handler tired_request sample_world)))))
    /\ map (fun t => (role t, content t)) (tl (messages request)) =
       [(JStr "user", JStr "first"); (JStr "assistant", JStr "second");
        (JStr "user", JStr "third"); (JStr "user", JStr "I feel tired");
        (JStr "assistant", JStr "You are not alone.");
        (JStr "user", JStr " ")].
Proof.
  destruct (chat_remembers_previous_exchange tired_request
              blank_query_with_user sample_world tired_turns
              (sent (SelectRecentMessages (JNum 7) 8) sample_world)
              (JStr "You are not alone.")
              (emit (EvGroq (chat_request tired_turns))
                 (sent (SelectRecentMessages (JNum 7) 8) sample_world))
              [] eq_refl eq_refl)
    as (request & Hin & Hm).
  - rewrite assemble_prompt_run. reflexivity.
  - rewrite generate_answer_run. reflexivity.
  - reflexivity.
  - reflexivity.
  - reflexivity.
  - repeat constructor.
  - reflexivity.
  - reflexivity.
  - reflexivity.
  - exists request. split; [exact Hin|]. rewrite Hm. reflexivity.
Defined.

(* ================================================================== *)
(** ** The table of messages under the chat handler *)
(* ================================================================== *)

Lemma messages_are_append_only_rows (req_body : JsVal) (w : World) :
  exists rows,
    messages_table (snd (chat_handler req_body w)) = messages_table w ++ rows
    /\ (forall m, In m rows -> msg_user_id m = field req_body "user_id").
Proof.
  exists (new_messages w (snd (chat_handler req_body w))).
  split; [apply chat_handler_table|].
  intros m Hm. exact (proj1 (stored_messages_have_user _ _ _ Hm)).
Qed.

(** X18.  The chat handler only appends to [messages]: after a request the
    table is the table before followed by at most two new rows, which are
    under the user id of the request (one that the test [if (user_id)]
    accepts), with role "user" and the query, or role "assistant"; no stored
    message is changed or removed. *)
Theorem messages_are_append_only (req_body : JsVal) (w : World) :
  exists rows,
    messages_table (snd (chat_handler req_body w)) = messages_table w ++ rows
    /\ List.length rows <= 2
    /\ (forall m, In m rows ->
          msg_user_id m = field req_body "user_id"
          /\ truthy (msg_user_id m) = true
          /\ ((msg_role m = JStr "user"
               /\ msg_content m = field req_body "query")
              \/ msg_role m = JStr "assistant")).
Proof.
  exists (new_messages w (snd (chat_handler req_body w))).
  split; [apply chat_handler_table|].
  rewrite chat_handler_new_messages. cbv zeta.
  destruct (truthy (field req_body "query"));
    [|split; [simpl; lia | contradiction]].
  destruct (assemble_prompt _ _ _ w) as [[turns|e] w1];
    [|split; [simpl; lia | contradiction]].
  destruct (generate_answer turns w1) as [[answer|e] w2];
    [|split; [simpl; lia | contradiction]].
  unfold persisted_rows.
  destruct (truthy (field req_body "user_id")) eqn:Hu;
    [|split; [simpl; lia | contradiction]].
  destruct (store_fault w2 (store_calls w2));
    destruct (store_fault w2 (S (store_calls w2))); simpl;
    (split; [lia|]); intros m Hm;
    repeat (destruct Hm as [<-|Hm]; [simpl; auto|]); contradiction.
Qed.

Lemma persist_turns_clock (user_id query answer : JsVal) (w : World) :
  clock (snd (persist_turns user_id query answer w)) =
  (clock w + Z.of_nat (List.length (persisted_rows user_id query answer w)))%Z.
Proof.
  rewrite persist_turns_world. unfold persisted_rows.
  destruct (truthy user_id); [|simpl; lia].
  rewrite !saveMessage_run. simpl.
  destruct (store_fault w (store_calls w)); simpl;
    destruct (store_fault w (S (store_calls w))); simpl; lia.
Qed.

Lemma stamped_before_later (t t' : Z) (tbl : list MessageRow) :
  (t <= t')%Z -> stamped_before t tbl -> stamped_before t' tbl.
Proof.
  intros Hle H. unfold stamped_before in *.
  eapply Forall_impl; [|exact H]. simpl. intros; lia.
Qed.

Lemma persisted_rows_stamped (user_id query answer : JsVal) (w : World) :
  stamped_before
    (clock w + Z.of_nat (List.length (persisted_rows user_id query answer w)))
    (persisted_rows user_id query answer w).
Proof.
  unfold persisted_rows, stamped_before.
  destruct (truthy user_id); [|constructor].
  destruct (store_fault w (store_calls w));
    destruct (store_fault w (S (store_calls w))); simpl;
    repeat constructor; simpl; lia.
Qed.

(** X19.  The chat handler keeps the stamps of the stored messages in the
    past of the store: if every stored message was stamped before the time
    of the store, the same holds after the request, new rows included. *)
Theorem chat_keeps_stamps_in_the_past (req_body : JsVal) (w : World) :
  stamped_before (clock w) (messages_table w) ->
  let w' := snd (chat_handler req_body w) in
  (clock w <= clock w')%Z
  /\ stamped_before (clock w') (messages_table w').
Proof.
  intros Hst. cbv zeta.
  destruct (truthy (field req_body "query")) eqn:Hq.
  2:{ rewrite (chat_handler_empty _ _ Hq). simpl. split; [lia | exact Hst]. }
  rewrite (chat_handler_run _ _ Hq).
  destruct (assemble_prompt_frame (field req_body "query")
              (snippets_of req_body) (field req_body "user_id") w)
    as (_ & Hm1 & Hc1 & _).
  destruct (assemble_prompt _ _ _ w) as [[turns|e] w1]; simpl in Hm1, Hc1.
  2:{ simpl. rewrite Hm1, Hc1. split; [lia | exact Hst]. }
  destruct (generate_answer_frame turns w1) as (_ & Hm2 & Hc2 & _).
  destruct (generate_answer turns w1) as [[answer|e] w2]; simpl in Hm2, Hc2.
  2:{ simpl. rewrite Hm2, Hm1, Hc2, Hc1. split; [lia | exact Hst]. }
  simpl snd. rewrite persist_turns_clock, persist_turns_table.
  rewrite Hm2, Hm1, Hc2, Hc1. split; [lia|].
  apply Forall_app. split.
  - eapply stamped_before_later; [|exact Hst]. lia.
  - rewrite <- Hc1, <- Hc2. apply persisted_rows_stamped.
Qed.

Lemma chat_keeps_stamps_in_the_past_witness :
  stamped_before
    (clock (snd (chat_handler tired_request sample_world)))
    (messages_table (snd (chat_handler tired_request sample_world))).
Proof.
  apply (chat_keeps_stamps_in_the_past tired_request sample_world).
  repeat constructor.
Defined.

Lemma history_ignores_other_rows (user_id : JsVal) (n : nat)
    (tbl rows : list MessageRow) :
  (forall m, In m rows -> sql_eq (msg_user_id m) user_id = false) ->
  history user_id n (tbl ++ rows) = history user_id n tbl.
Proof.
  intros H. unfold history, recent_rows. rewrite filter_app.
  replace (filter (fun m => sql_eq (msg_user_id m) user_id) rows) with
    (@nil MessageRow); [rewrite app_nil_r; reflexivity|].
  induction rows as [|m rows IH]; simpl; [reflexivity|].
  rewrite (H m (or_introl eq_refl)). apply IH.
  intros m' Hm'. apply H. right. exact Hm'.
Qed.

(** X20.  Users are kept apart.  A chat request of one user does not change
    the history of another: for a user id that the store does not match
    with the id of the request, [getRecentMessages] selects the same rows
    after the request as before it, whatever the limit. *)
Theorem chat_leaves_other_histories (req_body : JsVal) (w : World)
    (other : JsVal) (n : nat) :
  sql_eq (field req_body "user_id") other = false ->
  history other n (messages_table (snd (chat_handler req_body w)))
  = history other n (messages_table w).
Proof.
  intros Hne.
  destruct (messages_are_append_only_rows req_body w) as (rows & -> & Hr).
  apply history_ignores_other_rows.
  intros m Hm. rewrite (Hr m Hm). exact Hne.
Qed.

Lemma chat_leaves_other_histories_witness :
  history (JNum 8) 10
    (messages_table (snd (chat_handler tired_request sample_world)))
  = [mkMessageRow (JNum 8) (JStr "user") (JStr "other") 25].
Proof.
  rewrite (chat_leaves_other_histories tired_request sample_world (JNum 8) 10
             eq_refl).
  reflexivity.
Defined.

Definition is_log (e : Event) : bool :=
  match e with EvLog _ _ => true | _ => false end.

(** X21.  The login handler writes to the log exactly when it answers 500.
    A 500 response is always the same body, "Server error during login.",
    whatever failed (the body of the request, the store or bcrypt), and the
    error itself is the last event of the request, in the log; a response
    with another status leaves no line in the log. *)
Theorem login_hides_error_detail (req_body : JsVal) (w : World) :
  exists r w',
    login_handler req_body w = (Ok r, w')
    /\ (status r = 500 ->
        body r = JObj [("error", JStr "Server error during login.")]
        /\ exists e,
             filter is_log (new_events w w') = [EvLog "Login error:" e]
             /\ last (new_events w w') (EvQuery SelectNow)
                = EvLog "Login error:" e)
    /\ (status r <> 500 -> filter is_log (new_events w w') = []).
Proof.
  login_cases req_body w; eexists; eexists; (split; [reflexivity|]);
    (split;
     [ intros Hs;
       first
         [ discriminate Hs
         | split; [reflexivity|];
           eexists; erewrite new_events_app
             by (simpl; rewrite <- ?app_assoc; reflexivity);
           split; reflexivity ]
     | intros Hs;
       first
         [ exfalso; apply Hs; reflexivity
         | rewrite new_events_refl; reflexivity
         | erewrite new_events_app
             by (simpl; rewrite <- ?app_assoc; reflexivity);
           reflexivity ] ]).
Qed.

(* ================================================================== *)
(** ** The earlier chat handler *)
(* ================================================================== *)

(** The response of the earlier version: the same as [chat_response] with
    another model name in [meta]. *)
Definition first_chat_response (answer : JsVal) (grounded : bool)
    (language client : JsVal) : Response :=
  mkResponse 200
    (JObj [("answer", answer);
           ("safety", JObj [("ok", JBool true); ("flags", JArr [])]);
           ("meta", JObj [("model", JStr "gemma-2b-it");
                          ("provider", JStr "groq");
                          ("grounded", JBool grounded);
                          ("language", language);
                          ("client", client)])]).

(** The [try] block of the earlier version of [POST /api/kozani-chat],
    which has no user id, no memory and no store. *)
Definition first_chat_try (req_body : JsVal) : M Response :=
  let rawQuery := field req_body "query" in
  let snippets := snippets_of req_body in
  let language := language_of req_body in
  let client := field req_body "client" in
  if negb (truthy rawQuery)
  then ret empty_query_response
  else
    let query := rawQuery in
    texts <- lift (map_text snippets) ;;
    grounding <- lift (array_join (LF ++ LF) texts) ;;
    let systemPrompt := systemPrompt grounding in
    completion <-
      groq_create
        (mkGroqRequest "llama-3.1-8b-instant"
           [mkTurn (JStr "system") (JStr systemPrompt);
            mkTurn (JStr "user") query]
           (4 # 10) 400) ;;
    content <- lift (first_content completion) ;;
    let answer := js_coalesce content (JStr fallback_answer) in
    ret (first_chat_response answer (length_positive snippets) language client).

Definition first_chat_handler (req_body : JsVal) : M Response :=
  try_catch (first_chat_try req_body)
    (fun err =>
       console_error chat_label err ;;;
       ret backend_error_response).

(** The response with the model name of the earlier version. *)
Definition as_first_version (r : Response) : Response :=
  match r with
  | mkResponse 200
      (JObj [("answer", answer); safety;
             ("meta", JObj (("model", _) :: meta))]) =>
      mkResponse 200
        (JObj [("answer", answer); safety;
               ("meta", JObj (("model", JStr "gemma-2b-it") :: meta))])
  | _ => r
  end.

(** X22.  For a request without a user id the later chat handler does what
    the earlier one did: the same call to the generation service, the same
    log, the same world afterwards and the same response, except for the
    model named in [meta].  The earlier version answers "gemma-2b-it" there
    although, like the later one, it sends the request with the model
    "llama-3.1-8b-instant". *)
Theorem later_handler_extends_earlier (req_body : JsVal) (w : World) :
  truthy (field req_body "user_id") = false ->
  exists r w',
    chat_handler req_body w = (Ok r, w')
    /\ first_chat_handler req_body w = (Ok (as_first_version r), w')
    /\ (forall request, In (EvGroq request) (new_events w w') ->
          model request = "llama-3.1-8b-instant")
    /\ (status r = 200 ->
        get_prop (get_prop (body r) "meta") "model"
          = JStr "llama-3.1-8b-instant"
        /\ get_prop (get_prop (body (as_first_version r)) "meta") "model"
           = JStr "gemma-2b-it").
Proof.
  intros Hu.
  destruct (truthy (field req_body "query")) eqn:Hq.
  2:{ exists empty_query_response, w.
      split; [apply chat_handler_empty; exact Hq|].
      split; [unfold first_chat_handler, first_chat_try; rewrite Hq;
              reflexivity|].
      split; [rewrite new_events_refl; contradiction | discriminate]. }
  rewrite (chat_handler_run _ _ Hq), assemble_prompt_run, Hu.
  unfold first_chat_handler, first_chat_try, joined_texts. rewrite Hq.
  run_monad. cbn [negb].
  destruct (map_text (snippets_of req_body)) as [texts|e];
    [destruct (array_join (LF ++ LF) texts) as [g|e] eqn:Hj|].
  - apply array_join_ok in Hj. subst g.
    rewrite generate_answer_run. unfold groq_create.
    change (chat_request (prompt_turns texts [] (field req_body "query")))
      with (mkGroqRequest "llama-3.1-8b-instant"
              [mkTurn (JStr "system")
                 (JStr (systemPrompt (js_join (LF ++ LF) texts)));
               mkTurn (JStr "user") (field req_body "query")] (4 # 10) 400).
    destruct (groq_answer w _) as [completion|d].
    + destruct (first_content completion) as [content|e].
      * rewrite persist_turns_world, Hu.
        eexists. eexists. split; [reflexivity|]. split; [reflexivity|].
        split; [|intros _; split; reflexivity].
        intros request Hin. erewrite new_events_app in Hin by reflexivity.
        destruct Hin as [H|[]]. injection H as <-. reflexivity.
      * eexists. eexists. split; [reflexivity|]. split; [reflexivity|].
        split; [|discriminate].
        intros request Hin.
        erewrite new_events_app in Hin
          by (simpl; rewrite <- app_assoc; reflexivity).
        destruct Hin as [H|[H|[]]]; [|discriminate].
        injection H as <-. reflexivity.
    + eexists. eexists. split; [reflexivity|]. split; [reflexivity|].
      split; [|discriminate].
      intros request Hin.
      erewrite new_events_app in Hin
        by (simpl; rewrite <- app_assoc; reflexivity).
      destruct Hin as [H|[H|[]]]; [|discriminate].
      injection H as <-. reflexivity.
  - eexists. eexists. split; [reflexivity|]. split; [reflexivity|].
    split; [|discriminate].
    intros request Hin. erewrite new_events_app in Hin by reflexivity.
    destruct Hin as [H|[]]. discriminate.
  - eexists. eexists. split; [reflexivity|]. split; [reflexivity|].
    split; [|discriminate].
    intros request Hin. erewrite new_events_app in Hin by reflexivity.
    destruct Hin as [H|[]]. discriminate.
Qed.

Lemma later_handler_extends_earlier_witness :
  exists r w',
    first_chat_handler blank_query_request sample_world = (Ok r, w')
    /\ get_prop (get_prop (body r) "meta") "model" = JStr "gemma-2b-it"
    /\ new_events sample_world w'
       = [EvGroq (chat_request (prompt_turns [] [] (JStr " ")))].
Proof.
  destruct (later_handler_extends_earlier blank_query_request sample_world
              eq_refl) as (r & w' & H2 & H1 & _ & Hm).
  exists (as_first_version r), w'. split; [exact H1|].
  assert (Hr : chat_handler blank_query_request sample_world
               = (Ok (chat_response (JStr "You are not alone.") false
                        (JStr "en") JUndefined),
                  emit (EvGroq (chat_request (prompt_turns [] [] (JStr " "))))
                    sample_world)).
  { rewrite chat_handler_run by reflexivity.
    rewrite assemble_prompt_run.
    change (joined_texts (snippets_of blank_query_request))
      with (@Ok (list JsVal) []).
    change (truthy (field blank_query_request "user_id")) with false.
    cbv iota. rewrite generate_answer_run. reflexivity. }
  rewrite Hr in H2. injection H2 as <- <-.
  split; reflexivity.
Defined.

(* ================================================================== *)
(** ** The turns given to the generation service *)
(* ================================================================== *)

Lemma fixed_instruction_bytes :
  exists m : list ascii,
    list_ascii_of_string prompt_head =
      LFc :: "Y"%char :: m ++ [":"%char; LFc; LFc]
    /\ list_ascii_of_string fixed_instruction = "Y"%char :: m ++ [":"%char].
Proof.
  exists (removelast (tl (list_ascii_of_string fixed_instruction))).
  split; vm_compute; reflexivity.
Qed.

(** The template is a line feed, the fixed instruction and a blank line;
    without grounding the prompt is the fixed instruction. *)
Lemma fixed_instruction_in_template :
  prompt_head = (LF ++ fixed_instruction ++ LF ++ LF)%string
  /\ systemPrompt "" = fixed_instruction.
Proof. split; vm_compute; reflexivity. Qed.

Lemma append_empty_r (s : string) : (s ++ "")%string = s.
Proof. induction s as [|c s IH]; simpl; [reflexivity|]. rewrite IH. reflexivity. Qed.

Lemma append_inv_head (p a b : string) :
  (p ++ a)%string = (p ++ b)%string -> a = b.
Proof.
  induction p as [|c p IH]; simpl; intros H; [exact H|].
  injection H as H. apply IH. exact H.
Qed.

(** [trim] removes none of the instruction. *)
Lemma instruction_starts_prompt (grounding : string) :
  exists rest : string,
    systemPrompt grounding = (fixed_instruction ++ rest)%string.
Proof.
  destruct fixed_instruction_bytes as (m & Hh & Hi).
  remember fixed_instruction as instruction eqn:Hdef. clear Hdef.
  unfold systemPrompt, js_trim.
  rewrite (template_bytes m grounding Hh), template_trim_start.
  destruct (trim_end_keeps ("Y"%char :: m)
              ([LFc; LFc] ++ list_ascii_of_string grounding
                 ++ [LFc; SPc; SPc; SPc; SPc])
              ":"%char eq_refl) as (t' & Ht).
  simpl in Ht |- *. rewrite Ht.
  exists (string_of_list_ascii t').
  rewrite <- (string_of_list_ascii_of_string instruction), Hi.
  replace ("Y"%char :: m ++ ":"%char :: t')
    with (("Y"%char :: m ++ [":"%char]) ++ t')%list
    by (simpl; rewrite <- app_assoc; reflexivity).
  apply string_of_list_ascii_app.
Qed.

(** After a grounding that ends with text, [trim] removes the end of the
    template and nothing of the grounding. *)
Lemma instruction_then_grounding (grounding : string) :
  ends_with_text grounding = true ->
  systemPrompt grounding
  = (fixed_instruction ++ LF ++ LF ++ grounding)%string.
Proof.
  intros He. destruct fixed_instruction_bytes as (m & Hh & Hi).
  remember fixed_instruction as instruction eqn:Hdef. clear Hdef.
  unfold systemPrompt, js_trim.
  rewrite (template_bytes m grounding Hh), template_trim_start.
  unfold ends_with_text in He.
  destruct (rev (list_ascii_of_string grounding)) as [|c r] eqn:Hr;
    [discriminate|].
  assert (Hg : list_ascii_of_string grounding = (rev r ++ [c])%list).
  { rewrite <- (rev_involutive (list_ascii_of_string grounding)), Hr.
    reflexivity. }
  remember ("Y"%char :: m ++ [":"%char; LFc; LFc] ++ rev r)%list as x
    eqn:Hxdef.
  assert (Hx : ("Y"%char :: m ++ [":"%char; LFc; LFc]
                  ++ list_ascii_of_string grounding
                  ++ [LFc; SPc; SPc; SPc; SPc])%list
               = (x ++ c :: [LFc; SPc; SPc; SPc; SPc])%list).
  { rewrite Hg, Hxdef. simpl. rewrite <- !app_assoc. reflexivity. }
  rewrite Hx. unfold trim_end_bytes.
  assert (Hrev : rev (x ++ c :: [LFc; SPc; SPc; SPc; SPc])
                 = (SPc :: SPc :: SPc :: SPc :: LFc :: c :: rev x)%list).
  { rewrite rev_app_distr. reflexivity. }
  rewrite Hrev, strip_template_tail;
    [|rewrite length_app; simpl; lia | exact He].
  change (rev (c :: rev x)) with (rev (rev x) ++ [c])%list.
  rewrite rev_involutive.
  rewrite <- (string_of_list_ascii_of_string instruction), Hi.
  rewrite <- (string_of_list_ascii_of_string grounding), Hg.
  rewrite Hxdef.
  replace (("Y"%char :: m ++ [":"%char; LFc; LFc] ++ rev r) ++ [c])%list
    with (("Y"%char :: m ++ [":"%char])
            ++ (LFc :: LFc :: rev r ++ [c]))%list
    by (simpl; rewrite <- !app_assoc; reflexivity).
  rewrite string_of_list_ascii_app. reflexivity.
Qed.

(** C1.  For a chat request that carries a user id (one that the test
    [if (user_id)] accepts, as is every id under which the handler stores
    messages), the turns of every request sent to the generation service
    are, in this order: one turn with role "system" whose content begins
    with the fixed instruction, the text "You are Kozani ... (but do not
    quote it word-for-word):" of the source, followed by nothing when the
    grounding block is empty and by a blank line and the grounding block
    when that block ends with text; then the stored messages of the user
    that [getRecentMessages] selects, oldest first, at most 8 of them, the
    most recent ones, each with its own role and content; then the new
    utterance with role "user". *)
Theorem prompt_is_chronological
    (req_body : JsVal) (w : World) (r : GroqRequest) :
  let query := field req_body "query" in
  let user_id := field req_body "user_id" in
  truthy user_id = true ->
  In (EvGroq r) (new_events w (snd (chat_handler req_body w))) ->
  exists (texts : list JsVal) (grounding rest : string),
    map_text (snippets_of req_body) = Ok texts
    /\ array_join (LF ++ LF) texts = Ok grounding
    /\ js_trim (prompt_head ++ grounding ++ prompt_tail)
       = (fixed_instruction ++ rest)%string
    /\ (grounding = ""%string -> rest = ""%string)
    /\ (ends_with_text grounding = true ->
        rest = (LF ++ LF ++ grounding)%string)
    /\ let prior :=
         rev (firstn 8 (order_by_created_at_desc
                          (messages_of user_id (messages_table w)))) in
       messages r =
         [mkTurn (JStr "system") (JStr (fixed_instruction ++ rest))]
         ++ map (fun m => mkTurn (msg_role m) (msg_content m)) prior
         ++ [mkTurn (JStr "user") query]
       /\ StronglySorted created_le prior
       /\ List.length prior <= 8
       /\ (forall m, In m prior ->
             In m (messages_table w) /\ sql_eq (msg_user_id m) user_id = true)
       /\ (forall m m', In m prior ->
             In m' (messages_of user_id (messages_table w)) ->
             ~ In m' prior -> created_le m' m).
Proof.
  intros query user_id Hu H.
  apply chat_handler_groq_call in H.
  destruct H as (Hq & turns & w1 & Ha & ->).
  fold query user_id in Ha.
  rewrite assemble_prompt_run, Hu in Ha.
  destruct (joined_texts (snippets_of req_body)) as [texts|e] eqn:Hjt;
    [|discriminate].
  destruct (joined_texts_ok _ _ Hjt) as (Hm & Hj).
  destruct (store_fault w (store_calls w)); [discriminate|].
  injection Ha as <- _.
  remember (js_join (LF ++ LF) texts) as grounding eqn:Hgdef.
  destruct (instruction_starts_prompt grounding) as (rest & Hrest).
  exists texts, grounding, rest.
  split; [exact Hm|]. split; [exact Hj|]. split; [exact Hrest|].
  split.
  { intros ->. apply (append_inv_head fixed_instruction).
    rewrite <- Hrest, append_empty_r.
    exact (proj2 fixed_instruction_in_template). }
  split.
  { intros He. apply (append_inv_head fixed_instruction).
    rewrite <- Hrest. apply instruction_then_grounding. exact He. }
  change (rev (firstn 8 (order_by_created_at_desc
                           (messages_of user_id (messages_table w)))))
    with (history user_id 8 (messages_table w)).
  cbv zeta.
  split.
  { unfold prompt_turns. rewrite <- Hgdef.
    change (messages (chat_request ?t)) with t.
    rewrite Hrest. reflexivity. }
  split; [apply history_oldest_first|].
  split; [apply history_bounded|].
  split; [apply history_In|].
  apply history_most_recent.
Qed.

(** The request of a user with three stored messages and no snippets: the
    five turns given to the generation service. *)
Lemma prompt_is_chronological_witness :
  exists r,
    In (EvGroq r)
       (new_events sample_world (snd (chat_handler tired_request sample_world)))
    /\ map (fun t => (role t, content t)) (messages r) =
       [(JStr "system", JStr fixed_instruction);
        (JStr "user", JStr "first"); (JStr "assistant", JStr "second");
        (JStr "user", JStr "third"); (JStr "user", JStr "I feel tired")].
Proof.
  assert (Hin : In (EvGroq (chat_request tired_turns))
                   (new_events sample_world
                      (snd (chat_handler tired_request sample_world)))).
  { rewrite chat_handler_events by reflexivity.
    rewrite assemble_prompt_run. simpl. auto. }
  eexists. split; [exact Hin|].
  destruct (prompt_is_chronological tired_request sample_world _ eq_refl Hin)
    as (texts & grounding & rest & Ht & Hj & _ & Hnone & _ & Hm & _).
  injection Ht as <-. injection Hj as <-.
  rewrite Hm, (Hnone eq_refl), append_empty_r.
  reflexivity.
Defined.
